(** * NVDA Remote: secure desktop continuity, and the handler registrar

    A shallow embedding of
    - [source/_remoteClient/secureDesktop.py] (class [SecureDesktopHandler]),
    - [source/extensionPoints/util.py] (class [HandlerRegistrar]),
    with the properties of the specification stated over it.

    Conventions of the embedding.
    - A method of [SecureDesktopHandler] is a computation in the monad [M]:
      it reads and updates the handler object and the kernel objects it
      shares with the other NVDA process, may raise a Python exception, and
      records every call it makes on the operating system or on a
      collaborator object, in program order.  Calls on [log] are not
      recorded.
    - What the operating system and the collaborators answer during one
      method call is given by a record [Env]; theorems quantify over it. *)

From Stdlib Require Import ZArith NArith List String Ascii Bool Lia DecimalString
  Permutation.
Import ListNotations.

Local Open Scope string_scope.
Local Open Scope list_scope.

(** ** Python and ctypes primitives used by the handler *)

Module Py.

(** [str(n)] for an [int]. *)
Definition str_int (n : Z) : string := NilZero.string_of_int (Z.to_int n).

Definition dquote : string := String (ascii_of_N 34) EmptyString.

Definition hex_digit (n : N) : ascii :=
  ascii_of_N (if (n <? 10)%N then 48 + n else 87 + n).

(** One character of [json.encoder.py_encode_basestring_ascii]: the quote
    and the backslash are escaped, the usual control characters have a short
    escape, the other characters outside [' '..'~'] become [\u00xx]. *)
Definition escape_char (c : ascii) : string :=
  let n := N_of_ascii c in
  if (n =? 34)%N then String (ascii_of_N 92) dquote
  else if (n =? 92)%N then "\\"
  else if (n =? 10)%N then "\n"
  else if (n =? 13)%N then "\r"
  else if (n =? 9)%N then "\t"
  else if (n =? 12)%N then "\f"
  else if (n =? 8)%N then "\b"
  else if ((32 <=? n) && (n <=? 126))%N then String c EmptyString
  else "\u00" ++ String (hex_digit (n / 16)) (String (hex_digit (n mod 16)) EmptyString).

Fixpoint escape (s : string) : string :=
  match s with
  | EmptyString => EmptyString
  | String c s' => escape_char c ++ escape s'
  end.

(** [json.dumps(s)] for a [str]. *)
Definition json_dumps_str (s : string) : string := dquote ++ escape s ++ dquote.

(** [json.dumps([port, channel])] with the default separators. *)
Definition json_dumps (port : Z) (channel : string) : string :=
  "[" ++ str_int port ++ ", " ++ json_dumps_str channel ++ "]".

(** The values [json.loads] can return. *)
#[warnings="-register-all"] Inductive value :=
| VNone
| VBool (b : bool)
| VInt (n : Z)
| VFloat (text : string)
| VStr (s : string)
| VList (l : list value)
| VDict (items : list (string * value)).

(** [a, b = data]: the iteration of [data] must give exactly two items.  A
    list gives its elements, a string its characters, a dict its keys; the
    other values are not iterable. *)
Inductive unpack_result :=
| Unpacked (a b : value)
| UnpackValueError
| UnpackTypeError.

Definition iterate (data : value) : option (list value) :=
  match data with
  | VList l => Some l
  | VStr s => Some (map (fun c => VStr (String c EmptyString)) (list_ascii_of_string s))
  | VDict items => Some (map (fun kv => VStr (fst kv)) items)
  | _ => None
  end.

Definition unpack2 (data : value) : unpack_result :=
  match iterate data with
  | None => UnpackTypeError
  | Some [a; b] => Unpacked a b
  | Some _ => UnpackValueError
  end.

End Py.

(** ** The ctypes array [(WCHAR * n)] over shared memory *)

Module WCharArray.

(** The mapped memory is the list of its 16-bit code units; the array
    [(WCHAR * n).from_address(address)] is the view of its first [n]
    units. *)
Definition memory := list N.

Definition codes (s : string) : list N := map N_of_ascii (list_ascii_of_string s).

(** [buffer.value = s] on an array of [n] units.  ctypes refuses a string
    longer than the array ([ValueError], here [None]); otherwise it copies
    the characters, and a terminating null after them when the string is
    shorter than the array.  The units after those written are left as
    they were. *)
Definition set_value (n : nat) (mem : memory) (s : string) : option memory :=
  let cs := codes s in
  if (n <? List.length cs)%nat then None
  else
    let written := if (List.length cs <? n)%nat then cs ++ [0%N] else cs in
    Some (written ++ skipn (List.length written) mem).

(** [buffer[-1]] on an array of [n] units. *)
Definition last_unit (n : nat) (mem : memory) : N := nth (n - 1) mem 0%N.

(** [wstring_at(address)]: the code units up to the first null. *)
Fixpoint wstring_at (mem : memory) : list N :=
  match mem with
  | [] => []
  | c :: rest => if (c =? 0)%N then [] else c :: wstring_at rest
  end.

End WCharArray.

(** ** The Win32 event object

    [winBindings.kernel32], which binds [CreateEventW], [SetEvent],
    [ResetEvent] and [WaitForSingleObject], is not among the sources.  The
    event is modelled after the contract of the functions it binds: the
    arguments of [CreateEvent] are, in this order, the security attributes,
    [bManualReset], [bInitialState] and the name; an event is either signaled
    or not; a satisfied wait resets an auto-reset event and leaves a
    manual-reset event signaled. *)

Module Win32.

(** Values of [winBindings.kernel32.WAIT]. *)
Definition WAIT_OBJECT_0 : Z := 0.
Definition WAIT_ABANDONED : Z := 128.
Definition WAIT_TIMEOUT : Z := 258.
Definition WAIT_FAILED : Z := 4294967295.

(** An event object: how it was created, and whether it is signaled. *)
Record Event := mkEvent {
  bManualReset : bool;
  signaled : bool;
  lpName : string }.

(** [CreateEvent(lpEventAttributes, bManualReset, bInitialState, lpName)]
    on a name that does not exist yet. *)
Definition new_event (manual initial : bool) (name : string) : Event :=
  mkEvent manual initial name.

Definition set_signaled (e : Event) (b : bool) : Event :=
  mkEvent (bManualReset e) b (lpName e).

(** A wait that ends because the event is signaled: an auto-reset event
    goes back to the non-signaled state as the wait is satisfied, a
    manual-reset event stays signaled. *)
Definition after_satisfied_wait (e : Event) : Event :=
  if bManualReset e then e else set_signaled e false.

(** [WaitForSingleObject(event, ms)].  [fault] is the status of a wait that
    does not complete normally ([WAIT_FAILED], or any other value);
    otherwise the wait is satisfied when the event is signaled and times
    out when it is not. *)
Definition wait (fault : option Z) (e : Event) : Z * Event :=
  match fault with
  | Some status => (status, e)
  | None =>
      if signaled e then (WAIT_OBJECT_0, after_satisfied_wait e)
      else (WAIT_TIMEOUT, e)
  end.

End Win32.

(** ** The state of the embedding *)

(** Python objects are named by their identity. *)
Definition SessionRef := nat.
Definition TransportRef := nat.
Definition ServerRef := nat.
Definition RelayRef := nat.
Definition BridgeRef := nat.

(** The members of [RemoteMessageType] the handler names. *)
Inductive RemoteMessageType := CLIENT_JOINED | SET_BRAILLE_INFO | SET_DISPLAY_SIZE.

Inductive ConnectionMode := LEADER | FOLLOWER.

Record ConnectionInfo := mkConnectionInfo {
  hostname : string;
  mode : ConnectionMode;
  key : Py.value;
  port : Py.value;
  insecure : bool }.

(** The attributes of a [SecureDesktopHandler] object. *)
Record SecureDesktopHandler := mkHandler {
  _mapFile : option Z;
  _bufferAddress : option Z;
  _ipcEventHandle : Z;
  _followerSession : option SessionRef;
  sdServer : option ServerRef;
  sdRelay : option RelayRef;
  sdBridge : option BridgeRef }.

(** The kernel objects the two NVDA processes share by name: the memory of
    the file mapping [_IPC_FILENAME] and the event [_IPC_EVENTNAME]. *)
Record World := mkWorld {
  shm : WCharArray.memory;
  ipcEvent : Win32.Event }.

Record St := mkSt {
  self : SecureDesktopHandler;
  world : World }.

(** The exception classes that occur; all of them derive from [Exception],
    and [JSONDecodeError] derives from [ValueError]. *)
Inductive exn :=
| ValueError | JSONDecodeError | TypeError | RuntimeError | AttributeError
| OSError | ArgumentError | AssertionError.

Definition isinstance_ValueError (e : exn) : bool :=
  match e with
  | ValueError | JSONDecodeError => true
  | _ => false
  end.

(** The calls a method makes on the operating system and on its
    collaborators. *)
Inductive Op :=
| CallCreateEvent (bManualReset bInitialState : bool) (name : string)
| CallCreateFileMapping (size : Z) (name : string)
| CallOpenFileMapping (name : string)
| CallMapViewOfFile (mapFile size : Z)
| CallUnmapViewOfFile (address : Z)
| CallCloseHandle (handle : Z)
| CallSetEvent (handle : Z)
| CallResetEvent (handle : Z)
| CallWaitForSingleObject (handle milliseconds : Z)
| CallGetModuleFileName
| BufferSetValue (address : Z) (value : string)
| NewLocalRelayServer (server : ServerRef) (password : string)
| ServerClose (server : ServerRef)
| ThreadStartServerRun (server : ServerRef)
| NewRelayTransport (relay : RelayRef) (port : Z) (channel : string)
| RelayRegisterInbound (relay : RelayRef) (type : RemoteMessageType)
| RelayClose (relay : RelayRef)
| ThreadStartRelayRun (relay : RelayRef)
| NewBridgeTransport (bridge : BridgeRef) (t1 : TransportRef) (t2 : RelayRef)
| BridgeDisconnect (bridge : BridgeRef)
| TransportRegisterInbound (transport : TransportRef) (type : RemoteMessageType)
| TransportUnregisterInbound (transport : TransportRef) (type : RemoteMessageType)
| SessionSetDisplaySize (session : SessionRef)
| StateChangeRegister
| SocketProbe
| CallLocalListeningSocketExists (port : Py.value).

(** What the environment answers during one method call. *)
Record Env := mkEnv {
  (** [session.transport], as it is during the call *)
  transport : SessionRef -> option TransportRef;
  (** [CreateEvent]: the handle, and whether the named event existed already *)
  os_CreateEvent : option (Z * bool);
  (** [CreateFileMapping]: the handle, and whether the mapping existed already *)
  os_CreateFileMapping : option (Z * bool);
  os_OpenFileMapping : option Z;
  os_MapViewOfFile : option Z;
  os_UnmapViewOfFile : Z -> bool;
  os_closeHandle : Z -> bool;
  os_SetEvent : bool;
  os_ResetEvent : bool;
  (** the status of a wait that does not complete normally *)
  os_waitFault : option Z;
  (** [str(uuid.uuid4())] *)
  uuid4 : string;
  (** the objects the constructors return *)
  new_LocalRelayServer : ServerRef;
  new_RelayTransport : RelayRef;
  new_BridgeTransport : BridgeRef;
  (** [serverSocket.getsockname()[1]] *)
  getsockname_port : Z;
  (** [json.loads]; [None] when it raises [JSONDecodeError] *)
  json_loads : list N -> option Py.value;
  (** whether [socket.socket(...)] and [close()] succeed *)
  socket_ok : bool;
  (** [localLib.localListeningSocketExists(port, image)]; [None] when the
      argument conversion raises [ctypes.ArgumentError] *)
  os_localListeningSocketExists : Py.value -> option bool }.

(** ** The monad of method bodies *)

Inductive Outcome (A : Type) :=
| Returned (a : A)
| Raised (e : exn).
Arguments Returned {A} a.
Arguments Raised {A} e.

Definition M (A : Type) : Type := St -> Outcome A * St * list Op.

Definition ret {A} (a : A) : M A := fun st => (Returned a, st, []).

Definition bind {A B} (m : M A) (k : A -> M B) : M B :=
  fun st =>
    match m st with
    | (Returned a, st1, ops1) =>
        match k a st1 with
        | (out, st2, ops2) => (out, st2, ops1 ++ ops2)
        end
    | (Raised e, st1, ops1) => (Raised e, st1, ops1)
    end.

Definition raise {A} (e : exn) : M A := fun st => (Raised e, st, []).

(** [try: body  except: handler] *)
Definition try_except {A} (body : M A) (handler : exn -> M A) : M A :=
  fun st =>
    match body st with
    | (Returned a, st1, ops1) => (Returned a, st1, ops1)
    | (Raised e, st1, ops1) =>
        match handler e st1 with
        | (out, st2, ops2) => (out, st2, ops1 ++ ops2)
        end
    end.

(** [try: body  finally: final]; an exception of [final] replaces the
    outcome of [body]. *)
Definition try_finally {A} (body : M A) (final : M unit) : M A :=
  fun st =>
    match body st with
    | (out, st1, ops1) =>
        match final st1 with
        | (Returned _, st2, ops2) => (out, st2, ops1 ++ ops2)
        | (Raised e, st2, ops2) => (Raised e, st2, ops1 ++ ops2)
        end
    end.

Definition call (op : Op) : M unit := fun st => (Returned tt, st, [op]).

(** A call on a collaborator that may raise: [faults op] is the exception
    the call ends with, if any.  The call is made either way. *)
Definition call_collaborator (faults : Op -> option exn) (op : Op) : M unit :=
  fun st =>
    match faults op with
    | None => (Returned tt, st, [op])
    | Some e => (Raised e, st, [op])
    end.

(** Every call on a collaborator returns. *)
Definition no_faults : Op -> option exn := fun _ => None.

Definition get {A} (field : SecureDesktopHandler -> A) : M A :=
  fun st => (Returned (field (self st)), st, []).

Definition update (f : SecureDesktopHandler -> SecureDesktopHandler) : M unit :=
  fun st => (Returned tt, mkSt (f (self st)) (world st), []).

Definition get_world : M World := fun st => (Returned (world st), st, []).

Definition put_world (w : World) : M unit :=
  fun st => (Returned tt, mkSt (self st) w, []).

Declare Scope py_scope.
Delimit Scope py_scope with py.
Notation "x <- m ;; k" := (bind m (fun x => k))
  (at level 61, m at next level, right associativity) : py_scope.
Notation "m ;; k" := (bind m (fun _ => k))
  (at level 61, right associativity) : py_scope.
Local Open Scope py_scope.

(** Attribute assignments. *)
Definition set_mapFile (v : option Z) (h : SecureDesktopHandler) :=
  mkHandler v (_bufferAddress h) (_ipcEventHandle h) (_followerSession h)
    (sdServer h) (sdRelay h) (sdBridge h).
Definition set_bufferAddress (v : option Z) (h : SecureDesktopHandler) :=
  mkHandler (_mapFile h) v (_ipcEventHandle h) (_followerSession h)
    (sdServer h) (sdRelay h) (sdBridge h).
Definition set_followerSession (v : option SessionRef) (h : SecureDesktopHandler) :=
  mkHandler (_mapFile h) (_bufferAddress h) (_ipcEventHandle h) v
    (sdServer h) (sdRelay h) (sdBridge h).
Definition set_sdServer (v : option ServerRef) (h : SecureDesktopHandler) :=
  mkHandler (_mapFile h) (_bufferAddress h) (_ipcEventHandle h) (_followerSession h)
    v (sdRelay h) (sdBridge h).
Definition set_sdRelay (v : option RelayRef) (h : SecureDesktopHandler) :=
  mkHandler (_mapFile h) (_bufferAddress h) (_ipcEventHandle h) (_followerSession h)
    (sdServer h) v (sdBridge h).
Definition set_sdBridge (v : option BridgeRef) (h : SecureDesktopHandler) :=
  mkHandler (_mapFile h) (_bufferAddress h) (_ipcEventHandle h) (_followerSession h)
    (sdServer h) (sdRelay h) v.

(** ** The class attributes of [SecureDesktopHandler] *)

Definition _IPC_FILENAME : string := "Local\NVDARemoteAccessSDHIPCFile".
Definition _IPC_EVENTNAME : string := "Local\NVDARemoteAccessSDHIPCEvent".
Definition _IPC_MAXLEN : Z := 64.

(** ** kernel32 and ctypes, as the handler calls them *)

Definition sizeof_WCHAR : Z := 2.

Definition CreateFileMapping (env : Env) (size : Z) (name : string) : M (option Z) :=
  call (CallCreateFileMapping size name) ;;
  match os_CreateFileMapping env with
  | None => ret None
  | Some (handle, existed) =>
      w <- get_world ;;
      (if existed then ret tt
       else put_world (mkWorld (repeat 0%N (Z.to_nat (size / sizeof_WCHAR))) (ipcEvent w))) ;;
      ret (Some handle)
  end.

Definition OpenFileMapping (env : Env) (name : string) : M (option Z) :=
  call (CallOpenFileMapping name) ;; ret (os_OpenFileMapping env).

Definition MapViewOfFile (env : Env) (mapFile size : Z) : M (option Z) :=
  call (CallMapViewOfFile mapFile size) ;; ret (os_MapViewOfFile env).

Definition UnmapViewOfFile (env : Env) (address : Z) : M bool :=
  call (CallUnmapViewOfFile address) ;; ret (os_UnmapViewOfFile env address).

Definition closeHandle (env : Env) (handle : Z) : M bool :=
  call (CallCloseHandle handle) ;; ret (os_closeHandle env handle).

Definition SetEvent (env : Env) (handle : Z) : M bool :=
  call (CallSetEvent handle) ;;
  if os_SetEvent env then
    w <- get_world ;;
    put_world (mkWorld (shm w) (Win32.set_signaled (ipcEvent w) true)) ;;
    ret true
  else ret false.

Definition ResetEvent (env : Env) (handle : Z) : M bool :=
  call (CallResetEvent handle) ;;
  if os_ResetEvent env then
    w <- get_world ;;
    put_world (mkWorld (shm w) (Win32.set_signaled (ipcEvent w) false)) ;;
    ret true
  else ret false.

Definition WaitForSingleObject (env : Env) (handle milliseconds : Z) : M Z :=
  call (CallWaitForSingleObject handle milliseconds) ;;
  w <- get_world ;;
  let (status, event) := Win32.wait (os_waitFault env) (ipcEvent w) in
  put_world (mkWorld (shm w) event) ;;
  ret status.

(** [buffer = (WCHAR * _IPC_MAXLEN).from_address(address)] is an array of
    [_IPC_MAXLEN] units over the shared memory.
    [buffer.value = value]: *)
Definition buffer_set_value (address : Z) (value : string) : M unit :=
  call (BufferSetValue address value) ;;
  w <- get_world ;;
  match WCharArray.set_value (Z.to_nat _IPC_MAXLEN) (shm w) value with
  | None => raise ValueError
  | Some contents => put_world (mkWorld contents (ipcEvent w))
  end.

(** [buffer[-1]] *)
Definition buffer_last : M N :=
  w <- get_world ;; ret (WCharArray.last_unit (Z.to_nat _IPC_MAXLEN) (shm w)).

(** [wstring_at(bufferAddress)] *)
Definition wstring_at : M (list N) :=
  w <- get_world ;; ret (WCharArray.wstring_at (shm w)).

(** ** SecureDesktopHandler *)

(** [a == b] on two optional sessions: [FollowerSession] objects compare by
    identity. *)
Definition session_eqb (a b : option SessionRef) : bool :=
  match a, b with
  | None, None => true
  | Some x, Some y => Nat.eqb x y
  | _, _ => false
  end.


(** [__init__]: no handler object exists before it, so it is a function of
    the shared kernel objects alone. *)
Definition __init__ (env : Env) (w : World)
  : Outcome SecureDesktopHandler * World * list Op :=
  match os_CreateEvent env with
  | None => (Raised RuntimeError, w, [CallCreateEvent false false _IPC_EVENTNAME])
  | Some (handle, existed) =>
      (Returned (mkHandler None None handle None None None None),
       (if existed then w
        else mkWorld (shm w) (Win32.new_event false false _IPC_EVENTNAME)),
       [CallCreateEvent false false _IPC_EVENTNAME; StateChangeRegister])
  end.

(** [leaveSecureDesktop].  Nothing in the method catches an exception: one
    that a collaborator raises ends the method where it is raised.  The
    functions of the operating system report a failure by their return
    value. *)
Definition leaveSecureDesktop_with (faults : Op -> option exn) (env : Env) : M unit :=
  server <- get sdServer ;;
  match server with
  | None => ret tt
  | Some _ =>
      bridge <- get sdBridge ;;
      match bridge with
      | Some b => call_collaborator faults (BridgeDisconnect b) ;; update (set_sdBridge None)
      | None => ret tt
      end ;;
      server <- get sdServer ;;
      match server with
      | Some s => call_collaborator faults (ServerClose s) ;; update (set_sdServer None)
      | None => ret tt
      end ;;
      relay <- get sdRelay ;;
      match relay with
      | Some r => call_collaborator faults (RelayClose r) ;; update (set_sdRelay None)
      | None => ret tt
      end ;;
      session <- get _followerSession ;;
      match session with
      | Some f =>
          match transport env f with
          | Some t =>
              call_collaborator faults (TransportUnregisterInbound t SET_BRAILLE_INFO) ;;
              call_collaborator faults (SessionSetDisplaySize f)
          | None => ret tt
          end
      | None => ret tt
      end ;;
      event <- get _ipcEventHandle ;;
      _ <- ResetEvent env event ;;
      address <- get _bufferAddress ;;
      match address with
      | Some a => _ <- UnmapViewOfFile env a ;; update (set_bufferAddress None)
      | None => ret tt
      end ;;
      mapFile <- get _mapFile ;;
      match mapFile with
      | Some m => _ <- closeHandle env m ;; update (set_mapFile None)
      | None => ret tt
      end
  end.

(** [leaveSecureDesktop] with collaborators that return, as the other
    methods take them. *)
Definition leaveSecureDesktop (env : Env) : M unit :=
  leaveSecureDesktop_with no_faults env.

(** The setter of the property [followerSession]. *)
Definition followerSession_setter (env : Env) (session : option SessionRef) : M unit :=
  current <- get _followerSession ;;
  if session_eqb current session then ret tt
  else
    server <- get sdServer ;;
    match server with
    | Some _ => leaveSecureDesktop env
    | None => ret tt
    end ;;
    current <- get _followerSession ;;
    match current with
    | Some f =>
        match transport env f with
        | Some t => call (TransportUnregisterInbound t SET_BRAILLE_INFO)
        | None => ret tt
        end
    | None => ret tt
    end ;;
    update (set_followerSession session) ;;
    match session with
    | Some f =>
        match transport env f with
        | Some t => call (TransportRegisterInbound t SET_BRAILLE_INFO)
        | None => raise AttributeError
        end
    | None => ret tt
    end.

(** The body of the [try] in [enterSecureDesktop]: publish the handshake and
    check that its terminating null is there. *)
Definition write_handshake (bufferAddress port : Z) (channel : string) : M unit :=
  buffer_set_value bufferAddress (Py.json_dumps port channel) ;;
  last <- buffer_last ;;
  if (last =? 0)%N then ret tt else raise ValueError.

(** The [except ValueError] clause of [enterSecureDesktop]. *)
Definition abandon_handshake (env : Env) (mapFile bufferAddress : Z) : M unit :=
  _ <- UnmapViewOfFile env bufferAddress ;;
  _ <- closeHandle env mapFile ;;
  server <- get sdServer ;;
  match server with
  | Some s => call (ServerClose s)
  | None => raise AttributeError
  end ;;
  update (set_sdServer None).

(** [enterSecureDesktop].  The [try] statement yields whether the handshake
    was written; the [except] clause ends with [return None], so the rest of
    the method runs only after a successful write. *)
Definition enterSecureDesktop (env : Env) : M unit :=
  session <- get _followerSession ;;
  match session with
  | None => ret tt
  | Some follower =>
  match transport env follower with
  | None => ret tt
  | Some followerTransport =>
  mapFile <- CreateFileMapping env (_IPC_MAXLEN * sizeof_WCHAR) _IPC_FILENAME ;;
  match mapFile with
  | None => ret tt
  | Some mapFile =>
  bufferAddress <- MapViewOfFile env mapFile (_IPC_MAXLEN * sizeof_WCHAR) ;;
  match bufferAddress with
  | None => _ <- closeHandle env mapFile ;; ret tt
  | Some bufferAddress =>
  let channel := uuid4 env in
  call (NewLocalRelayServer (new_LocalRelayServer env) channel) ;;
  update (set_sdServer (Some (new_LocalRelayServer env))) ;;
  let port := getsockname_port env in
  written <- try_except
    (write_handshake bufferAddress port channel ;; ret true)
    (fun e =>
       if isinstance_ValueError e
       then abandon_handshake env mapFile bufferAddress ;; ret false
       else raise e) ;;
  if negb written then ret tt
  else
    call (ThreadStartServerRun (new_LocalRelayServer env)) ;;
    call (NewRelayTransport (new_RelayTransport env) port channel) ;;
    update (set_sdRelay (Some (new_RelayTransport env))) ;;
    call (RelayRegisterInbound (new_RelayTransport env) CLIENT_JOINED) ;;
    call (TransportRegisterInbound followerTransport SET_BRAILLE_INFO) ;;
    call (NewBridgeTransport (new_BridgeTransport env) followerTransport
            (new_RelayTransport env)) ;;
    update (set_sdBridge (Some (new_BridgeTransport env))) ;;
    call (ThreadStartRelayRun (new_RelayTransport env)) ;;
    update (set_mapFile (Some mapFile)) ;;
    update (set_bufferAddress (Some bufferAddress)) ;;
    event <- get _ipcEventHandle ;;
    _ <- SetEvent env event ;;
    ret tt
  end end end end.

(** The body of the [try] in [initializeSecureDesktop]. *)
Definition read_handshake (env : Env) : M (option ConnectionInfo) :=
  text <- wstring_at ;;
  match json_loads env text with
  | None => raise JSONDecodeError
  | Some data =>
      match Py.unpack2 data with
      | Py.UnpackValueError => raise ValueError
      | Py.UnpackTypeError => raise TypeError
      | Py.Unpacked port channel =>
          call SocketProbe ;;
          if negb (socket_ok env) then raise OSError
          else
            call CallGetModuleFileName ;;
            call (CallLocalListeningSocketExists port) ;;
            match os_localListeningSocketExists env port with
            | None => raise ArgumentError
            | Some false => raise RuntimeError
            | Some true =>
                ret (Some (mkConnectionInfo "127.0.0.1" FOLLOWER channel port true))
            end
      end
  end.

(** [initializeSecureDesktop].  The three tests on [waitResult] return before
    the [try] statement is entered. *)
Definition initializeSecureDesktop (env : Env) : M (option ConnectionInfo) :=
  mapFile <- OpenFileMapping env _IPC_FILENAME ;;
  match mapFile with
  | None => ret None
  | Some mapFile =>
  bufferAddress <- MapViewOfFile env mapFile (_IPC_MAXLEN * sizeof_WCHAR) ;;
  match bufferAddress with
  | None => _ <- closeHandle env mapFile ;; ret None
  | Some bufferAddress =>
  event <- get _ipcEventHandle ;;
  waitResult <- WaitForSingleObject env event 2000 ;;
  if (waitResult =? Win32.WAIT_TIMEOUT)%Z then ret None
  else if (waitResult =? Win32.WAIT_FAILED)%Z then ret None
  else if negb (waitResult =? Win32.WAIT_OBJECT_0)%Z then ret None
  else
    try_finally
      (try_except (read_handshake env) (fun _ => ret None))
      (_ <- UnmapViewOfFile env bufferAddress ;;
       _ <- closeHandle env mapFile ;;
       ret tt)
  end end.

(** [_onSecureDesktopChange] *)
Definition _onSecureDesktopChange (env : Env) (isSecureDesktop : bool) : M unit :=
  if isSecureDesktop then enterSecureDesktop env else leaveSecureDesktop env.

(** ** Reading a run *)

Definition outcome {A} (r : Outcome A * St * list Op) : Outcome A := fst (fst r).
Definition final {A} (r : Outcome A * St * list Op) : St := snd (fst r).
Definition ops {A} (r : Outcome A * St * list Op) : list Op := snd r.

(** The bundle of the specification: relay server, relay transport, bridge,
    and the two halves of the shared-memory mapping. *)
Definition bundle_live (h : SecureDesktopHandler) : Prop :=
  sdServer h <> None /\ sdRelay h <> None /\ sdBridge h <> None /\
  _mapFile h <> None /\ _bufferAddress h <> None.

Definition bundle_none (h : SecureDesktopHandler) : Prop :=
  sdServer h = None /\ sdRelay h = None /\ sdBridge h = None /\
  _mapFile h = None /\ _bufferAddress h = None.

Definition all_or_none (h : SecureDesktopHandler) : Prop :=
  bundle_live h \/ bundle_none h.

(** The status of the wait of [initializeSecureDesktop] in a given state. *)
Definition wait_status (env : Env) (st : St) : Z :=
  fst (Win32.wait (os_waitFault env) (ipcEvent (world st))).

(** The handshake of one call of [enterSecureDesktop]. *)
Definition payload (env : Env) : string :=
  Py.json_dumps (getsockname_port env) (uuid4 env).

(** The transition methods, and a serial run of them: each call starts in
    the state the previous one left, whether it returned or raised. *)
Inductive Transition :=
| Enter
| Leave
| SetFollowerSession (session : option SessionRef).

Definition transition (t : Transition) (env : Env) : M unit :=
  match t with
  | Enter => enterSecureDesktop env
  | Leave => leaveSecureDesktop env
  | SetFollowerSession session => followerSession_setter env session
  end.

Fixpoint run (calls : list (Transition * Env)) (st : St) : St :=
  match calls with
  | [] => st
  | (t, env) :: rest => run rest (final (transition t env st))
  end.

(** [str(uuid.uuid4())] has 36 characters, hexadecimal digits and hyphens. *)
Definition uuid_char (c : ascii) : bool :=
  let n := N_of_ascii c in
  ((48 <=? n) && (n <=? 57) || (97 <=? n) && (n <=? 102) || (n =? 45))%N.

Definition uuid_shaped (s : string) : bool :=
  (String.length s =? 36)%nat && forallb uuid_char (list_ascii_of_string s).

(** The call gets what [uuid.uuid4] and [getsockname] really return: a UUID
    string and a 16-bit port. *)
Definition realistic (env : Env) : Prop :=
  uuid_shaped (uuid4 env) = true /\ (0 <= getsockname_port env < 65536)%Z.

(** A call of a run is realistic when it is not [enterSecureDesktop], or gets
    realistic values. *)
Definition realistic_call (c : Transition * Env) : Prop :=
  match fst c with
  | Enter => realistic (snd c)
  | _ => True
  end.

(** The last unit of the shared buffer is null, as it is in a mapping just
    created. *)
Definition terminator_clear (w : World) : Prop :=
  WCharArray.last_unit (Z.to_nat _IPC_MAXLEN) (shm w) = 0%N.

(** The teardown the setter of [followerSession] starts with: a run of
    [leaveSecureDesktop] when there is a server, nothing otherwise. *)
Definition torn_down (env : Env) (st : St) : Outcome unit * St * list Op :=
  match sdServer (self st) with
  | Some _ => leaveSecureDesktop env st
  | None => (Returned tt, st, [])
  end.

Definition nonzero (c : N) : Prop := c <> 0%N.

(** The shared memory as [enterSecureDesktop] finds it behind its view:
    zero-filled when [CreateFileMapping] has just created the mapping. *)
Definition mapped_memory (env : Env) (w : World) : WCharArray.memory :=
  match os_CreateFileMapping env with
  | Some (_, false) => repeat 0%N (Z.to_nat (_IPC_MAXLEN * sizeof_WCHAR / sizeof_WCHAR))
  | _ => shm w
  end.

(** The memory after the assignment [buffer.value = json.dumps(...)]; [None]
    when ctypes refuses the string. *)
Definition assigned (env : Env) (w : World) : option WCharArray.memory :=
  WCharArray.set_value (Z.to_nat _IPC_MAXLEN) (mapped_memory env w) (payload env).

(** The memory after a handshake written and found terminated; [None] when
    the [try] block of [enterSecureDesktop] raises [ValueError]. *)
Definition published (env : Env) (w : World) : option WCharArray.memory :=
  match assigned env w with
  | Some mem =>
      if (WCharArray.last_unit (Z.to_nat _IPC_MAXLEN) mem =? 0)%N then Some mem else None
  | None => None
  end.

(** The ways [enterSecureDesktop] gives up that the specification lists: no
    follower session or no transport on it, no file mapping, no view of it,
    or a handshake that leaves no room for the terminating null. *)
Definition enter_aborts (env : Env) (st : St) : Prop :=
  _followerSession (self st) = None \/
  (exists f, _followerSession (self st) = Some f /\ transport env f = None) \/
  os_CreateFileMapping env = None \/
  os_MapViewOfFile env = None \/
  (Z.to_nat _IPC_MAXLEN <= String.length (payload env))%nat.

(** The invariant of the handler between transitions. *)
Definition bundle_invariant (st : St) : Prop :=
  all_or_none (self st) /\ terminator_clear (world st).

(** What the setter of [followerSession] does to the subscriptions: the hook
    of the old session's transport is removed, the one of the new session's
    transport installed. *)
Definition unsubscribed (env : Env) (old : option SessionRef) : list Op :=
  match old with
  | Some f =>
      match transport env f with
      | Some t => [TransportUnregisterInbound t SET_BRAILLE_INFO]
      | None => []
      end
  | None => []
  end.

Definition subscribed (env : Env) (new : option SessionRef) : list Op :=
  match new with
  | Some f =>
      match transport env f with
      | Some t => [TransportRegisterInbound t SET_BRAILLE_INFO]
      | None => []
      end
  | None => []
  end.

(** ** extensionPoints.util *)

Module extensionPoints.

Definition ObjId := nat.

(** The callables that can be handed to [register]: a function or lambda
    with its parameter names, a bound method with [__self__] and
    [__func__], or another callable object. *)
Inductive Handler :=
| Function (id : ObjId) (parameters : list string)
| BoundMethod (id : ObjId) (inst func : ObjId)
| CallableObject (id : ObjId).

(** What the interpreter knows of an object: whether it is still alive,
    its truth value, and the identity of the method object that binding a
    function to an instance creates. *)
Record Heap := mkHeap {
  alive : ObjId -> bool;
  truth : ObjId -> bool;
  bound_id : ObjId -> ObjId -> ObjId }.

Definition id_of (h : Handler) : ObjId :=
  match h with
  | Function i _ => i
  | BoundMethod i _ _ => i
  | CallableObject i => i
  end.

(** [bool(handler)]: function and method objects are always true. *)
Definition handler_truth (heap : Heap) (h : Handler) : bool :=
  match h with
  | Function _ _ => true
  | BoundMethod _ _ _ => true
  | CallableObject i => truth heap i
  end.

(** [a == b] on handlers: two method objects are equal when they bind the
    same function to the same instance; the others compare by identity. *)
Definition handler_eqb (a b : Handler) : bool :=
  match a, b with
  | Function i _, Function j _ => Nat.eqb i j
  | BoundMethod _ i f, BoundMethod _ j g => Nat.eqb i j && Nat.eqb f g
  | CallableObject i, CallableObject j => Nat.eqb i j
  | _, _ => false
  end.

Inductive HandlerKey :=
| KeyId (id : ObjId)
| KeyPair (inst func : ObjId).

Definition key_eqb (a b : HandlerKey) : bool :=
  match a, b with
  | KeyId i, KeyId j => Nat.eqb i j
  | KeyPair i f, KeyPair j g => Nat.eqb i j && Nat.eqb f g
  | _, _ => false
  end.

(** [_getHandlerKey] *)
Definition _getHandlerKey (heap : Heap) (handler : Handler) : HandlerKey :=
  match handler with
  | BoundMethod i inst func =>
      if truth heap inst then KeyPair inst func else KeyId i
  | _ => KeyId (id_of handler)
  end.

Inductive Weakref :=
| AnnotatableWeakref (referent : Handler) (handlerKey : HandlerKey)
| BoundMethodWeakref (weakInst weakFunc : ObjId) (handlerKey : HandlerKey).

Definition handlerKey_of (w : Weakref) : HandlerKey :=
  match w with
  | AnnotatableWeakref _ k => k
  | BoundMethodWeakref _ _ k => k
  end.

(** [weak()] *)
Definition deref (heap : Heap) (w : Weakref) : Outcome (option Handler) :=
  match w with
  | AnnotatableWeakref referent _ =>
      Returned (if alive heap (id_of referent) then Some referent else None)
  | BoundMethodWeakref inst func _ =>
      if negb (alive heap inst && truth heap inst) then Returned None
      else if negb (alive heap func) then Raised AssertionError
      else Returned (Some (BoundMethod (bound_id heap func inst) inst func))
  end.

(** The [OrderedDict] methods the registrar uses, on the list of items in
    insertion order. *)
Module OrderedDict.

Definition t := list (HandlerKey * Weakref).

Fixpoint contains (d : t) (k : HandlerKey) : bool :=
  match d with
  | [] => false
  | (k', _) :: rest => key_eqb k' k || contains rest k
  end.

(** [d[k] = v]: a key already present keeps its place. *)
Fixpoint setitem (d : t) (k : HandlerKey) (v : Weakref) : t :=
  match d with
  | [] => [(k, v)]
  | (k', v') :: rest =>
      if key_eqb k' k then (k', v) :: rest else (k', v') :: setitem rest k v
  end.

Fixpoint remove (d : t) (k : HandlerKey) : t :=
  match d with
  | [] => []
  | (k', v') :: rest => if key_eqb k' k then rest else (k', v') :: remove rest k
  end.

Fixpoint getitem (d : t) (k : HandlerKey) : option Weakref :=
  match d with
  | [] => None
  | (k', v') :: rest => if key_eqb k' k then Some v' else getitem rest k
  end.

(** [del d[k]]; [None] for [KeyError]. *)
Definition delitem (d : t) (k : HandlerKey) : option t :=
  if contains d k then Some (remove d k) else None.

(** [d.move_to_end(k, last)]; [None] for [KeyError]. *)
Definition move_to_end (d : t) (k : HandlerKey) (last : bool) : option t :=
  match getitem d k with
  | None => None
  | Some v => Some (if last then remove d k ++ [(k, v)] else (k, v) :: remove d k)
  end.

Definition keys (d : t) : list HandlerKey := map fst d.
Definition values (d : t) : list Weakref := map snd d.

End OrderedDict.

Record HandlerRegistrar := mkRegistrar {
  _deprecationMessage : option string;
  _handlers : OrderedDict.t }.

(** [HandlerRegistrar.__init__] *)
Definition new (deprecationMessage : option string) : HandlerRegistrar :=
  mkRegistrar deprecationMessage [].

(** The first test of [register]: a plain function whose first parameter
    is called [self]. *)
Definition is_unbound_method (handler : Handler) : bool :=
  match handler with
  | Function _ (first :: _) => String.eqb first "self"
  | _ => false
  end.

(** The truth value of [self._deprecationMessage]. *)
Definition has_deprecationMessage (r : HandlerRegistrar) : bool :=
  match _deprecationMessage r with
  | None => false
  | Some m => negb (String.eqb m EmptyString)
  end.

(** [register]; [allowDeprecatedAPI] is [NVDAState._allowDeprecatedAPI()]. *)
Definition register (heap : Heap) (allowDeprecatedAPI : bool)
    (r : HandlerRegistrar) (handler : Handler) : Outcome HandlerRegistrar :=
  if is_unbound_method handler then Raised TypeError
  else if has_deprecationMessage r && negb allowDeprecatedAPI then Raised RuntimeError
  else
    let key := _getHandlerKey heap handler in
    let weak :=
      match handler with
      | BoundMethod _ inst func => BoundMethodWeakref inst func key
      | _ => AnnotatableWeakref handler key
      end in
    Returned (mkRegistrar (_deprecationMessage r)
                (OrderedDict.setitem (_handlers r) key weak)).

(** [unregister], called with a handler. *)
Definition unregister (heap : Heap) (r : HandlerRegistrar) (handler : Handler)
    : bool * HandlerRegistrar :=
  match OrderedDict.delitem (_handlers r) (_getHandlerKey heap handler) with
  | None => (false, r)
  | Some d => (true, mkRegistrar (_deprecationMessage r) d)
  end.

(** [moveToEnd], called with a handler. *)
Definition moveToEnd (heap : Heap) (r : HandlerRegistrar) (handler : Handler)
    (last : bool) : bool * HandlerRegistrar :=
  match OrderedDict.move_to_end (_handlers r) (_getHandlerKey heap handler) last with
  | None => (false, r)
  | Some d => (true, mkRegistrar (_deprecationMessage r) d)
  end.

(** The generator [handlers]: what it yields, in order, and the exception
    that ends the iteration if there is one. *)
Fixpoint yield_from (heap : Heap) (weaks : list Weakref) : list Handler * option exn :=
  match weaks with
  | [] => ([], None)
  | weak :: rest =>
      match deref heap weak with
      | Raised e => ([], Some e)
      | Returned None => yield_from heap rest
      | Returned (Some handler) =>
          if negb (handler_truth heap handler) then yield_from heap rest
          else
            let (more, e) := yield_from heap rest in
            (handler :: more, e)
      end
  end.

Definition handlers (heap : Heap) (r : HandlerRegistrar) : list Handler * option exn :=
  yield_from heap (OrderedDict.values (_handlers r)).

(** How many of the handlers yielded are equal to [h]. *)
Definition times_yielded (heap : Heap) (r : HandlerRegistrar) (h : Handler) : nat :=
  List.length (filter (handler_eqb h) (fst (handlers heap r))).

End extensionPoints.

(** ** Sample inputs *)

Module Sample.

(** A session [s] has the transport [s + 100]. *)
Definition env : Env :=
  mkEnv (fun s => Some (s + 100)) (Some (7%Z, false)) (Some (8%Z, false))
    (Some 9%Z) (Some 4096%Z) (fun _ => true) (fun _ => true) true true None
    "0f8fad5b-d9cb-469f-a165-70867728950e" 1 2 3 54321%Z
    (fun _ => Some (Py.VList [Py.VInt 54321; Py.VStr "0f8fad5b-d9cb-469f-a165-70867728950e"]))
    true (fun _ => Some true).

(** The same, with every cleanup call of the operating system failing. *)
Definition failing_env : Env :=
  mkEnv (transport env) (os_CreateEvent env) (os_CreateFileMapping env)
    (os_OpenFileMapping env) (os_MapViewOfFile env) (fun _ => false) (fun _ => false)
    false false None (uuid4 env) 1 2 3 (getsockname_port env)
    (json_loads env) true (os_localListeningSocketExists env).

(** The same as [env], with a channel of 57 characters and the port 1:
    the handshake has 64 characters. *)
Definition oversized_env : Env :=
  mkEnv (transport env) (os_CreateEvent env) (os_CreateFileMapping env)
    (os_OpenFileMapping env) (os_MapViewOfFile env) (os_UnmapViewOfFile env)
    (os_closeHandle env) true true None
    "0123456789abcdef0123456789abcdef0123456789abcdef012345678" 1 2 3 1%Z
    (json_loads env) true (os_localListeningSocketExists env).

(** The same as [oversized_env], for a call made while a bundle is active:
    the mapping exists already, and the operating system and the
    constructors return other handles and objects. *)
Definition oversized_second_env : Env :=
  mkEnv (transport env) (os_CreateEvent env) (Some (12%Z, true))
    (os_OpenFileMapping env) (Some 8192%Z) (os_UnmapViewOfFile env)
    (os_closeHandle env) true true None (uuid4 oversized_env) 4 5 6 1%Z
    (json_loads env) true (os_localListeningSocketExists env).

(** The [close] of a relay server raises [OSError]; the other calls on
    collaborators return. *)
Definition server_close_raises : Op -> option exn :=
  fun op =>
    match op with
    | ServerClose _ => Some OSError
    | _ => None
    end.

Definition event : Win32.Event := Win32.new_event false false _IPC_EVENTNAME.

Definition blank : World := mkWorld (repeat 0%N 64) event.

(** A handler just constructed, one with a follower session, and one with
    an active bundle. *)
Definition idle : St := mkSt (mkHandler None None 7 None None None None) blank.

Definition attached : St := final (followerSession_setter env (Some 5) idle).

Definition active : St := final (enterSecureDesktop env attached).

(** The shared objects before any handler exists: the event that is there
    is replaced by the one the constructor creates. *)
Definition unborn : World := mkWorld (repeat 0%N 64) (Win32.mkEvent true true EmptyString).

(** A serial run: attach a session, enter twice, leave twice with failing
    cleanup calls, enter again, move to another session. *)
Definition calls : list (Transition * Env) :=
  [(SetFollowerSession (Some 5), env); (Enter, env); (Enter, env);
   (Leave, failing_env); (Leave, failing_env); (Enter, env);
   (SetFollowerSession (Some 6), env)].

(** The same as [env], for a second call: the mapping exists already and
    the constructors return other objects. *)
Definition second_env : Env :=
  mkEnv (transport env) (os_CreateEvent env) (Some (8%Z, true))
    (os_OpenFileMapping env) (os_MapViewOfFile env) (os_UnmapViewOfFile env)
    (os_closeHandle env) true true None (uuid4 env) 4 5 6 (getsockname_port env)
    (json_loads env) true (os_localListeningSocketExists env).

(** The same as [env], where the session 6 has no transport. *)
Definition lone_env : Env :=
  mkEnv (fun s => if Nat.eqb s 6 then None else Some (s + 100))
    (os_CreateEvent env) (os_CreateFileMapping env)
    (os_OpenFileMapping env) (os_MapViewOfFile env) (os_UnmapViewOfFile env)
    (os_closeHandle env) true true None (uuid4 env) 1 2 3 (getsockname_port env)
    (json_loads env) true (os_localListeningSocketExists env).

(** A handler with a session, over a mapping left behind with a last unit
    that is not null. *)
Definition stale : St :=
  mkSt (self attached) (mkWorld (repeat 93%N 64) event).

(** A heap where every object is alive, and every object is true but the
    object 1: an instance whose class defines [__len__] and which is
    empty. *)
Definition heap : extensionPoints.Heap :=
  extensionPoints.mkHeap (fun _ => true) (fun i => negb (Nat.eqb i 1))
    (fun func inst => 1000 + func + inst).

(** The same heap while the instance 1 was not empty yet. *)
Definition full_heap : extensionPoints.Heap :=
  extensionPoints.mkHeap (fun _ => true) (fun _ => true)
    (fun func inst => 1000 + func + inst).

(** A bound method of the empty instance 1, and one of the instance 3. *)
Definition method_of_empty : extensionPoints.Handler :=
  extensionPoints.BoundMethod 10 1 2.

Definition method_of_other : extensionPoints.Handler :=
  extensionPoints.BoundMethod 11 3 2.

Definition function : extensionPoints.Handler :=
  extensionPoints.Function 20 ["value"].

(** A registrar after the registration of [function], [method_of_other]
    and [method_of_empty], in this order. *)
Definition registrar : extensionPoints.HandlerRegistrar :=
  extensionPoints.mkRegistrar None
    [(extensionPoints.KeyId 20,
      extensionPoints.AnnotatableWeakref function (extensionPoints.KeyId 20));
     (extensionPoints.KeyPair 3 2,
      extensionPoints.BoundMethodWeakref 3 2 (extensionPoints.KeyPair 3 2));
     (extensionPoints.KeyId 10,
      extensionPoints.BoundMethodWeakref 1 2 (extensionPoints.KeyId 10))].

(** A heap where the function 2 has died while the instances are alive. *)
Definition orphan_heap : extensionPoints.Heap :=
  extensionPoints.mkHeap (fun i => negb (Nat.eqb i 2)) (fun i => negb (Nat.eqb i 1))
    (fun func inst => 1000 + func + inst).

End Sample.

(** ** Well-formed registrars *)

Module registrarFacts.

Import extensionPoints.

(** The handler is alive, and true where [handlers] tests it: a method
    needs a live and true instance (and its function alive), a callable
    object must itself be true. *)
Definition live (heap : Heap) (h : Handler) : bool :=
  match h with
  | Function i _ => alive heap i
  | BoundMethod _ inst func => alive heap inst && truth heap inst && alive heap func
  | CallableObject i => alive heap i && truth heap i
  end.

(** An item of [_handlers] as [register] stores it: the key is the one
    annotated on the weak reference and the one of its referent; a weak
    reference whose instance is alive has its function alive. *)
Definition item_ok (heap : Heap) (item : HandlerKey * Weakref) : Prop :=
  handlerKey_of (snd item) = fst item /\
  match snd item with
  | AnnotatableWeakref referent _ =>
      fst item = KeyId (id_of referent) /\
      (forall i inst func, referent <> BoundMethod i inst func)
  | BoundMethodWeakref inst func _ =>
      (truth heap inst = true -> fst item = KeyPair inst func) /\
      (alive heap inst = true -> alive heap func = true)
  end.

Definition well_formed (heap : Heap) (r : HandlerRegistrar) : Prop :=
  NoDup (OrderedDict.keys (_handlers r)) /\ Forall (item_ok heap) (_handlers r).

End registrarFacts.


(** ** The other methods of SecureDesktopHandler *)

(** The calls of [terminate] and [_onLeaderDisplayChange]: those of the
    transition methods, the unregistration from
    [post_secureDesktopStateChange], and [sdRelay.send]. *)
Inductive HandlerCall :=
| Did (op : Op)
| StateChangeUnregister
| RelaySend (relay : RelayRef) (type : RemoteMessageType) (sizes : list Z).

(** [terminate], after the unregistration it starts with. *)
Definition terminate_body (env : Env) : M unit :=
  leaveSecureDesktop env ;;
  event <- get _ipcEventHandle ;;
  _ <- closeHandle env event ;;
  address <- get _bufferAddress ;;
  match address with
  | Some a => _ <- UnmapViewOfFile env a ;; ret tt
  | None => ret tt
  end ;;
  mapFile <- get _mapFile ;;
  match mapFile with
  | Some m => _ <- closeHandle env m ;; ret tt
  | None => ret tt
  end.

(** [terminate] *)
Definition terminate (env : Env) (st : St) : Outcome unit * St * list HandlerCall :=
  (outcome (terminate_body env st), final (terminate_body env st),
   StateChangeUnregister :: map Did (ops (terminate_body env st))).

(** [_onLeaderDisplayChange]; [leaderDisplaySizes] gives the attribute of
    that name of a follower session. *)
Definition _onLeaderDisplayChange (leaderDisplaySizes : SessionRef -> list Z)
    (h : SecureDesktopHandler) : list HandlerCall :=
  match sdRelay h, _followerSession h with
  | Some relay, Some session =>
      [RelaySend relay SET_DISPLAY_SIZE (leaderDisplaySizes session)]
  | _, _ => []
  end.

(** What every transition keeps: a relay server is held only together with
    a follower session. *)
Definition attached_server (st : St) : Prop :=
  sdServer (self st) <> None -> _followerSession (self st) <> None.

(** How many calls of a run release the view at [address], or close
    [handle]. *)
Definition unmaps (address : Z) (c : HandlerCall) : bool :=
  match c with
  | Did (CallUnmapViewOfFile a) => (a =? address)%Z
  | _ => false
  end.

Definition closes (handle : Z) (c : HandlerCall) : bool :=
  match c with
  | Did (CallCloseHandle h) => (h =? handle)%Z
  | _ => false
  end.

Definition times (p : HandlerCall -> bool) (calls : list HandlerCall) : nat :=
  List.length (filter p calls).

(** ** Handlers a registrar can be given *)

Module registrarInputs.

Import extensionPoints.

(** In a heap as the interpreter keeps it, the function of a bound method
    lives as long as the instance does: the class of the instance refers to
    it. *)
Definition sane (heap : Heap) (h : Handler) : Prop :=
  match h with
  | BoundMethod _ inst func => alive heap inst = true -> alive heap func = true
  | _ => True
  end.

(** The handlers [handlers] has yielded that are not equal to [h]. *)
Definition others (h : Handler) (yielded : list Handler) : list Handler :=
  filter (fun y => negb (handler_eqb h y)) yielded.

(** [unregister], called with the weak reference of an item: what the
    callback of the weak reference does when its referent dies. *)
Definition unregister_weak (r : HandlerRegistrar) (weak : Weakref)
    : bool * HandlerRegistrar :=
  match OrderedDict.delitem (_handlers r) (handlerKey_of weak) with
  | None => (false, r)
  | Some d => (true, mkRegistrar (_deprecationMessage r) d)
  end.

(** [moveToEnd], called with the weak reference of an item. *)
Definition moveToEnd_weak (r : HandlerRegistrar) (weak : Weakref) (last : bool)
    : bool * HandlerRegistrar :=
  match OrderedDict.move_to_end (_handlers r) (handlerKey_of weak) last with
  | None => (false, r)
  | Some d => (true, mkRegistrar (_deprecationMessage r) d)
  end.

(** The calls on a registrar.  [unregister] and [moveToEnd] take a handler
    or the weak reference of an item. *)
Inductive RegistrarCall :=
| Register (handler : Handler)
| Unregister (handler : Handler)
| UnregisterWeak (weak : Weakref)
| MoveToEnd (handler : Handler) (last : bool)
| MoveToEndWeak (weak : Weakref) (last : bool).

(** A call is made in the heap of its moment: between two calls objects
    die and change their truth value.  A [register] that raises leaves the
    registrar as it is. *)
Definition apply_call (allowDeprecatedAPI : bool) (r : HandlerRegistrar)
    (c : Heap * RegistrarCall) : HandlerRegistrar :=
  match snd c with
  | Register h =>
      match register (fst c) allowDeprecatedAPI r h with
      | Returned r1 => r1
      | Raised _ => r
      end
  | Unregister h => snd (unregister (fst c) r h)
  | UnregisterWeak weak => snd (unregister_weak r weak)
  | MoveToEnd h last => snd (moveToEnd (fst c) r h last)
  | MoveToEndWeak weak last => snd (moveToEnd_weak r weak last)
  end.

Definition apply_calls (allowDeprecatedAPI : bool) (r : HandlerRegistrar)
    (calls : list (Heap * RegistrarCall)) : HandlerRegistrar :=
  fold_left (apply_call allowDeprecatedAPI) calls r.

(** What the heap of a later moment has kept of a call: the instance of a
    method that was registered while it was false has not become true since,
    and the function of a registered method lives as long as its instance. *)
Definition settled (heap : Heap) (c : Heap * RegistrarCall) : Prop :=
  match snd c with
  | Register (BoundMethod _ inst func) =>
      (truth heap inst = true -> truth (fst c) inst = true) /\
      (alive heap inst = true -> alive heap func = true)
  | _ => True
  end.

End registrarInputs.

(** A sequence of calls on a registrar: three registrations while the
    instance 1 is not empty, then, when it is empty, a registration again, a
    removal that misses its item, one through the weak reference of another
    item, and a move to the front. *)
Definition sample_registrar_calls
    : list (extensionPoints.Heap * registrarInputs.RegistrarCall) :=
  [(Sample.full_heap, registrarInputs.Register Sample.function);
   (Sample.full_heap, registrarInputs.Register Sample.method_of_other);
   (Sample.full_heap, registrarInputs.Register Sample.method_of_empty);
   (Sample.full_heap, registrarInputs.Register (extensionPoints.CallableObject 30));
   (Sample.heap, registrarInputs.Register Sample.function);
   (Sample.heap, registrarInputs.Unregister Sample.method_of_empty);
   (Sample.heap,
    registrarInputs.UnregisterWeak
      (extensionPoints.AnnotatableWeakref (extensionPoints.CallableObject 30)
         (extensionPoints.KeyId 30)));
   (Sample.heap, registrarInputs.MoveToEnd Sample.method_of_other false)].

(** The same instance registered while it is empty and again when it no
    longer is. *)
Definition truth_changing_calls
    : list (extensionPoints.Heap * registrarInputs.RegistrarCall) :=
  [(Sample.heap, registrarInputs.Register Sample.method_of_empty);
   (Sample.full_heap, registrarInputs.Register Sample.method_of_empty)].


(** * Properties *)

(** Unfolds the methods and the monad down to the answers of the
    environment. *)
Ltac unfold_methods :=
  cbv [leaveSecureDesktop leaveSecureDesktop_with call_collaborator no_faults
       followerSession_setter enterSecureDesktop
       initializeSecureDesktop read_handshake write_handshake abandon_handshake
       _onSecureDesktopChange
       CreateFileMapping OpenFileMapping MapViewOfFile UnmapViewOfFile closeHandle
       SetEvent ResetEvent WaitForSingleObject buffer_set_value buffer_last wstring_at
       bind ret raise call get update get_world put_world try_except try_finally
       outcome final ops transition];
  cbn [self world _mapFile _bufferAddress _ipcEventHandle _followerSession
       sdServer sdRelay sdBridge shm ipcEvent fst snd].

Ltac destruct_state st :=
  let mf := fresh "mapFile" in
  let ba := fresh "address" in
  let ev := fresh "event" in
  let fs := fresh "follower" in
  let sv := fresh "server" in
  let rl := fresh "relay" in
  let br := fresh "bridge" in
  let w := fresh "w" in
  destruct st as [[mf ba ev fs sv rl br] w];
  cbn [self world _mapFile _bufferAddress _ipcEventHandle _followerSession
       sdServer sdRelay sdBridge] in *.

(** ** leaveSecureDesktop *)

Lemma leave_without_server env st :
  sdServer (self st) = None -> leaveSecureDesktop env st = (Returned tt, st, []).
Proof.
  destruct_state st. intros ->. reflexivity.
Qed.

(** Whatever the state, a teardown returns, and leaves no part of the bundle
    behind as soon as there was a server. *)
Lemma leave_returns env st : outcome (leaveSecureDesktop env st) = Returned tt.
Proof.
  destruct_state st. unfold_methods.
  destruct server, bridge, relay, follower as [f|], address, mapFile;
    cbn; try destruct (transport env f); cbn;
    destruct (os_ResetEvent env); reflexivity.
Qed.

Lemma leave_clears_bundle env st :
  sdServer (self st) <> None -> bundle_none (self (final (leaveSecureDesktop env st))).
Proof.
  destruct_state st. intros Hs. unfold_methods. unfold bundle_none.
  destruct server; [|congruence].
  destruct bridge, relay, follower as [f|], address, mapFile;
    cbn; try destruct (transport env f); cbn;
    destruct (os_ResetEvent env); cbn; repeat split.
Qed.

Lemma leave_server_none env st :
  sdServer (self (final (leaveSecureDesktop env st))) = None.
Proof.
  destruct (sdServer (self st)) eqn:E.
  - apply leave_clears_bundle. congruence.
  - rewrite leave_without_server by assumption. exact E.
Qed.

(** C6. [leaveSecureDesktop] without an active bundle ([sdServer] is [None])
    makes no call and leaves the handler and the shared objects as they are;
    hence, from any state, a first call returns and a second call right after
    it is such a no-op. *)
Theorem leaveSecureDesktop_idempotent env env' st :
  (sdServer (self st) = None -> leaveSecureDesktop env st = (Returned tt, st, [])) /\
  outcome (leaveSecureDesktop env st) = Returned tt /\
  leaveSecureDesktop env' (final (leaveSecureDesktop env st))
    = (Returned tt, final (leaveSecureDesktop env st), []).
Proof.
  split; [apply leave_without_server|].
  split; [apply leave_returns|].
  apply leave_without_server, leave_server_none.
Qed.

Lemma leaveSecureDesktop_idempotent_witness :
  sdServer (self Sample.idle) = None /\
  leaveSecureDesktop Sample.env Sample.idle = (Returned tt, Sample.idle, []) /\
  leaveSecureDesktop Sample.failing_env
      (final (leaveSecureDesktop Sample.env Sample.active))
    = (Returned tt, final (leaveSecureDesktop Sample.env Sample.active), []).
Proof.
  split; [reflexivity|]. split.
  - apply (proj1 (leaveSecureDesktop_idempotent Sample.env Sample.env Sample.idle)).
    reflexivity.
  - apply (proj2 (proj2 (leaveSecureDesktop_idempotent Sample.env Sample.failing_env
                           Sample.active))).
Defined.

(** C8, as the specification states it, fails for the steps that are calls
    on collaborators.  On the active handler, with a relay server whose
    [close] raises [OSError], the method ends at that call with the exception:
    the bridge has been disconnected, but the relay transport is not closed,
    the hook is not removed, the event is not reset, and the view and the
    mapping handle are not released (they are still held).  Without the
    exception the eight calls are made. *)
Lemma leaveSecureDesktop_exception_skips_steps :
  ops (leaveSecureDesktop_with Sample.server_close_raises Sample.env Sample.active)
    = [BridgeDisconnect 3; ServerClose 1] /\
  outcome (leaveSecureDesktop_with Sample.server_close_raises Sample.env Sample.active)
    = Raised OSError /\
  self (final (leaveSecureDesktop_with Sample.server_close_raises Sample.env
                 Sample.active))
    = mkHandler (Some 8%Z) (Some 4096%Z) 7%Z (Some 5) (Some 1) (Some 2) None /\
  ops (leaveSecureDesktop Sample.env Sample.active)
    = [BridgeDisconnect 3; ServerClose 1; RelayClose 2;
       TransportUnregisterInbound 105 SET_BRAILLE_INFO; SessionSetDisplaySize 5;
       CallResetEvent 7; CallUnmapViewOfFile 4096; CallCloseHandle 8].
Proof.
  repeat split; vm_compute; reflexivity.
Qed.

(** C8, amended.  With an active bundle and a follower session that has a
    transport, [leaveSecureDesktop] makes these calls, in this order:
    disconnect the bridge, close the relay server, close the relay transport,
    unregister the [SET_BRAILLE_INFO] hook of the follower transport,
    [setDisplaySize] on the follower session, then [ResetEvent],
    [UnmapViewOfFile], [closeHandle].  When none of the first five raises, all
    eight are made whatever the operating system answers to the last three: a
    failure these report is followed by all the remaining steps, the method
    returns and nothing of the bundle is left.  When one of the first five
    raises, the calls are those up to and including that one, the exception
    leaves the method, and the view and the mapping handle are still held. *)
Theorem leaveSecureDesktop_cleanup_order faults env st s r b m a f t :
  sdServer (self st) = Some s -> sdRelay (self st) = Some r ->
  sdBridge (self st) = Some b -> _mapFile (self st) = Some m ->
  _bufferAddress (self st) = Some a ->
  _followerSession (self st) = Some f -> transport env f = Some t ->
  ((forall op,
      In op [BridgeDisconnect b; ServerClose s; RelayClose r;
             TransportUnregisterInbound t SET_BRAILLE_INFO; SessionSetDisplaySize f] ->
      faults op = None) ->
   ops (leaveSecureDesktop_with faults env st) =
     [BridgeDisconnect b; ServerClose s; RelayClose r;
      TransportUnregisterInbound t SET_BRAILLE_INFO; SessionSetDisplaySize f;
      CallResetEvent (_ipcEventHandle (self st));
      CallUnmapViewOfFile a; CallCloseHandle m] /\
   outcome (leaveSecureDesktop_with faults env st) = Returned tt /\
   bundle_none (self (final (leaveSecureDesktop_with faults env st)))) /\
  (forall before op after e,
     [BridgeDisconnect b; ServerClose s; RelayClose r;
      TransportUnregisterInbound t SET_BRAILLE_INFO; SessionSetDisplaySize f]
       = before ++ op :: after ->
     (forall op', In op' before -> faults op' = None) -> faults op = Some e ->
     ops (leaveSecureDesktop_with faults env st) = before ++ [op] /\
     outcome (leaveSecureDesktop_with faults env st) = Raised e /\
     _mapFile (self (final (leaveSecureDesktop_with faults env st))) = Some m /\
     _bufferAddress (self (final (leaveSecureDesktop_with faults env st))) = Some a).
Proof.
  intros Hs Hr Hb Hm Ha Hf Ht. destruct_state st. subst. split.
  - intros Hnone.
    assert (H1 := Hnone _ (or_introl eq_refl)).
    assert (H2 := Hnone _ (or_intror (or_introl eq_refl))).
    assert (H3 := Hnone _ (or_intror (or_intror (or_introl eq_refl)))).
    assert (H4 := Hnone _ (or_intror (or_intror (or_intror (or_introl eq_refl))))).
    assert (H5 := Hnone _ (or_intror (or_intror (or_intror (or_intror
                               (or_introl eq_refl)))))).
    unfold bundle_none.
    cbv [leaveSecureDesktop_with call_collaborator ResetEvent UnmapViewOfFile closeHandle
         bind ret call get update get_world put_world outcome final ops].
    cbn [self world _mapFile _bufferAddress _ipcEventHandle _followerSession
         sdServer sdRelay sdBridge shm ipcEvent fst snd].
    rewrite H1. cbn. rewrite H2. cbn. rewrite H3. cbn. rewrite Ht. cbn.
    rewrite H4. cbn. rewrite H5. cbn.
    destruct (os_ResetEvent env); cbn; repeat split; reflexivity.
  - intros before op after e Hsplit Hbefore Hop.
    cbv [leaveSecureDesktop_with call_collaborator ResetEvent UnmapViewOfFile closeHandle
         bind ret call get update get_world put_world outcome final ops].
    cbn [self world _mapFile _bufferAddress _ipcEventHandle _followerSession
         sdServer sdRelay sdBridge shm ipcEvent fst snd].
    destruct before as [|x1 before]; cbn [app] in Hsplit;
      injection Hsplit as <- Hsplit;
      [rewrite Hop; cbn; repeat split; reflexivity|].
    rewrite (Hbefore _ (or_introl eq_refl)). cbn.
    destruct before as [|x2 before]; cbn [app] in Hsplit;
      injection Hsplit as <- Hsplit;
      [rewrite Hop; cbn; repeat split; reflexivity|].
    rewrite (Hbefore _ (or_intror (or_introl eq_refl))). cbn.
    destruct before as [|x3 before]; cbn [app] in Hsplit;
      injection Hsplit as <- Hsplit;
      [rewrite Hop; cbn; repeat split; reflexivity|].
    rewrite (Hbefore _ (or_intror (or_intror (or_introl eq_refl)))). cbn.
    rewrite Ht. cbn.
    destruct before as [|x4 before]; cbn [app] in Hsplit;
      injection Hsplit as <- Hsplit;
      [rewrite Hop; cbn; repeat split; reflexivity|].
    rewrite (Hbefore _ (or_intror (or_intror (or_intror (or_introl eq_refl))))). cbn.
    destruct before as [|x5 before]; cbn [app] in Hsplit;
      injection Hsplit as <- Hsplit;
      [rewrite Hop; cbn; repeat split; reflexivity|].
    destruct before; discriminate Hsplit.
Qed.

Lemma leaveSecureDesktop_cleanup_order_witness :
  os_ResetEvent Sample.failing_env = false /\
  os_UnmapViewOfFile Sample.failing_env 4096%Z = false /\
  os_closeHandle Sample.failing_env 8%Z = false /\
  ops (leaveSecureDesktop Sample.failing_env Sample.active) =
    [BridgeDisconnect 3; ServerClose 1; RelayClose 2;
     TransportUnregisterInbound 105 SET_BRAILLE_INFO; SessionSetDisplaySize 5;
     CallResetEvent 7; CallUnmapViewOfFile 4096; CallCloseHandle 8] /\
  ops (leaveSecureDesktop_with Sample.server_close_raises Sample.failing_env
         Sample.active)
    = [BridgeDisconnect 3; ServerClose 1] /\
  outcome (leaveSecureDesktop_with Sample.server_close_raises Sample.failing_env
             Sample.active)
    = Raised OSError.
Proof.
  do 3 (split; [reflexivity|]).
  split.
  - apply (proj1 (leaveSecureDesktop_cleanup_order no_faults Sample.failing_env
                    Sample.active 1 2 3 8%Z 4096%Z 5 105
                    eq_refl eq_refl eq_refl eq_refl eq_refl eq_refl eq_refl)).
    intros op _. reflexivity.
  - destruct (proj2 (leaveSecureDesktop_cleanup_order Sample.server_close_raises
                       Sample.failing_env Sample.active 1 2 3 8%Z 4096%Z 5 105
                       eq_refl eq_refl eq_refl eq_refl eq_refl eq_refl eq_refl)
                [BridgeDisconnect 3] (ServerClose 1)
                [RelayClose 2; TransportUnregisterInbound 105 SET_BRAILLE_INFO;
                 SessionSetDisplaySize 5]
                OSError eq_refl) as (Hops & Hout & _).
    + intros op' [<-|[]]. reflexivity.
    + reflexivity.
    + split; [exact Hops | exact Hout].
Defined.

(** ** initializeSecureDesktop *)

(** C1, at a failing input: the mapping is opened and mapped, nobody signals
    the event, the wait times out.  The method returns [None] after three
    calls, none of which is [UnmapViewOfFile] or [closeHandle]: the view and
    the handle stay open. *)
Theorem initializeSecureDesktop_timeout_keeps_mapping :
  os_OpenFileMapping Sample.env = Some 9%Z /\
  os_MapViewOfFile Sample.env = Some 4096%Z /\
  wait_status Sample.env Sample.attached = Win32.WAIT_TIMEOUT /\
  initializeSecureDesktop Sample.env Sample.attached =
    (Returned None, Sample.attached,
     [CallOpenFileMapping _IPC_FILENAME; CallMapViewOfFile 9 128;
      CallWaitForSingleObject 7 2000]) /\
  ~ In (CallUnmapViewOfFile 4096) (ops (initializeSecureDesktop Sample.env Sample.attached)) /\
  ~ In (CallCloseHandle 9) (ops (initializeSecureDesktop Sample.env Sample.attached)).
Proof.
  repeat (split; [reflexivity|]).
  split; cbn; intros H; repeat (destruct H as [H|H]; [discriminate|]); exact H.
Qed.

(** The same for every wait that is not satisfied: timeout, failure, or any
    other status. *)
Lemma initialize_unsatisfied_wait env st m a :
  os_OpenFileMapping env = Some m -> os_MapViewOfFile env = Some a ->
  wait_status env st <> Win32.WAIT_OBJECT_0 ->
  outcome (initializeSecureDesktop env st) = Returned None /\
  ops (initializeSecureDesktop env st) =
    [CallOpenFileMapping _IPC_FILENAME;
     CallMapViewOfFile m (_IPC_MAXLEN * sizeof_WCHAR);
     CallWaitForSingleObject (_ipcEventHandle (self st)) 2000].
Proof.
  unfold wait_status. destruct_state st. intros Hm Ha Hw.
  unfold_methods. rewrite Hm, Ha. cbn.
  destruct (Win32.wait (os_waitFault env) (ipcEvent w)) as [status e]. cbn in *.
  destruct (status =? Win32.WAIT_TIMEOUT)%Z; [split; reflexivity|].
  destruct (status =? Win32.WAIT_FAILED)%Z; [split; reflexivity|].
  destruct (Z.eqb_spec status Win32.WAIT_OBJECT_0); [contradiction|].
  split; reflexivity.
Qed.

(** Once the [try] statement is entered, its [finally] clause releases the
    view and the handle, whatever the body does. *)
Lemma initialize_satisfied_wait_releases env st m a :
  os_OpenFileMapping env = Some m -> os_MapViewOfFile env = Some a ->
  wait_status env st = Win32.WAIT_OBJECT_0 ->
  exists body,
    ops (initializeSecureDesktop env st) =
      [CallOpenFileMapping _IPC_FILENAME;
       CallMapViewOfFile m (_IPC_MAXLEN * sizeof_WCHAR);
       CallWaitForSingleObject (_ipcEventHandle (self st)) 2000]
      ++ body ++ [CallUnmapViewOfFile a; CallCloseHandle m].
Proof.
  unfold wait_status. destruct_state st. intros Hm Ha Hw.
  unfold_methods. rewrite Hm, Ha. cbn.
  destruct (Win32.wait (os_waitFault env) (ipcEvent w)) as [status e]. cbn in *.
  subst status. cbn.
  destruct (json_loads env (WCharArray.wstring_at (shm w))) as [data|];
    [|exists []; reflexivity].
  destruct (Py.unpack2 data) as [p c| |]; try (exists []; reflexivity).
  destruct (socket_ok env); cbn; [|exists [SocketProbe]; reflexivity].
  destruct (os_localListeningSocketExists env p) as [[|]|];
    exists [SocketProbe; CallGetModuleFileName; CallLocalListeningSocketExists p];
    reflexivity.
Qed.

(** Settles [In (CallWaitForSingleObject h ms) l -> ...] on an explicit list. *)
Ltac in_wait :=
  let H := fresh "H" in
  intros ? ? H; cbn in H;
  repeat (destruct H as [H|H];
          [first [discriminate | injection H as <- <-; split; reflexivity]|]);
  destruct H.

(** C5. [initializeSecureDesktop] never raises; every wait it makes is on
    the IPC event with a timeout of 2000 ms; and it returns a connection only
    when the mapping was opened and mapped, the wait was satisfied, the
    payload decoded to a pair, the socket probe succeeded and the listening
    socket of the same process image was found.  In every other case -- wait
    timeout, wait failure, unknown status, malformed payload, probe failure,
    socket mismatch -- it returns [None]. *)
Theorem initializeSecureDesktop_fails_to_None env st :
  (outcome (initializeSecureDesktop env st) = Returned None \/
   exists m a data port channel,
     os_OpenFileMapping env = Some m /\ os_MapViewOfFile env = Some a /\
     wait_status env st = Win32.WAIT_OBJECT_0 /\
     json_loads env (WCharArray.wstring_at (shm (world st))) = Some data /\
     Py.unpack2 data = Py.Unpacked port channel /\
     socket_ok env = true /\
     os_localListeningSocketExists env port = Some true /\
     outcome (initializeSecureDesktop env st) =
       Returned (Some (mkConnectionInfo "127.0.0.1" FOLLOWER channel port true))) /\
  (forall handle ms,
     In (CallWaitForSingleObject handle ms) (ops (initializeSecureDesktop env st)) ->
     handle = _ipcEventHandle (self st) /\ ms = 2000%Z).
Proof.
  unfold wait_status. destruct_state st. unfold_methods.
  destruct (os_OpenFileMapping env) as [m|] eqn:Hm; cbn; [|split; [left; reflexivity|in_wait]].
  destruct (os_MapViewOfFile env) as [a|] eqn:Ha; cbn; [|split; [left; reflexivity|in_wait]].
  destruct (Win32.wait (os_waitFault env) (ipcEvent w)) as [status e]. cbn.
  destruct (status =? Win32.WAIT_TIMEOUT)%Z; [split; [left; reflexivity|in_wait]|].
  destruct (status =? Win32.WAIT_FAILED)%Z; [split; [left; reflexivity|in_wait]|].
  destruct (Z.eqb_spec status Win32.WAIT_OBJECT_0) as [->|];
    [|split; [left; reflexivity|in_wait]].
  cbn.
  destruct (json_loads env (WCharArray.wstring_at (shm w))) as [data|] eqn:Hdata; cbn;
    [|split; [left; reflexivity|in_wait]].
  destruct (Py.unpack2 data) as [p c| |] eqn:Hunpack; cbn;
    try (split; [left; reflexivity|in_wait]).
  destruct (socket_ok env) eqn:Hsock; cbn; [|split; [left; reflexivity|in_wait]].
  destruct (os_localListeningSocketExists env p) as [[|]|] eqn:Hlisten; cbn;
    try (split; [left; reflexivity|in_wait]).
  split; [|in_wait].
  right. exists m, a, data, p, c. repeat split; assumption.
Qed.

Lemma initializeSecureDesktop_fails_to_None_witness :
  In (CallWaitForSingleObject 7 2000)
     (ops (initializeSecureDesktop Sample.env Sample.active)) /\
  (7 = _ipcEventHandle (self Sample.active) /\ 2000 = 2000)%Z.
Proof.
  assert (H : In (CallWaitForSingleObject 7 2000)
                (ops (initializeSecureDesktop Sample.env Sample.active))).
  { cbn. right. right. left. reflexivity. }
  split; [exact H|].
  exact (proj2 (initializeSecureDesktop_fails_to_None Sample.env Sample.active) _ _ H).
Defined.

(** ** The setter of followerSession *)

Lemma session_eqb_eq a b : session_eqb a b = true <-> a = b.
Proof.
  destruct a as [x|], b as [y|]; cbn; try (split; congruence).
  rewrite Nat.eqb_eq. split; congruence.
Qed.

Lemma leave_keeps_session env st :
  _followerSession (self (final (leaveSecureDesktop env st))) = _followerSession (self st).
Proof.
  destruct_state st. unfold_methods.
  destruct server, bridge, relay, follower as [f|], address, mapFile;
    cbn; try destruct (transport env f); cbn;
    destruct (os_ResetEvent env); reflexivity.
Qed.

Lemma setter_changed env session st :
  session_eqb (_followerSession (self st)) session = false ->
  ops (followerSession_setter env session st) =
    ops (torn_down env st) ++ unsubscribed env (_followerSession (self st))
      ++ subscribed env session /\
  self (final (followerSession_setter env session st)) =
    set_followerSession session (self (final (torn_down env st))) /\
  world (final (followerSession_setter env session st)) = world (final (torn_down env st)).
Proof.
  intros Hneq. unfold followerSession_setter, torn_down.
  cbv [bind get ret outcome final ops update call raise]. rewrite Hneq.
  pose proof (leave_keeps_session env st) as Hkeep.
  pose proof (leave_returns env st) as Hret.
  unfold outcome, final in Hkeep, Hret.
  destruct (sdServer (self st)) eqn:Hs.
  - destruct (leaveSecureDesktop env st) as [[out st1] ops1].
    cbn in Hkeep, Hret. subst out. cbn. rewrite Hkeep.
    unfold unsubscribed, subscribed.
    destruct (_followerSession (self st)) as [f|]; [destruct (transport env f)|];
      (destruct session as [g|]; [destruct (transport env g)|]);
      cbn; rewrite ?app_nil_r; repeat split; reflexivity.
  - cbn. unfold unsubscribed, subscribed.
    destruct (_followerSession (self st)) as [f|]; [destruct (transport env f)|];
      (destruct session as [g|]; [destruct (transport env g)|]);
      cbn; repeat split; reflexivity.
Qed.

(** C9. Assigning [followerSession]: with the session it already has, the
    setter changes nothing and makes no call.  With another one, its calls
    are those of [leaveSecureDesktop] when a bundle is active (and none
    otherwise), after which nothing of the bundle is left; then the removal
    of the [SET_BRAILLE_INFO] hook from the old session's transport; then,
    last, its installation on the new session's transport.  The handler ends
    with the new session and without bundle. *)
Theorem followerSession_setter_tears_down_first env session st :
  (_followerSession (self st) = session ->
   followerSession_setter env session st = (Returned tt, st, [])) /\
  (_followerSession (self st) <> session ->
   ops (followerSession_setter env session st) =
     ops (torn_down env st) ++ unsubscribed env (_followerSession (self st))
       ++ subscribed env session /\
   (sdServer (self st) <> None ->
    torn_down env st = leaveSecureDesktop env st /\
    bundle_none (self (final (torn_down env st))) /\
    bundle_none (self (final (followerSession_setter env session st)))) /\
   _followerSession (self (final (followerSession_setter env session st))) = session).
Proof.
  split.
  - intros Heq. apply session_eqb_eq in Heq.
    unfold followerSession_setter. cbv [bind get ret]. rewrite Heq. reflexivity.
  - intros Hneq.
    assert (Hb : session_eqb (_followerSession (self st)) session = false).
    { destruct (session_eqb _ _) eqn:E; [|reflexivity].
      apply session_eqb_eq in E. contradiction. }
    destruct (setter_changed env session st Hb) as (Hops & Hself & _).
    split; [exact Hops|]. split.
    + intros Hs.
      assert (Ht : torn_down env st = leaveSecureDesktop env st).
      { unfold torn_down. destruct (sdServer (self st)); [reflexivity|congruence]. }
      split; [exact Ht|].
      assert (Hnone : bundle_none (self (final (torn_down env st)))).
      { rewrite Ht. apply leave_clears_bundle, Hs. }
      split; [exact Hnone|].
      rewrite Hself. exact Hnone.
    + rewrite Hself. reflexivity.
Qed.

Lemma followerSession_setter_tears_down_first_witness :
  _followerSession (self Sample.active) <> Some 6 /\
  sdServer (self Sample.active) <> None /\
  ops (followerSession_setter Sample.env (Some 6) Sample.active) =
    [BridgeDisconnect 3; ServerClose 1; RelayClose 2;
     TransportUnregisterInbound 105 SET_BRAILLE_INFO; SessionSetDisplaySize 5;
     CallResetEvent 7; CallUnmapViewOfFile 4096; CallCloseHandle 8]
    ++ [TransportUnregisterInbound 105 SET_BRAILLE_INFO]
    ++ [TransportRegisterInbound 106 SET_BRAILLE_INFO].
Proof.
  assert (H : _followerSession (self Sample.active) <> Some 6) by discriminate.
  split; [exact H|]. split; [discriminate|].
  exact (proj1 (proj2 (followerSession_setter_tears_down_first
                         Sample.env (Some 6) Sample.active) H)).
Defined.

(** ** The handshake in the shared buffer *)

Section Handshake.

Import WCharArray.

Lemma codes_length s : List.length (codes s) = String.length s.
Proof.
  unfold codes. rewrite length_map.
  induction s as [|c s IH]; cbn; [reflexivity | now rewrite IH].
Qed.

Lemma codes_app a b : codes (a ++ b) = codes a ++ codes b.
Proof.
  unfold codes. induction a as [|c a IH]; cbn; [reflexivity | now rewrite IH].
Qed.

Lemma string_length_app a b :
  String.length (a ++ b) = (String.length a + String.length b)%nat.
Proof. induction a as [|c a IH]; cbn; [reflexivity | now rewrite IH]. Qed.

(** The handshake ends with the closing bracket. *)
Lemma payload_ends_with_bracket env :
  exists body, codes (payload env) = body ++ [93%N].
Proof.
  unfold payload, Py.json_dumps.
  exists (codes ("[" ++ Py.str_int (getsockname_port env) ++ ", "
                   ++ Py.json_dumps_str (uuid4 env))).
  rewrite !codes_app. rewrite <- !app_assoc. reflexivity.
Qed.

Lemma escape_char_nonzero c : Forall nonzero (codes (Py.escape_char c)).
Proof.
  destruct c as [[|] [|] [|] [|] [|] [|] [|] [|]];
    vm_compute; repeat constructor; discriminate.
Qed.

Lemma escape_nonzero s : Forall nonzero (codes (Py.escape s)).
Proof.
  induction s as [|c s IH]; [constructor|].
  change (Py.escape (String c s)) with (Py.escape_char c ++ Py.escape s)%string.
  rewrite codes_app. apply Forall_app. split; [apply escape_char_nonzero | exact IH].
Qed.

Lemma string_of_uint_nonzero d : Forall nonzero (codes (NilEmpty.string_of_uint d)).
Proof.
  induction d; cbn; constructor; try assumption; discriminate.
Qed.

Lemma str_int_nonzero n : Forall nonzero (codes (Py.str_int n)).
Proof.
  unfold Py.str_int, NilZero.string_of_int, NilZero.string_of_uint.
  destruct (Z.to_int n) as [d|d]; destruct d; cbn;
    repeat (constructor; try discriminate); apply string_of_uint_nonzero.
Qed.

Lemma payload_nonzero env : Forall nonzero (codes (payload env)).
Proof.
  unfold payload, Py.json_dumps, Py.json_dumps_str.
  rewrite !codes_app. repeat (apply Forall_app; split);
    try apply str_int_nonzero; try apply escape_nonzero;
    vm_compute; repeat constructor; discriminate.
Qed.

Lemma wstring_at_terminated cs rest :
  Forall nonzero cs -> wstring_at (cs ++ 0%N :: rest) = cs.
Proof.
  induction 1 as [|c cs Hc _ IH]; cbn; [reflexivity|].
  destruct (N.eqb_spec c 0); [contradiction | now rewrite IH].
Qed.

(** What a successful [write_handshake] has put into the memory: the
    string was shorter than the array, and its characters are followed by
    the null. *)
Lemma set_value_checked n mem s body mem' :
  codes s = body ++ [93%N] ->
  set_value n mem s = Some mem' ->
  last_unit n mem' = 0%N ->
  (String.length s < n)%nat /\
  mem' = codes s ++ 0%N :: skipn (S (String.length s)) mem.
Proof.
  unfold set_value, last_unit. intros Hbody Hset Hlast.
  rewrite codes_length in Hset.
  destruct (Nat.ltb_spec n (String.length s)); [discriminate|].
  destruct (Nat.ltb_spec (String.length s) n) as [Hlt|Hge].
  - split; [exact Hlt|]. injection Hset as <-.
    rewrite length_app, codes_length, Nat.add_1_r, <- app_assoc. reflexivity.
  - exfalso. injection Hset as <-.
    assert (Hn : n = String.length s) by lia.
    rewrite <- (codes_length s), Hbody, length_app in Hn. cbn in Hn.
    rewrite app_nth1 in Hlast by (rewrite codes_length, <- (codes_length s), Hbody, length_app; cbn; lia).
    rewrite Hbody, app_nth2 in Hlast by lia.
    replace (n - 1 - List.length body)%nat with 0%nat in Hlast by lia.
    discriminate.
Qed.

Lemma firstn_written cs rest :
  firstn (S (List.length cs)) (cs ++ 0%N :: rest) = cs ++ [0%N].
Proof.
  induction cs as [|c cs IH]; [reflexivity|].
  cbn [List.length app]. rewrite firstn_cons. f_equal. exact IH.
Qed.

End Handshake.

(** ** enterSecureDesktop *)

Lemma enter_unattached env st :
  _followerSession (self st) = None \/
  (exists f, _followerSession (self st) = Some f /\ transport env f = None) ->
  enterSecureDesktop env st = (Returned tt, st, []).
Proof.
  destruct_state st. intros [->|(f & -> & Ht)]; unfold_methods; [reflexivity|].
  rewrite Ht. reflexivity.
Qed.

Lemma enter_no_mapping env st f t :
  _followerSession (self st) = Some f -> transport env f = Some t ->
  os_CreateFileMapping env = None ->
  enterSecureDesktop env st =
    (Returned tt, st, [CallCreateFileMapping (_IPC_MAXLEN * sizeof_WCHAR) _IPC_FILENAME]).
Proof.
  destruct_state st. intros -> Ht Hm. unfold_methods. rewrite Ht, Hm. reflexivity.
Qed.

Lemma enter_no_view env st f t m existed :
  _followerSession (self st) = Some f -> transport env f = Some t ->
  os_CreateFileMapping env = Some (m, existed) -> os_MapViewOfFile env = None ->
  enterSecureDesktop env st =
    (Returned tt, mkSt (self st) (mkWorld (mapped_memory env (world st)) (ipcEvent (world st))),
     [CallCreateFileMapping (_IPC_MAXLEN * sizeof_WCHAR) _IPC_FILENAME;
      CallMapViewOfFile m (_IPC_MAXLEN * sizeof_WCHAR);
      CallCloseHandle m]).
Proof.
  destruct_state st. destruct w as [mem e]. intros -> Ht Hm Ha.
  unfold mapped_memory. unfold_methods. rewrite Ht, Hm, Ha.
  destruct existed; reflexivity.
Qed.

(** The handshake does not pass: the view and the mapping are released and
    the server just created is closed. *)
Lemma enter_abandoned env st f t m existed a :
  _followerSession (self st) = Some f -> transport env f = Some t ->
  os_CreateFileMapping env = Some (m, existed) -> os_MapViewOfFile env = Some a ->
  published env (world st) = None ->
  enterSecureDesktop env st =
    (Returned tt,
     mkSt (set_sdServer None (self st))
          (mkWorld (match assigned env (world st) with
                    | Some mem => mem
                    | None => mapped_memory env (world st)
                    end) (ipcEvent (world st))),
     [CallCreateFileMapping (_IPC_MAXLEN * sizeof_WCHAR) _IPC_FILENAME;
      CallMapViewOfFile m (_IPC_MAXLEN * sizeof_WCHAR);
      NewLocalRelayServer (new_LocalRelayServer env) (uuid4 env);
      BufferSetValue a (payload env);
      CallUnmapViewOfFile a; CallCloseHandle m;
      ServerClose (new_LocalRelayServer env)]).
Proof.
  destruct_state st. destruct w as [mem e]. intros -> Ht Hm Ha.
  unfold published, assigned, mapped_memory, payload. unfold_methods.
  rewrite Ht, Hm, Ha. cbn [shm ipcEvent world self].
  destruct existed; cbn [shm ipcEvent world self];
    match goal with
    | |- context [WCharArray.set_value ?n ?x ?s] =>
        destruct (WCharArray.set_value n x s) as [mem'|] eqn:Hset
    end; cbn [shm ipcEvent world self];
    try (destruct (WCharArray.last_unit _ mem' =? 0)%N eqn:Hlast; [discriminate|]);
    intros _; reflexivity.
Qed.

(** The handshake passes: the rest of the bundle is built and the event is
    signaled last. *)
Lemma enter_published env st f t m existed a mem :
  _followerSession (self st) = Some f -> transport env f = Some t ->
  os_CreateFileMapping env = Some (m, existed) -> os_MapViewOfFile env = Some a ->
  published env (world st) = Some mem ->
  enterSecureDesktop env st =
    (Returned tt,
     mkSt (mkHandler (Some m) (Some a) (_ipcEventHandle (self st)) (Some f)
             (Some (new_LocalRelayServer env)) (Some (new_RelayTransport env))
             (Some (new_BridgeTransport env)))
          (mkWorld mem (if os_SetEvent env
                        then Win32.set_signaled (ipcEvent (world st)) true
                        else ipcEvent (world st))),
     [CallCreateFileMapping (_IPC_MAXLEN * sizeof_WCHAR) _IPC_FILENAME;
      CallMapViewOfFile m (_IPC_MAXLEN * sizeof_WCHAR);
      NewLocalRelayServer (new_LocalRelayServer env) (uuid4 env);
      BufferSetValue a (payload env);
      ThreadStartServerRun (new_LocalRelayServer env);
      NewRelayTransport (new_RelayTransport env) (getsockname_port env) (uuid4 env);
      RelayRegisterInbound (new_RelayTransport env) CLIENT_JOINED;
      TransportRegisterInbound t SET_BRAILLE_INFO;
      NewBridgeTransport (new_BridgeTransport env) t (new_RelayTransport env);
      ThreadStartRelayRun (new_RelayTransport env)]
     ++ [CallSetEvent (_ipcEventHandle (self st))]).
Proof.
  destruct_state st. destruct w as [mem0 e]. intros -> Ht Hm Ha.
  unfold published, assigned, mapped_memory, payload. unfold_methods.
  rewrite Ht, Hm, Ha. cbn [shm ipcEvent world self].
  destruct existed; cbn [shm ipcEvent world self];
    match goal with
    | |- context [WCharArray.set_value ?n ?x ?s] =>
        destruct (WCharArray.set_value n x s) as [mem'|] eqn:Hset
    end; cbn [shm ipcEvent world self]; try discriminate;
    (destruct (WCharArray.last_unit _ mem' =? 0)%N eqn:Hlast; [|discriminate]);
    intros [= ->]; cbn; destruct (os_SetEvent env); reflexivity.
Qed.

Lemma published_fits env w mem :
  published env w = Some mem ->
  (String.length (payload env) < Z.to_nat _IPC_MAXLEN)%nat /\
  mem = WCharArray.codes (payload env)
          ++ 0%N :: skipn (S (String.length (payload env))) (mapped_memory env w).
Proof.
  unfold published, assigned. intros H.
  destruct (WCharArray.set_value _ _ _) as [mem'|] eqn:Hset; [|discriminate].
  destruct (N.eqb_spec (WCharArray.last_unit (Z.to_nat _IPC_MAXLEN) mem') 0);
    [|discriminate].
  injection H as <-.
  destruct (payload_ends_with_bracket env) as [body Hbody].
  eapply set_value_checked; eassumption.
Qed.

(** Splits a goal about [enterSecureDesktop env st] along the five ways the
    method can go, and rewrites the run accordingly. *)
Ltac enter_cases env st :=
  let f := fresh "f" in
  let t := fresh "t" in
  let m := fresh "m" in
  let existed := fresh "existed" in
  let a := fresh "a" in
  let mem := fresh "mem" in
  let Hf := fresh "Hf" in
  let Ht := fresh "Ht" in
  let Hm := fresh "Hm" in
  let Ha := fresh "Ha" in
  let Hp := fresh "Hp" in
  destruct (_followerSession (self st)) as [f|] eqn:Hf;
    [|rewrite (enter_unattached env st (or_introl Hf))];
    [destruct (transport env f) as [t|] eqn:Ht;
       [|rewrite (enter_unattached env st
                    (or_intror (ex_intro _ f (conj Hf Ht))))];
       [destruct (os_CreateFileMapping env) as [[m existed]|] eqn:Hm;
          [|rewrite (enter_no_mapping env st f t Hf Ht Hm)];
          [destruct (os_MapViewOfFile env) as [a|] eqn:Ha;
             [|rewrite (enter_no_view env st f t m existed Hf Ht Hm Ha)];
             [destruct (published env (world st)) as [mem|] eqn:Hp;
                [rewrite (enter_published env st f t m existed a mem Hf Ht Hm Ha Hp)
                |rewrite (enter_abandoned env st f t m existed a Hf Ht Hm Ha Hp)]
             |]
          |]
       |]
    |].

(** Settles [~ In (CallSetEvent h) l] on an explicit list. *)
Ltac not_signaled :=
  let H := fresh "H" in
  intros ? H; cbn in H; repeat (destruct H as [H|H]; [discriminate|]); exact H.

(** [SetEvent] is called only when the handshake was published. *)
Lemma enter_signal_needs_publication env st handle :
  In (CallSetEvent handle) (ops (enterSecureDesktop env st)) ->
  exists mem, published env (world st) = Some mem.
Proof.
  enter_cases env st; unfold ops; cbn [snd fst];
    try (intros H; exfalso; revert handle H; not_signaled).
  intros _. exists mem. reflexivity.
Qed.

(** C2. In every run of [enterSecureDesktop], a call of [SetEvent] is the
    last call of the run and the only one; before it the handshake
    [json.dumps([port, channel])] was assigned to the buffer and the relay
    server, the relay transport and the bridge were constructed; and the
    shared memory then holds the characters of the handshake followed by the
    terminating null, so that [wstring_at] reads the handshake back.  On each
    abort path (no follower session or transport, no file mapping, no view, a
    handshake of 64 characters or more) there is no call of [SetEvent] and
    the event is left as it was. *)
Theorem enterSecureDesktop_signals_last env st :
  (forall handle,
     In (CallSetEvent handle) (ops (enterSecureDesktop env st)) ->
     exists before t m a,
       ops (enterSecureDesktop env st) = before ++ [CallSetEvent handle] /\
       (forall h, ~ In (CallSetEvent h) before) /\
       In (BufferSetValue a (payload env)) before /\
       In (NewLocalRelayServer (new_LocalRelayServer env) (uuid4 env)) before /\
       In (NewRelayTransport (new_RelayTransport env) (getsockname_port env)
             (uuid4 env)) before /\
       In (NewBridgeTransport (new_BridgeTransport env) t (new_RelayTransport env))
          before /\
       firstn (S (String.length (payload env)))
              (shm (world (final (enterSecureDesktop env st))))
         = WCharArray.codes (payload env) ++ [0%N] /\
       WCharArray.wstring_at (shm (world (final (enterSecureDesktop env st))))
         = WCharArray.codes (payload env) /\
       sdServer (self (final (enterSecureDesktop env st)))
         = Some (new_LocalRelayServer env) /\
       sdRelay (self (final (enterSecureDesktop env st)))
         = Some (new_RelayTransport env) /\
       sdBridge (self (final (enterSecureDesktop env st)))
         = Some (new_BridgeTransport env) /\
       _mapFile (self (final (enterSecureDesktop env st))) = Some m /\
       _bufferAddress (self (final (enterSecureDesktop env st))) = Some a) /\
  (enter_aborts env st ->
   (forall handle, ~ In (CallSetEvent handle) (ops (enterSecureDesktop env st))) /\
   ipcEvent (world (final (enterSecureDesktop env st))) = ipcEvent (world st)).
Proof.
  split.
  - enter_cases env st; unfold ops; cbn [snd fst];
      try (intros handle H; exfalso; revert handle H; not_signaled).
    intros handle H.
    apply in_app_or in H. destruct H as [H|H];
      [exfalso; revert handle H; not_signaled|].
    destruct H as [[= <-]|[]].
    destruct (published_fits env (world st) mem Hp) as [Hlt ->].
    exists
      [CallCreateFileMapping (_IPC_MAXLEN * sizeof_WCHAR) _IPC_FILENAME;
       CallMapViewOfFile m (_IPC_MAXLEN * sizeof_WCHAR);
       NewLocalRelayServer (new_LocalRelayServer env) (uuid4 env);
       BufferSetValue a (payload env);
       ThreadStartServerRun (new_LocalRelayServer env);
       NewRelayTransport (new_RelayTransport env) (getsockname_port env) (uuid4 env);
       RelayRegisterInbound (new_RelayTransport env) CLIENT_JOINED;
       TransportRegisterInbound t SET_BRAILLE_INFO;
       NewBridgeTransport (new_BridgeTransport env) t (new_RelayTransport env);
       ThreadStartRelayRun (new_RelayTransport env)], t, m, a.
    unfold final. cbn [fst snd self world shm sdServer sdRelay sdBridge _mapFile
                       _bufferAddress].
    split; [reflexivity|]. split; [not_signaled|].
    split; [cbn; tauto|]. split; [cbn; tauto|]. split; [cbn; tauto|].
    split; [cbn; tauto|].
    split; [rewrite <- codes_length; apply firstn_written|].
    split; [apply wstring_at_terminated, payload_nonzero|].
    repeat split; reflexivity.
  - intros Habort. enter_cases env st; unfold ops, final; cbn [snd fst world ipcEvent];
      try (split; [not_signaled | reflexivity]).
    exfalso. destruct (published_fits env (world st) mem Hp) as [Hlt _].
    destruct Habort as [H|[(f' & H & H')|[H|[H|H]]]]; try congruence; lia.
Qed.

Lemma enterSecureDesktop_signals_last_witness :
  In (CallSetEvent 7) (ops (enterSecureDesktop Sample.env Sample.attached)) /\
  WCharArray.wstring_at
    (shm (world (final (enterSecureDesktop Sample.env Sample.attached))))
    = WCharArray.codes (payload Sample.env) /\
  enter_aborts Sample.oversized_env Sample.attached /\
  ~ In (CallSetEvent 7) (ops (enterSecureDesktop Sample.oversized_env Sample.attached)).
Proof.
  assert (H : In (CallSetEvent 7)
                (ops (enterSecureDesktop Sample.env Sample.attached))).
  { cbn. do 10 right. left. reflexivity. }
  assert (A : enter_aborts Sample.oversized_env Sample.attached).
  { do 4 right. apply Nat.leb_le. vm_compute. reflexivity. }
  split; [exact H|]. split; [|split; [exact A|]].
  - destruct (proj1 (enterSecureDesktop_signals_last Sample.env Sample.attached) 7%Z H)
      as (before & t & m & a & _ & _ & _ & _ & _ & _ & _ & Hread & _).
    exact Hread.
  - exact (proj1 (proj2 (enterSecureDesktop_signals_last
                           Sample.oversized_env Sample.attached) A) 7%Z).
Defined.

(** C3, as the specification states it, fails on a handler that has a
    bundle.  Called on the active handler with a handshake of 64 characters,
    the method returns with the relay transport, the bridge, the mapping
    handle and the view address of the earlier bundle still set; it has
    closed the server it started (4), not the server of that bundle (1). *)
Lemma enterSecureDesktop_oversized_keeps_earlier_bundle :
  String.length (payload Sample.oversized_second_env) = Z.to_nat _IPC_MAXLEN /\
  outcome (enterSecureDesktop Sample.oversized_second_env Sample.active) = Returned tt /\
  self (final (enterSecureDesktop Sample.oversized_second_env Sample.active))
    = mkHandler (Some 8%Z) (Some 4096%Z) 7%Z (Some 5) None (Some 2) (Some 3) /\
  ~ bundle_none (self (final (enterSecureDesktop Sample.oversized_second_env
                                Sample.active))) /\
  sdServer (self Sample.active) = Some 1 /\
  ~ In (ServerClose 1) (ops (enterSecureDesktop Sample.oversized_second_env Sample.active)).
Proof.
  split; [vm_compute; reflexivity|]. split; [vm_compute; reflexivity|].
  split; [vm_compute; reflexivity|].
  split; [intros (_ & H & _); vm_compute in H; discriminate H|].
  split; [reflexivity|].
  intros H. vm_compute in H.
  repeat (destruct H as [H|H]; [discriminate H|]). exact H.
Qed.

(** C3, amended.  [enterSecureDesktop] with a handshake of 64 characters or
    more (no room for the terminating null in the 64 units of the buffer), on
    a handler in any state: the method returns, no exception escapes, and the
    event is not signaled; [sdRelay], [sdBridge], [_mapFile] and
    [_bufferAddress] are left as they were at the call, and [sdServer] is
    [None] or as it was; so on a handler without bundle all five are [None]
    when the method returns.  When the run got as far as the handshake, its
    calls are: create the mapping, map the view, create the server, assign
    the buffer, then unmap the view, close the mapping handle and close the
    server just created; and [sdServer] is [None]. *)
Theorem enterSecureDesktop_oversized_aborts env st :
  (Z.to_nat _IPC_MAXLEN <= String.length (payload env))%nat ->
  outcome (enterSecureDesktop env st) = Returned tt /\
  (forall handle, ~ In (CallSetEvent handle) (ops (enterSecureDesktop env st))) /\
  (sdRelay (self (final (enterSecureDesktop env st))) = sdRelay (self st) /\
   sdBridge (self (final (enterSecureDesktop env st))) = sdBridge (self st) /\
   _mapFile (self (final (enterSecureDesktop env st))) = _mapFile (self st) /\
   _bufferAddress (self (final (enterSecureDesktop env st))) = _bufferAddress (self st)) /\
  (sdServer (self (final (enterSecureDesktop env st))) = None \/
   sdServer (self (final (enterSecureDesktop env st))) = sdServer (self st)) /\
  (bundle_none (self st) -> bundle_none (self (final (enterSecureDesktop env st)))) /\
  (forall f t m existed a,
     _followerSession (self st) = Some f -> transport env f = Some t ->
     os_CreateFileMapping env = Some (m, existed) -> os_MapViewOfFile env = Some a ->
     ops (enterSecureDesktop env st) =
       [CallCreateFileMapping (_IPC_MAXLEN * sizeof_WCHAR) _IPC_FILENAME;
        CallMapViewOfFile m (_IPC_MAXLEN * sizeof_WCHAR);
        NewLocalRelayServer (new_LocalRelayServer env) (uuid4 env);
        BufferSetValue a (payload env);
        CallUnmapViewOfFile a; CallCloseHandle m;
        ServerClose (new_LocalRelayServer env)] /\
     sdServer (self (final (enterSecureDesktop env st))) = None).
Proof.
  intros Hlen.
  assert (Hp : published env (world st) = None).
  { destruct (published env (world st)) as [mem|] eqn:E; [|reflexivity].
    apply published_fits in E. lia. }
  assert (Hkept :
    sdRelay (self (final (enterSecureDesktop env st))) = sdRelay (self st) /\
    sdBridge (self (final (enterSecureDesktop env st))) = sdBridge (self st) /\
    _mapFile (self (final (enterSecureDesktop env st))) = _mapFile (self st) /\
    _bufferAddress (self (final (enterSecureDesktop env st)))
      = _bufferAddress (self st)).
  { enter_cases env st; try congruence; repeat split; reflexivity. }
  assert (Hserver :
    sdServer (self (final (enterSecureDesktop env st))) = None \/
    sdServer (self (final (enterSecureDesktop env st))) = sdServer (self st)).
  { enter_cases env st; try congruence; try (right; reflexivity).
    left. reflexivity. }
  split; [|split; [|split; [exact Hkept|split; [exact Hserver|split]]]].
  - enter_cases env st; reflexivity.
  - intros handle H. apply enter_signal_needs_publication in H.
    destruct H as [mem H]. congruence.
  - intros (H1 & H2 & H3 & H4 & H5).
    destruct Hkept as (K2 & K3 & K4 & K5).
    unfold bundle_none. rewrite K2, K3, K4, K5.
    repeat split; try assumption.
    destruct Hserver as [H|H]; [exact H | congruence].
  - intros f t m existed a Hf Ht Hm Ha.
    rewrite (enter_abandoned env st f t m existed a Hf Ht Hm Ha Hp).
    split; reflexivity.
Qed.


Lemma enterSecureDesktop_oversized_aborts_witness :
  (Z.to_nat _IPC_MAXLEN <= String.length (payload Sample.oversized_env))%nat /\
  bundle_none (self Sample.attached) /\
  outcome (enterSecureDesktop Sample.oversized_env Sample.attached) = Returned tt /\
  bundle_none (self (final (enterSecureDesktop Sample.oversized_env Sample.attached))) /\
  ops (enterSecureDesktop Sample.oversized_env Sample.attached) =
    [CallCreateFileMapping 128 _IPC_FILENAME; CallMapViewOfFile 8 128;
     NewLocalRelayServer 1 (uuid4 Sample.oversized_env);
     BufferSetValue 4096 (payload Sample.oversized_env);
     CallUnmapViewOfFile 4096; CallCloseHandle 8; ServerClose 1] /\
  sdRelay (self (final (enterSecureDesktop Sample.oversized_second_env Sample.active)))
    = sdRelay (self Sample.active).
Proof.
  assert (N : bundle_none (self Sample.attached)) by (repeat split).
  assert (L : (Z.to_nat _IPC_MAXLEN
               <= String.length (payload Sample.oversized_env))%nat).
  { apply Nat.leb_le. vm_compute. reflexivity. }
  assert (L2 : (Z.to_nat _IPC_MAXLEN
                <= String.length (payload Sample.oversized_second_env))%nat).
  { apply Nat.leb_le. vm_compute. reflexivity. }
  split; [exact L|]. split; [exact N|].
  destruct (enterSecureDesktop_oversized_aborts Sample.oversized_env Sample.attached L)
    as (Hout & _ & _ & _ & Hnone & Hops).
  split; [exact Hout|]. split; [exact (Hnone N)|].
  split; [exact (proj1 (Hops 5 105 8%Z false 4096%Z eq_refl eq_refl eq_refl eq_refl))|].
  exact (proj1 (proj1 (proj2 (proj2 (enterSecureDesktop_oversized_aborts
                                       Sample.oversized_second_env Sample.active L2))))).
Defined.

(** ** The bundle between transitions *)

Lemma uuid_char_escape c : uuid_char c = true -> Py.escape_char c = String c EmptyString.
Proof.
  destruct c as [[|] [|] [|] [|] [|] [|] [|] [|]]; vm_compute;
    intros H; try discriminate H; reflexivity.
Qed.

Lemma uuid_escape s :
  forallb uuid_char (list_ascii_of_string s) = true -> Py.escape s = s.
Proof.
  induction s as [|c s IH]; [reflexivity|].
  cbn [list_ascii_of_string forallb Py.escape]. intros H.
  apply andb_prop in H. destruct H as [Hc Hs].
  rewrite (uuid_char_escape c Hc), (IH Hs). reflexivity.
Qed.

(** Every port has at most five digits (checked by enumeration). *)
Lemma ports_have_five_digits :
  forallb
    (fun hi =>
       forallb
         (fun lo =>
            (String.length (Py.str_int (256 * Z.of_nat hi + Z.of_nat lo)) <=? 5)%nat)
         (seq 0 256))
    (seq 0 256) = true.
Proof. vm_compute. reflexivity. Qed.

Lemma byte_in_seq z : (0 <= z < 256)%Z -> In (Z.to_nat z) (seq 0 256).
Proof. intros H. apply in_seq. lia. Qed.

Lemma port_digits p :
  (0 <= p < 65536)%Z -> (String.length (Py.str_int p) <= 5)%nat.
Proof.
  intros Hp.
  assert (Hhi : (0 <= p / 256 < 256)%Z).
  { split; [apply Z.div_pos; lia | apply Z.div_lt_upper_bound; lia]. }
  pose proof (Z.mod_pos_bound p 256 eq_refl) as Hlo.
  pose proof ports_have_five_digits as H.
  rewrite forallb_forall in H. specialize (H _ (byte_in_seq _ Hhi)).
  rewrite forallb_forall in H. specialize (H _ (byte_in_seq _ Hlo)).
  apply Nat.leb_le in H.
  rewrite !Z2Nat.id in H by lia. rewrite <- Z.div_mod in H by lia. exact H.
Qed.

Lemma realistic_payload_length env :
  realistic env -> (String.length (payload env) <= 47)%nat.
Proof.
  intros [Hu Hp]. unfold uuid_shaped in Hu.
  apply andb_prop in Hu. destruct Hu as [Hlen Hchars].
  apply Nat.eqb_eq in Hlen. apply port_digits in Hp.
  unfold payload, Py.json_dumps, Py.json_dumps_str.
  rewrite (uuid_escape _ Hchars), !string_length_app, Hlen.
  cbn [String.length Py.dquote]. lia.
Qed.

Lemma mapped_memory_terminator env w :
  terminator_clear w ->
  WCharArray.last_unit (Z.to_nat _IPC_MAXLEN) (mapped_memory env w) = 0%N.
Proof.
  unfold terminator_clear, mapped_memory. intros H.
  destruct (os_CreateFileMapping env) as [[m [|]]|]; try exact H. reflexivity.
Qed.

(** With realistic values the handshake always passes, and the last unit of
    the buffer stays null. *)
Lemma realistic_published env w :
  realistic env -> terminator_clear w ->
  exists mem, published env w = Some mem /\
              WCharArray.last_unit (Z.to_nat _IPC_MAXLEN) mem = 0%N.
Proof.
  intros Hreal Hclear.
  pose proof (realistic_payload_length env Hreal) as Hlen.
  pose proof (mapped_memory_terminator env w Hclear) as Hterm.
  unfold published, assigned, WCharArray.set_value, WCharArray.last_unit in *.
  rewrite codes_length.
  change (Z.to_nat _IPC_MAXLEN) with 64%nat in *.
  destruct (Nat.ltb_spec 64 (String.length (payload env))); [lia|].
  destruct (Nat.ltb_spec (String.length (payload env)) 64); [|lia].
  assert (Hlast : nth (64 - 1)
                    ((WCharArray.codes (payload env) ++ [0%N])
                       ++ skipn (List.length (WCharArray.codes (payload env) ++ [0%N]))
                            (mapped_memory env w)) 0%N = 0%N).
  { rewrite app_nth2 by (rewrite length_app, codes_length; cbn [List.length]; lia).
    rewrite nth_skipn.
    replace (_ + _)%nat with (64 - 1)%nat
      by (rewrite length_app, codes_length; cbn [List.length]; lia).
    exact Hterm. }
  rewrite Hlast. cbn. eexists. split; [reflexivity | exact Hlast].
Qed.

Lemma leave_keeps_shm env st :
  shm (world (final (leaveSecureDesktop env st))) = shm (world st).
Proof.
  destruct_state st. unfold_methods.
  destruct server, bridge, relay, follower as [f|], address, mapFile;
    cbn; try destruct (transport env f); cbn;
    destruct (os_ResetEvent env); reflexivity.
Qed.

Lemma leave_preserves env st :
  bundle_invariant st -> bundle_invariant (final (leaveSecureDesktop env st)).
Proof.
  intros [Hb Hw]. split.
  - destruct (sdServer (self st)) eqn:Hs.
    + right. apply leave_clears_bundle. congruence.
    + rewrite leave_without_server by exact Hs. exact Hb.
  - unfold terminator_clear. rewrite leave_keeps_shm. exact Hw.
Qed.

Lemma torn_down_preserves env st :
  bundle_invariant st -> bundle_invariant (final (torn_down env st)).
Proof.
  unfold torn_down. destruct (sdServer (self st)); [apply leave_preserves|].
  intros H; exact H.
Qed.

Lemma setter_preserves env session st :
  bundle_invariant st ->
  bundle_invariant (final (followerSession_setter env session st)).
Proof.
  intros Hinv.
  destruct (session_eqb (_followerSession (self st)) session) eqn:E.
  - apply session_eqb_eq in E.
    unfold followerSession_setter. cbv [bind get ret final].
    apply session_eqb_eq in E. rewrite E. exact Hinv.
  - destruct (setter_changed env session st E) as (_ & Hself & Hworld).
    destruct (torn_down_preserves env st Hinv) as [Hb Hw].
    split.
    + rewrite Hself. destruct (self (final (torn_down env st))). exact Hb.
    + unfold terminator_clear. rewrite Hworld. exact Hw.
Qed.

Lemma enter_preserves env st :
  realistic env -> bundle_invariant st ->
  bundle_invariant (final (enterSecureDesktop env st)).
Proof.
  intros Hreal [Hb Hw].
  destruct (realistic_published env (world st) Hreal Hw) as (mem' & Hpub & Hlast).
  enter_cases env st; unfold final; cbn [fst snd]; try (split; assumption).
  - split; [|unfold terminator_clear; cbn [world shm]; congruence].
    left. unfold bundle_live. cbn. repeat split; discriminate.
  - discriminate.
  - split; [exact Hb|]. unfold terminator_clear. cbn [world shm].
    apply mapped_memory_terminator, Hw.
Qed.

Lemma transition_preserves t env st :
  realistic_call (t, env) -> bundle_invariant st ->
  bundle_invariant (final (transition t env st)).
Proof.
  destruct t; cbn [transition realistic_call fst snd]; intros Hreal Hinv.
  - apply enter_preserves; assumption.
  - apply leave_preserves; assumption.
  - apply setter_preserves; assumption.
Qed.

Lemma run_preserves calls :
  forall st, Forall realistic_call calls -> bundle_invariant st ->
             bundle_invariant (run calls st).
Proof.
  induction calls as [|[t env] calls IH]; intros st Hreal Hinv; [exact Hinv|].
  cbn [run]. inversion Hreal as [|c cs Hc Hcs]; subst.
  apply IH; [exact Hcs|]. apply transition_preserves; assumption.
Qed.

(** C7. After the construction of a [SecureDesktopHandler], and after every
    call of a serial run of [enterSecureDesktop], [leaveSecureDesktop] and the
    setter of [followerSession], either [sdServer], [sdRelay], [sdBridge],
    [_mapFile] and [_bufferAddress] are all set or they are all [None].  The
    shared buffer is taken as a fresh mapping leaves it (last unit null), and
    each [enterSecureDesktop] gets what [uuid.uuid4] and [getsockname] return:
    a UUID string and a 16-bit port. *)
Theorem bundle_all_or_none env0 w0 h w ops0 calls :
  __init__ env0 w0 = (Returned h, w, ops0) ->
  terminator_clear w0 ->
  Forall realistic_call calls ->
  all_or_none h /\ all_or_none (self (run calls (mkSt h w))).
Proof.
  intros Hinit Hclear Hreal.
  assert (Hinv : bundle_invariant (mkSt h w)).
  { unfold __init__ in Hinit.
    destruct (os_CreateEvent env0) as [[handle existed]|]; [|discriminate].
    injection Hinit as <- <- _. split.
    - right. repeat split.
    - destruct existed; exact Hclear. }
  split; [exact (proj1 Hinv)|].
  apply run_preserves; assumption.
Qed.

Lemma bundle_all_or_none_witness :
  __init__ Sample.env Sample.unborn
    = (Returned (self Sample.idle), world Sample.idle,
       [CallCreateEvent false false _IPC_EVENTNAME; StateChangeRegister]) /\
  terminator_clear Sample.unborn /\
  Forall realistic_call Sample.calls /\
  all_or_none (self (run Sample.calls Sample.idle)).
Proof.
  assert (I : __init__ Sample.env Sample.unborn
              = (Returned (self Sample.idle), world Sample.idle,
                 [CallCreateEvent false false _IPC_EVENTNAME; StateChangeRegister]))
    by reflexivity.
  assert (T : terminator_clear Sample.unborn) by reflexivity.
  assert (R : Forall realistic_call Sample.calls).
  { repeat constructor; cbn; lia. }
  split; [exact I|]. split; [exact T|]. split; [exact R|].
  exact (proj2 (bundle_all_or_none Sample.env Sample.unborn _ _ _ Sample.calls I T R)).
Defined.

(** ** The IPC event *)

Lemma leave_event env st :
  ipcEvent (world (final (leaveSecureDesktop env st))) =
    match sdServer (self st) with
    | Some _ =>
        if os_ResetEvent env then Win32.set_signaled (ipcEvent (world st)) false
        else ipcEvent (world st)
    | None => ipcEvent (world st)
    end.
Proof.
  destruct_state st. unfold_methods.
  destruct server, bridge, relay, follower as [f|], address, mapFile;
    cbn; try destruct (transport env f); cbn;
    destruct (os_ResetEvent env); reflexivity.
Qed.

Lemma leave_resets env st :
  sdServer (self st) <> None ->
  In (CallResetEvent (_ipcEventHandle (self st))) (ops (leaveSecureDesktop env st)).
Proof.
  destruct_state st. intros Hs. unfold_methods.
  destruct server; [|congruence].
  destruct bridge, relay, follower as [f|], address, mapFile;
    cbn; try destruct (transport env f); cbn;
    destruct (os_ResetEvent env); cbn; tauto.
Qed.

Lemma enter_event env st :
  ipcEvent (world (final (enterSecureDesktop env st))) = ipcEvent (world st) \/
  ipcEvent (world (final (enterSecureDesktop env st)))
    = Win32.set_signaled (ipcEvent (world st)) true.
Proof.
  enter_cases env st; unfold final; cbn [fst snd world ipcEvent];
    try (left; reflexivity).
  destruct (os_SetEvent env); [right|left]; reflexivity.
Qed.

Lemma enter_never_resets env st handle :
  ~ In (CallResetEvent handle) (ops (enterSecureDesktop env st)).
Proof.
  enter_cases env st; unfold ops; cbn [snd fst]; intros H;
    try apply in_app_or in H; cbn in H;
    repeat (destruct H as [H|H]; try discriminate H); exact H.
Qed.

Lemma initialize_never_resets env st handle :
  ~ In (CallResetEvent handle) (ops (initializeSecureDesktop env st)).
Proof.
  destruct_state st. unfold_methods.
  destruct (os_OpenFileMapping env) as [m|]; cbn;
    [|intros H; repeat (destruct H as [H|H]; try discriminate H); exact H].
  destruct (os_MapViewOfFile env) as [a|]; cbn;
    [|intros H; repeat (destruct H as [H|H]; try discriminate H); exact H].
  destruct (Win32.wait (os_waitFault env) (ipcEvent w)) as [status e]. cbn.
  destruct (status =? Win32.WAIT_TIMEOUT)%Z;
    [intros H; repeat (destruct H as [H|H]; try discriminate H); exact H|].
  destruct (status =? Win32.WAIT_FAILED)%Z;
    [intros H; repeat (destruct H as [H|H]; try discriminate H); exact H|].
  destruct (status =? Win32.WAIT_OBJECT_0)%Z; cbn;
    [|intros H; repeat (destruct H as [H|H]; try discriminate H); exact H].
  destruct (json_loads env (WCharArray.wstring_at (shm w))) as [data|]; cbn;
    [|intros H; repeat (destruct H as [H|H]; try discriminate H); exact H].
  destruct (Py.unpack2 data) as [p c| |]; cbn;
    try (intros H; repeat (destruct H as [H|H]; try discriminate H); exact H).
  destruct (socket_ok env); cbn;
    [|intros H; repeat (destruct H as [H|H]; try discriminate H); exact H].
  destruct (os_localListeningSocketExists env p) as [[|]|]; cbn;
    intros H; repeat (destruct H as [H|H]; try discriminate H); exact H.
Qed.

(** What the wait of [initializeSecureDesktop] leaves of the event. *)
Lemma initialize_event env st m a :
  os_OpenFileMapping env = Some m -> os_MapViewOfFile env = Some a ->
  ipcEvent (world (final (initializeSecureDesktop env st)))
    = snd (Win32.wait (os_waitFault env) (ipcEvent (world st))).
Proof.
  destruct_state st. intros Hm Ha. unfold_methods. rewrite Hm, Ha. cbn.
  destruct (Win32.wait (os_waitFault env) (ipcEvent w)) as [status e]. cbn.
  destruct (status =? Win32.WAIT_TIMEOUT)%Z; [reflexivity|].
  destruct (status =? Win32.WAIT_FAILED)%Z; [reflexivity|].
  destruct (status =? Win32.WAIT_OBJECT_0)%Z; cbn; [|reflexivity].
  destruct (json_loads env (WCharArray.wstring_at (shm w))) as [data|]; cbn;
    [|reflexivity].
  destruct (Py.unpack2 data) as [p c| |]; cbn; try reflexivity.
  destruct (socket_ok env); cbn; [|reflexivity].
  destruct (os_localListeningSocketExists env p) as [[|]|]; reflexivity.
Qed.

Lemma transition_keeps_signal t env st :
  Win32.signaled (ipcEvent (world st)) = true ->
  (forall handle, ~ In (CallResetEvent handle) (ops (transition t env st))) ->
  Win32.signaled (ipcEvent (world (final (transition t env st)))) = true.
Proof.
  intros Hset Hnoreset. destruct t; cbn [transition] in *.
  - destruct (enter_event env st) as [-> | ->]; [exact Hset | reflexivity].
  - rewrite leave_event. destruct (sdServer (self st)) eqn:Hs; [|exact Hset].
    exfalso. apply (Hnoreset (_ipcEventHandle (self st))), leave_resets. congruence.
  - destruct (session_eqb (_followerSession (self st)) session) eqn:E.
    + apply session_eqb_eq in E. unfold followerSession_setter.
      cbv [bind get ret final]. apply session_eqb_eq in E. rewrite E. exact Hset.
    + destruct (setter_changed env session st E) as (Hops & _ & Hworld).
      rewrite Hworld. unfold torn_down in *.
      destruct (sdServer (self st)) eqn:Hs; [|exact Hset].
      exfalso. apply (Hnoreset (_ipcEventHandle (self st))).
      rewrite Hops. apply in_or_app. left. apply leave_resets. congruence.
Qed.

Lemma transition_keeps_reset_mode t env st :
  Win32.bManualReset (ipcEvent (world (final (transition t env st))))
    = Win32.bManualReset (ipcEvent (world st)).
Proof.
  destruct t; cbn [transition].
  - destruct (enter_event env st) as [-> | ->]; reflexivity.
  - rewrite leave_event.
    destruct (sdServer (self st)), (os_ResetEvent env); reflexivity.
  - destruct (session_eqb (_followerSession (self st)) session) eqn:E.
    + apply session_eqb_eq in E. unfold followerSession_setter.
      cbv [bind get ret final]. apply session_eqb_eq in E. rewrite E. reflexivity.
    + destruct (setter_changed env session st E) as (_ & _ & ->).
      unfold torn_down. destruct (sdServer (self st)) eqn:Hs; [|reflexivity].
      rewrite leave_event, Hs. destruct (os_ResetEvent env); reflexivity.
Qed.

(** C4, as the specification states it, fails.  A handler is constructed
    where no IPC event exists; a session is attached and
    [enterSecureDesktop] publishes a handshake, which signals the event.  The
    event is not a manual-reset event, and it does not stay set until it is
    reset explicitly: the satisfied wait of [initializeSecureDesktop] leaves it
    unset, and that method never calls [ResetEvent]. *)
Lemma ipc_event_is_not_manual_reset :
  __init__ Sample.env Sample.unborn
    = (Returned (self Sample.idle), world Sample.idle,
       [CallCreateEvent false false _IPC_EVENTNAME; StateChangeRegister]) /\
  Win32.bManualReset (ipcEvent (world Sample.idle)) = false /\
  Win32.signaled (ipcEvent (world Sample.active)) = true /\
  wait_status Sample.env Sample.active = Win32.WAIT_OBJECT_0 /\
  Win32.signaled
    (ipcEvent (world (final (initializeSecureDesktop Sample.env Sample.active))))
    = false /\
  (forall handle,
     ~ In (CallResetEvent handle)
          (ops (initializeSecureDesktop Sample.env Sample.active))).
Proof.
  repeat (split; [reflexivity|]).
  intros handle. apply initialize_never_resets.
Qed.

(** C4, amended.  The constructor calls
    [CreateEvent(None, False, False, _IPC_EVENTNAME)]: the event it creates is
    named, auto-reset ([bManualReset] is false) and initially unset, and no
    transition changes that mode.  Once signaled, the event stays set across
    every transition that does not call [ResetEvent].  The writer,
    [enterSecureDesktop], never calls [ResetEvent].  The consumer,
    [initializeSecureDesktop], never calls it either: it is the satisfied wait
    that leaves the event unset.  [leaveSecureDesktop] with a server calls
    [ResetEvent], which leaves the event unset when it succeeds. *)
Theorem ipc_event_is_auto_reset env0 w0 h w ops0 handle :
  __init__ env0 w0 = (Returned h, w, ops0) ->
  os_CreateEvent env0 = Some (handle, false) ->
  ops0 = [CallCreateEvent false false _IPC_EVENTNAME; StateChangeRegister] /\
  ipcEvent w = Win32.mkEvent false false _IPC_EVENTNAME /\
  (forall t env st,
     Win32.bManualReset (ipcEvent (world (final (transition t env st))))
       = Win32.bManualReset (ipcEvent (world st))) /\
  (forall t env st,
     Win32.signaled (ipcEvent (world st)) = true ->
     (forall x, ~ In (CallResetEvent x) (ops (transition t env st))) ->
     Win32.signaled (ipcEvent (world (final (transition t env st)))) = true) /\
  (forall env st x, ~ In (CallResetEvent x) (ops (enterSecureDesktop env st))) /\
  (forall env st x, ~ In (CallResetEvent x) (ops (initializeSecureDesktop env st))) /\
  (forall env st m a,
     os_OpenFileMapping env = Some m -> os_MapViewOfFile env = Some a ->
     os_waitFault env = None ->
     Win32.bManualReset (ipcEvent (world st)) = false ->
     Win32.signaled (ipcEvent (world st)) = true ->
     wait_status env st = Win32.WAIT_OBJECT_0 /\
     Win32.signaled (ipcEvent (world (final (initializeSecureDesktop env st))))
       = false) /\
  (forall env st,
     sdServer (self st) <> None ->
     In (CallResetEvent (_ipcEventHandle (self st)))
        (ops (leaveSecureDesktop env st)) /\
     (os_ResetEvent env = true ->
      Win32.signaled (ipcEvent (world (final (leaveSecureDesktop env st)))) = false)).
Proof.
  intros Hinit Hcreated. unfold __init__ in Hinit. rewrite Hcreated in Hinit.
  injection Hinit as <- <- <-.
  split; [reflexivity|]. split; [reflexivity|].
  split; [exact transition_keeps_reset_mode|].
  split; [exact transition_keeps_signal|].
  split; [exact enter_never_resets|].
  split; [exact initialize_never_resets|].
  split.
  - intros env st m a Hm Ha Hfault Hmode Hset.
    unfold wait_status. rewrite (initialize_event env st m a Hm Ha), Hfault.
    unfold Win32.wait, Win32.after_satisfied_wait. rewrite Hset, Hmode.
    split; reflexivity.
  - intros env st Hs. split; [apply leave_resets, Hs|].
    intros Hok. rewrite leave_event, Hok.
    destruct (sdServer (self st)); [reflexivity | congruence].
Qed.

Lemma ipc_event_is_auto_reset_witness :
  __init__ Sample.env Sample.unborn
    = (Returned (self Sample.idle), world Sample.idle,
       [CallCreateEvent false false _IPC_EVENTNAME; StateChangeRegister]) /\
  os_CreateEvent Sample.env = Some (7%Z, false) /\
  ipcEvent (world Sample.idle) = Win32.mkEvent false false _IPC_EVENTNAME /\
  Win32.signaled
    (ipcEvent (world (final (initializeSecureDesktop Sample.env Sample.active))))
    = false.
Proof.
  assert (I : __init__ Sample.env Sample.unborn
              = (Returned (self Sample.idle), world Sample.idle,
                 [CallCreateEvent false false _IPC_EVENTNAME; StateChangeRegister]))
    by reflexivity.
  assert (C : os_CreateEvent Sample.env = Some (7%Z, false)) by reflexivity.
  destruct (ipc_event_is_auto_reset Sample.env Sample.unborn _ _ _ 7%Z I C)
    as (_ & Hevent & _ & _ & _ & _ & Hwait & _).
  split; [exact I|]. split; [exact C|]. split; [exact Hevent|].
  exact (proj2 (Hwait Sample.env Sample.active 9%Z 4096%Z
                  eq_refl eq_refl eq_refl eq_refl eq_refl)).
Defined.

(** ** HandlerRegistrar *)

Section Registrar.

Import extensionPoints registrarFacts.

Lemma key_eqb_eq a b : key_eqb a b = true <-> a = b.
Proof.
destruct a, b; cbn; rewrite ?andb_true_iff, ?Nat.eqb_eq;
  split; try congruence; try (intros [-> ->]; reflexivity);
  intros [= -> ->]; split; reflexivity.
Qed.

Lemma key_eqb_refl k : key_eqb k k = true.
Proof. apply key_eqb_eq. reflexivity. Qed.

(** Assigning the same item again changes nothing: the key keeps its
    place, and there is still one item under it. *)
Lemma setitem_again d k v :
OrderedDict.setitem (OrderedDict.setitem d k v) k v = OrderedDict.setitem d k v.
Proof.
induction d as [|[k' v'] d IH]; cbn.
- rewrite key_eqb_refl. reflexivity.
- destruct (key_eqb k' k) eqn:E; cbn; rewrite E; [reflexivity | now rewrite IH].
Qed.

Lemma setitem_keys_present d k v :
OrderedDict.contains d k = true ->
OrderedDict.keys (OrderedDict.setitem d k v) = OrderedDict.keys d.
Proof.
unfold OrderedDict.keys.
induction d as [|[k' v'] d IH]; cbn; [discriminate|].
destruct (key_eqb k' k) eqn:E; cbn; [reflexivity|].
intros H. now rewrite IH.
Qed.

(** A second [register] of the same handler leaves the registrar as the
    first one left it. *)
Lemma register_again heap allow r h r1 :
register heap allow r h = Returned r1 ->
register heap allow r1 h = Returned r1.
Proof.
unfold register, has_deprecationMessage.
destruct (is_unbound_method h); [discriminate|].
destruct (_ && negb allow) eqn:E; [discriminate|].
intros [= <-]. cbn [_deprecationMessage _handlers]. rewrite E.
rewrite setitem_again. reflexivity.
Qed.

(** C10, at a failing input: a bound method of a live instance that is
    false (an empty container, say) is registered twice.  The registrar
    holds one item for it, but [handlers] takes the instance for dead and
    yields nothing. *)
Theorem register_twice_false_instance_never_yielded :
exists r1,
  register Sample.heap true (new None) Sample.method_of_empty = Returned r1 /\
  register Sample.heap true r1 Sample.method_of_empty = Returned r1 /\
  live Sample.heap Sample.method_of_empty = false /\
  alive Sample.heap 1 = true /\
  List.length (_handlers r1) = 1%nat /\
  handlers Sample.heap r1 = ([], None) /\
  times_yielded Sample.heap r1 Sample.method_of_empty = 0%nat.
Proof.
eexists. repeat (split; [reflexivity|]). reflexivity.
Qed.

(** *** Handlers that are alive and true

    For every other handler the second registration is harmless and the
    handler is yielded once. *)

Lemma contains_in d k : OrderedDict.contains d k = true <-> In k (OrderedDict.keys d).
Proof.
unfold OrderedDict.keys. induction d as [|[k' v'] d IH]; cbn; [split; [discriminate|tauto]|].
rewrite orb_true_iff, key_eqb_eq, IH. tauto.
Qed.

Lemma setitem_keys_absent d k v :
OrderedDict.contains d k = false ->
OrderedDict.keys (OrderedDict.setitem d k v) = OrderedDict.keys d ++ [k].
Proof.
unfold OrderedDict.keys. induction d as [|[k' v'] d IH]; cbn; [reflexivity|].
destruct (key_eqb k' k); cbn; [discriminate|]. intros H. now rewrite IH.
Qed.

Lemma setitem_in d k v : In (k, v) (OrderedDict.setitem d k v).
Proof.
induction d as [|[k' v'] d IH]; cbn; [left; reflexivity|].
destruct (key_eqb k' k) eqn:E; [|right; exact IH].
apply key_eqb_eq in E. subst. left. reflexivity.
Qed.

Lemma setitem_forall (P : HandlerKey * Weakref -> Prop) d k v :
Forall P d -> P (k, v) -> Forall P (OrderedDict.setitem d k v).
Proof.
intros Hd Hv. induction Hd as [|[k' v'] d Hx Hd IH]; cbn; [repeat constructor; exact Hv|].
destruct (key_eqb k' k) eqn:E; constructor; try assumption.
apply key_eqb_eq in E. subst. exact Hv.
Qed.

Lemma setitem_nodup d k v :
NoDup (OrderedDict.keys d) -> NoDup (OrderedDict.keys (OrderedDict.setitem d k v)).
Proof.
intros Hd. destruct (OrderedDict.contains d k) eqn:E.
- rewrite setitem_keys_present by exact E. exact Hd.
- rewrite setitem_keys_absent by exact E.
  apply NoDup_app; [exact Hd | repeat constructor; intros [] |].
  intros x Hx [<-|[]]. apply contains_in in Hx. congruence.
Qed.

(** The weak reference [register] makes for a handler. *)
Lemma register_result heap allow r h r1 :
register heap allow r h = Returned r1 ->
exists weak,
  handlerKey_of weak = _getHandlerKey heap h /\
  _handlers r1 = OrderedDict.setitem (_handlers r) (_getHandlerKey heap h) weak /\
  (live heap h = true ->
   item_ok heap (_getHandlerKey heap h, weak) /\
   exists y, deref heap weak = Returned (Some y) /\
             handler_truth heap y = true /\ handler_eqb h y = true).
Proof.
unfold register.
destruct (is_unbound_method h); [discriminate|].
destruct (_ && negb allow); [discriminate|].
intros [= <-]. cbn [_handlers].
  destruct h as [i ps|i inst func|i];
    [exists (AnnotatableWeakref (Function i ps) (_getHandlerKey heap (Function i ps)))
    |exists (BoundMethodWeakref inst func (_getHandlerKey heap (BoundMethod i inst func)))
    |exists (AnnotatableWeakref (CallableObject i) (_getHandlerKey heap (CallableObject i)))];
    (split; [reflexivity|]); (split; [reflexivity|]); cbn [live]; intros Hlive.
- split; [split; [reflexivity|split; [reflexivity|discriminate]]|].
  exists (Function i ps). cbn. rewrite Hlive, Nat.eqb_refl. repeat split.
- apply andb_prop in Hlive. destruct Hlive as [Hlive Hfunc].
  apply andb_prop in Hlive. destruct Hlive as [Hinst Htruth].
  split; [split; [reflexivity|]; cbn; rewrite Htruth; split; intros _; [reflexivity|exact Hfunc]|].
  exists (BoundMethod (bound_id heap func inst) inst func).
    cbn. rewrite Hinst, Htruth, Hfunc. cbn. rewrite !Nat.eqb_refl. repeat split.
- apply andb_prop in Hlive. destruct Hlive as [Hobj Htruth].
  split; [split; [reflexivity|split; [reflexivity|discriminate]]|].
  exists (CallableObject i). cbn. rewrite Hobj, Htruth, Nat.eqb_refl. repeat split.
Qed.

(** A handler yielded from a well-formed item and equal to the live handler
    [h] comes from the item under the key of [h]. *)
Lemma yielded_key heap h k w y :
live heap h = true -> item_ok heap (k, w) ->
deref heap w = Returned (Some y) -> handler_eqb h y = true ->
k = _getHandlerKey heap h.
Proof.
intros Hlive [_ Hitem] Hderef Heq. cbn [fst snd] in Hitem.
destruct w as [referent k'|inst func k']; cbn in Hderef.
- destruct Hitem as [-> Hnot].
  destruct (alive heap (id_of referent)); [|discriminate].
  injection Hderef as <-.
  destruct h as [i ps|i a b|i], referent as [j qs|j c d|j]; cbn in Heq;
    try discriminate; try (exfalso; eapply Hnot; reflexivity);
    apply Nat.eqb_eq in Heq; subst; reflexivity.
- destruct Hitem as [Hkey _].
  destruct (alive heap inst && truth heap inst) eqn:E; [|discriminate].
  cbn in Hderef. destruct (alive heap func); [|discriminate].
  injection Hderef as <-. apply andb_prop in E. destruct E as [_ Htruth].
  destruct h as [i ps|i a b|i]; cbn in Heq; try discriminate.
  apply andb_prop in Heq. destruct Heq as [Ha Hb].
  apply Nat.eqb_eq in Ha, Hb. subst a b.
  cbn. rewrite Htruth. apply Hkey, Htruth.
Qed.

(** A well-formed item never makes the iteration raise. *)
Lemma item_ok_deref heap k w :
item_ok heap (k, w) -> exists v, deref heap w = Returned v.
Proof.
intros [_ Hitem]. cbn [fst snd] in Hitem.
destruct w as [referent k'|inst func k']; cbn; [eexists; reflexivity|].
destruct Hitem as [_ Hfunc].
destruct (alive heap inst) eqn:Hinst; cbn; [|eexists; reflexivity].
destruct (truth heap inst); cbn; [|eexists; reflexivity].
rewrite (Hfunc eq_refl). eexists. reflexivity.
Qed.

Lemma iteration_completes heap d :
Forall (item_ok heap) d -> snd (yield_from heap (OrderedDict.values d)) = None.
Proof.
unfold OrderedDict.values.
induction 1 as [|[k w] d Hitem _ IH]; cbn [map snd yield_from]; [reflexivity|].
destruct (item_ok_deref heap k w Hitem) as [v ->].
destruct v as [y|]; [|exact IH].
destruct (negb (handler_truth heap y)); [exact IH|].
destruct (yield_from heap (map snd d)). exact IH.
Qed.

Lemma not_yielded_without_key heap h d :
live heap h = true -> Forall (item_ok heap) d ->
~ In (_getHandlerKey heap h) (OrderedDict.keys d) ->
filter (handler_eqb h) (fst (yield_from heap (OrderedDict.values d))) = [].
Proof.
unfold OrderedDict.values, OrderedDict.keys. intros Hlive.
induction 1 as [|[k w] d Hitem _ IH]; cbn [map fst snd yield_from]; [reflexivity|].
intros Hnot.
assert (Hrest : ~ In (_getHandlerKey heap h) (map fst d)) by (intros H; apply Hnot; right; exact H).
specialize (IH Hrest).
destruct (item_ok_deref heap k w Hitem) as [v Hv]. rewrite Hv.
destruct v as [y|]; [|exact IH].
destruct (negb (handler_truth heap y)); [exact IH|].
destruct (yield_from heap (map snd d)) as [more e]. cbn [fst filter] in *.
destruct (handler_eqb h y) eqn:Heq; [|exact IH].
exfalso. apply Hnot. left. exact (yielded_key heap h k w y Hlive Hitem Hv Heq).
Qed.

Lemma yielded_once_with_key heap h weak y d :
live heap h = true ->
deref heap weak = Returned (Some y) -> handler_truth heap y = true ->
handler_eqb h y = true ->
NoDup (OrderedDict.keys d) -> Forall (item_ok heap) d ->
In (_getHandlerKey heap h, weak) d ->
List.length (filter (handler_eqb h) (fst (yield_from heap (OrderedDict.values d)))) = 1%nat.
Proof.
intros Hlive Hderef Htruth Heq Hnodup Hitems.
induction Hitems as [|[k w] d Hitem Hitems IH]; intros Hin; [destruct Hin|].
unfold OrderedDict.keys in Hnodup. cbn [map fst] in Hnodup.
inversion Hnodup as [|x l Hfresh Hnodup']; subst.
unfold OrderedDict.values. cbn [map snd yield_from].
destruct Hin as [[= -> ->]|Hin].
- rewrite Hderef, Htruth. cbn [negb].
  pose proof (not_yielded_without_key heap h d Hlive Hitems Hfresh) as Hnone.
  unfold OrderedDict.values in Hnone.
  destruct (yield_from heap (map snd d)) as [more e]. cbn [fst filter] in *.
  rewrite Heq, Hnone. reflexivity.
- specialize (IH Hnodup' Hin). unfold OrderedDict.values in IH.
  destruct (item_ok_deref heap k w Hitem) as [v Hv]. rewrite Hv.
  destruct v as [y'|]; [|exact IH].
  destruct (negb (handler_truth heap y')); [exact IH|].
  destruct (yield_from heap (map snd d)) as [more e]. cbn [fst filter] in *.
  destruct (handler_eqb h y') eqn:Heq'; [|exact IH].
  exfalso. apply Hfresh.
  rewrite (yielded_key heap h k w y' Hlive Hitem Hv Heq').
  apply (in_map fst) in Hin. exact Hin.
Qed.

(** On a well-formed registrar, a handler that is alive and true is yielded
    exactly once after its registration, and a second registration changes
    neither the registrar nor, therefore, the place of the handler. *)
Lemma register_twice_live_yielded_once heap allow r h r1 :
well_formed heap r -> live heap h = true ->
register heap allow r h = Returned r1 ->
register heap allow r1 h = Returned r1 /\
well_formed heap r1 /\
times_yielded heap r1 h = 1%nat /\
snd (handlers heap r1) = None.
Proof.
intros [Hnodup Hitems] Hlive Hreg.
split; [exact (register_again heap allow r h r1 Hreg)|].
destruct (register_result heap allow r h r1 Hreg) as (weak & _ & Hd & Hweak).
destruct (Hweak Hlive) as (Hitem & y & Hderef & Htruth & Heq).
assert (Hwf : well_formed heap r1).
{ split; rewrite Hd; [apply setitem_nodup, Hnodup | apply setitem_forall; assumption]. }
split; [exact Hwf|]. destruct Hwf as [Hnodup1 Hitems1]. split.
- unfold times_yielded, handlers.
  apply (yielded_once_with_key heap h weak y); try assumption.
  rewrite Hd. apply setitem_in.
- apply iteration_completes, Hitems1.
Qed.

End Registrar.

(** * Further properties of SecureDesktopHandler *)

(** ** A secure desktop visit, from the notification to the teardown *)

(** X1. Entering and then leaving the secure desktop, both through
    [_onSecureDesktopChange], brings a handler that had no bundle back to the
    attributes it had, whatever the operating system answers in either call;
    and when the first call signaled the event, the second one closes the
    server, the relay transport and the bridge of that very call, unmaps its
    view and closes its mapping handle. *)
Theorem enter_then_leave_restores_handler env1 env2 st :
  bundle_none (self st) ->
  self (final (_onSecureDesktopChange env2 false
                 (final (_onSecureDesktopChange env1 true st)))) = self st /\
  (forall handle,
     In (CallSetEvent handle) (ops (_onSecureDesktopChange env1 true st)) ->
     exists m a,
       os_CreateFileMapping env1 = Some m /\ os_MapViewOfFile env1 = Some a /\
       let left := ops (_onSecureDesktopChange env2 false
                          (final (_onSecureDesktopChange env1 true st))) in
       In (BridgeDisconnect (new_BridgeTransport env1)) left /\
       In (ServerClose (new_LocalRelayServer env1)) left /\
       In (RelayClose (new_RelayTransport env1)) left /\
       In (CallUnmapViewOfFile a) left /\
       In (CallCloseHandle (fst m)) left).
Proof.
  intros Hnone. cbn [_onSecureDesktopChange].
  destruct st as [[mf ba ev fs sv rl br] w].
  destruct Hnone as (Hs & Hr & Hb & Hm & Ha). cbn in Hs, Hr, Hb, Hm, Ha. subst.
  set (st := mkSt (mkHandler None None ev fs None None None) w).
  enter_cases env1 st; unfold ops, final; cbn [fst snd];
    try (split; [reflexivity
                | intros handle H; exfalso; revert handle H; not_signaled]).
  (* what is left is the run that published the handshake *)
  - cbn in Hf. subst fs. split.
    + unfold_methods. cbn. destruct (transport env2 f); cbn;
        destruct (os_ResetEvent env2); reflexivity.
    + intros handle _. exists (m, existed), a.
      split; [reflexivity|]. split; [reflexivity|].
      unfold_methods. cbn. destruct (transport env2 f); cbn;
        destruct (os_ResetEvent env2); cbn; tauto.
Qed.

Lemma enter_then_leave_restores_handler_witness :
  bundle_none (self Sample.attached) /\
  self (final (_onSecureDesktopChange Sample.failing_env false
                 (final (_onSecureDesktopChange Sample.env true Sample.attached))))
    = self Sample.attached.
Proof.
  assert (N : bundle_none (self Sample.attached)) by (repeat split).
  split; [exact N|].
  exact (proj1 (enter_then_leave_restores_handler Sample.env Sample.failing_env
                  Sample.attached N)).
Defined.

(** ** The size of the handshake *)

Lemma ports_have_a_digit :
  forallb
    (fun hi =>
       forallb
         (fun lo =>
            (1 <=? String.length (Py.str_int (256 * Z.of_nat hi + Z.of_nat lo)))%nat)
         (seq 0 256))
    (seq 0 256) = true.
Proof. vm_compute. reflexivity. Qed.

Lemma port_has_a_digit p :
  (0 <= p < 65536)%Z -> (1 <= String.length (Py.str_int p))%nat.
Proof.
  intros Hp.
  assert (Hhi : (0 <= p / 256 < 256)%Z).
  { split; [apply Z.div_pos; lia | apply Z.div_lt_upper_bound; lia]. }
  pose proof (Z.mod_pos_bound p 256 eq_refl) as Hlo.
  pose proof ports_have_a_digit as H.
  rewrite forallb_forall in H. specialize (H _ (byte_in_seq _ Hhi)).
  rewrite forallb_forall in H. specialize (H _ (byte_in_seq _ Hlo)).
  apply Nat.leb_le in H.
  rewrite !Z2Nat.id in H by lia. rewrite <- Z.div_mod in H by lia. exact H.
Qed.

(** X2. With a UUID4 string as channel and a 16-bit port, the handshake
    [json.dumps([port, channel])] has between 43 and 47 characters: it always
    fits the 64 units of [_IPC_MAXLEN] with its terminating null, as the
    docstring of [_IPC_MAXLEN] reckons. *)
Theorem realistic_handshake_fits env :
  realistic env ->
  (43 <= String.length (payload env) <= 47)%nat /\
  (String.length (payload env) + 1 <= Z.to_nat _IPC_MAXLEN)%nat.
Proof.
  intros Hreal.
  assert (H : (43 <= String.length (payload env) <= 47)%nat).
  { destruct Hreal as [Hu Hp]. unfold uuid_shaped in Hu.
    apply andb_prop in Hu. destruct Hu as [Hlen Hchars].
    apply Nat.eqb_eq in Hlen.
    pose proof (port_digits _ Hp). pose proof (port_has_a_digit _ Hp).
    unfold payload, Py.json_dumps, Py.json_dumps_str.
    rewrite (uuid_escape _ Hchars), !string_length_app, Hlen.
    cbn [String.length Py.dquote]. lia. }
  split; [exact H|]. change (Z.to_nat _IPC_MAXLEN) with 64%nat. lia.
Qed.

Lemma realistic_handshake_fits_witness :
  realistic Sample.env /\ (String.length (payload Sample.env) <= 47)%nat.
Proof.
  assert (R : realistic Sample.env) by (split; [reflexivity | cbn; lia]).
  split; [exact R|].
  exact (proj2 (proj1 (realistic_handshake_fits Sample.env R))).
Defined.

Lemma nth_zeros i n : nth i (repeat 0%N n) 0%N = 0%N.
Proof. apply nth_repeat. Qed.

(** X3. In a mapping that [CreateFileMapping] has just created, the
    handshake is published -- [SetEvent] is called -- exactly when it is
    shorter than the 64 units of the buffer: 63 characters pass, 64 do
    not. *)
Theorem enter_fresh_mapping_publishes_iff_short env st f t m a :
  _followerSession (self st) = Some f -> transport env f = Some t ->
  os_CreateFileMapping env = Some (m, false) -> os_MapViewOfFile env = Some a ->
  (In (CallSetEvent (_ipcEventHandle (self st))) (ops (enterSecureDesktop env st)) <->
   (String.length (payload env) < Z.to_nat _IPC_MAXLEN)%nat).
Proof.
  intros Hf Ht Hm Ha. split.
  - intros H. apply enter_signal_needs_publication in H. destruct H as [mem H].
    apply published_fits in H. exact (proj1 H).
  - intros Hlen.
    assert (Hp : exists mem, published env (world st) = Some mem).
    { unfold published, assigned, mapped_memory, WCharArray.set_value,
        WCharArray.last_unit.
      rewrite Hm, codes_length.
      change (Z.to_nat _IPC_MAXLEN) with 64%nat in *.
      change (Z.to_nat (_IPC_MAXLEN * sizeof_WCHAR / sizeof_WCHAR)) with 64%nat.
      destruct (Nat.ltb_spec 64 (String.length (payload env))); [lia|].
      destruct (Nat.ltb_spec (String.length (payload env)) 64); [|lia].
      match goal with
      | |- exists mem, (if (nth ?i ?l 0 =? 0)%N then _ else _) = _ =>
          assert (Hz : nth i l 0%N = 0%N)
      end.
      { rewrite <- app_assoc.
        destruct (Nat.eq_dec (String.length (payload env)) 63) as [E|E].
        - rewrite app_nth2 by (rewrite codes_length; lia).
          rewrite codes_length, E. reflexivity.
        - rewrite app_nth2 by (rewrite codes_length; lia).
          rewrite codes_length.
          destruct (64 - 1 - String.length (payload env))%nat as [|k] eqn:K; [lia|].
          cbn [app nth]. rewrite nth_skipn. apply nth_zeros. }
      rewrite Hz. cbn. eexists. reflexivity. }
    destruct Hp as [mem Hp].
    rewrite (enter_published env st f t m false a mem Hf Ht Hm Ha Hp).
    unfold ops. cbn [snd]. apply in_or_app. right. left. reflexivity.
Qed.

Lemma enter_fresh_mapping_publishes_iff_short_witness :
  (String.length (payload Sample.oversized_env) = 64)%nat /\
  ~ In (CallSetEvent 7)
       (ops (enterSecureDesktop Sample.oversized_env Sample.attached)) /\
  In (CallSetEvent 7) (ops (enterSecureDesktop Sample.env Sample.attached)).
Proof.
  split; [reflexivity|]. split.
  - intros H.
    apply (proj1 (enter_fresh_mapping_publishes_iff_short Sample.oversized_env
                    Sample.attached 5 105 8%Z 4096%Z
                    eq_refl eq_refl eq_refl eq_refl)) in H.
    apply Nat.ltb_lt in H. vm_compute in H. discriminate H.
  - apply (proj2 (enter_fresh_mapping_publishes_iff_short Sample.env
                    Sample.attached 5 105 8%Z 4096%Z
                    eq_refl eq_refl eq_refl eq_refl)).
    apply Nat.ltb_lt. vm_compute. reflexivity.
Defined.

(** ** The test on the last unit of the buffer *)

(** X4. The test [buffer[-1] != "\x00"] looks at the last unit of the
    buffer, not at the unit after the handshake.  In a mapping that existed
    already and whose last unit is not null, a handshake that would fit with
    room to spare (62 characters or fewer) is refused all the same: the view
    and the mapping are released, the server is closed, the event is not
    signaled. *)
Theorem enter_stale_last_unit_aborts env st f t m a :
  _followerSession (self st) = Some f -> transport env f = Some t ->
  os_CreateFileMapping env = Some (m, true) -> os_MapViewOfFile env = Some a ->
  (String.length (payload env) + 1 < Z.to_nat _IPC_MAXLEN)%nat ->
  WCharArray.last_unit (Z.to_nat _IPC_MAXLEN) (shm (world st)) <> 0%N ->
  ops (enterSecureDesktop env st) =
    [CallCreateFileMapping (_IPC_MAXLEN * sizeof_WCHAR) _IPC_FILENAME;
     CallMapViewOfFile m (_IPC_MAXLEN * sizeof_WCHAR);
     NewLocalRelayServer (new_LocalRelayServer env) (uuid4 env);
     BufferSetValue a (payload env);
     CallUnmapViewOfFile a; CallCloseHandle m;
     ServerClose (new_LocalRelayServer env)] /\
  sdServer (self (final (enterSecureDesktop env st))) = None /\
  ipcEvent (world (final (enterSecureDesktop env st))) = ipcEvent (world st).
Proof.
  intros Hf Ht Hm Ha Hlen Hlast.
  assert (Hp : published env (world st) = None).
  { unfold published, assigned, mapped_memory, WCharArray.set_value,
      WCharArray.last_unit in *.
    rewrite Hm, codes_length.
    change (Z.to_nat _IPC_MAXLEN) with 64%nat in *.
    destruct (Nat.ltb_spec 64 (String.length (payload env))); [reflexivity|].
    destruct (Nat.ltb_spec (String.length (payload env)) 64); [|lia].
    match goal with
    | |- (if (nth ?i ?l 0 =? 0)%N then _ else _) = _ =>
        replace (nth i l 0%N) with (nth (64 - 1) (shm (world st)) 0%N)
    end.
    - destruct (N.eqb_spec (nth (64 - 1) (shm (world st)) 0%N) 0);
        [contradiction | reflexivity].
    - rewrite app_nth2 by (rewrite length_app, codes_length; cbn [List.length]; lia).
      rewrite nth_skipn. f_equal.
      rewrite length_app, codes_length. cbn [List.length]. lia. }
  rewrite (enter_abandoned env st f t m true a Hf Ht Hm Ha Hp).
  repeat split.
Qed.

Lemma enter_stale_last_unit_aborts_witness :
  WCharArray.last_unit (Z.to_nat _IPC_MAXLEN) (shm (world Sample.stale)) <> 0%N /\
  sdServer (self (final (enterSecureDesktop Sample.second_env Sample.stale))) = None.
Proof.
  assert (L : WCharArray.last_unit (Z.to_nat _IPC_MAXLEN) (shm (world Sample.stale))
              <> 0%N) by discriminate.
  split; [exact L|].
  assert (S : (String.length (payload Sample.second_env) + 1
               < Z.to_nat _IPC_MAXLEN)%nat).
  { apply Nat.ltb_lt. vm_compute. reflexivity. }
  exact (proj1 (proj2 (enter_stale_last_unit_aborts Sample.second_env Sample.stale
                         5 105 8%Z 4096%Z eq_refl eq_refl eq_refl eq_refl S L))).
Defined.

(** ** What enterSecureDesktop does not do *)

(** X5. [enterSecureDesktop] never disconnects a bridge and never closes a
    relay transport, and the only server it ever closes is the one it has
    just created.  Called while a bundle is active, it therefore replaces
    the server of that bundle without closing it. *)
Theorem enter_closes_nothing_older env st :
  (forall b, ~ In (BridgeDisconnect b) (ops (enterSecureDesktop env st))) /\
  (forall r, ~ In (RelayClose r) (ops (enterSecureDesktop env st))) /\
  (forall s, In (ServerClose s) (ops (enterSecureDesktop env st)) ->
             s = new_LocalRelayServer env) /\
  (forall old handle,
     sdServer (self st) = Some old -> old <> new_LocalRelayServer env ->
     In (CallSetEvent handle) (ops (enterSecureDesktop env st)) ->
     sdServer (self (final (enterSecureDesktop env st))) = Some (new_LocalRelayServer env) /\
     ~ In (ServerClose old) (ops (enterSecureDesktop env st))).
Proof.
  assert (Hserver : forall s, In (ServerClose s) (ops (enterSecureDesktop env st)) ->
                              s = new_LocalRelayServer env).
  { enter_cases env st; unfold ops; cbn [snd fst app]; intros s H; cbn in H;
      repeat (destruct H as [H|H];
              [first [discriminate H | injection H as <-; reflexivity]|]);
      destruct H. }
  split; [|split; [|split; [exact Hserver|]]].
  - enter_cases env st; unfold ops; cbn [snd fst]; intros b H;
      try apply in_app_or in H; cbn in H;
      repeat (destruct H as [H|H]; try discriminate H); exact H.
  - enter_cases env st; unfold ops; cbn [snd fst]; intros r H;
      try apply in_app_or in H; cbn in H;
      repeat (destruct H as [H|H]; try discriminate H); exact H.
  - intros old handle Hold Hneq Hset. split.
    + revert Hset. enter_cases env st; unfold ops, final; cbn [snd fst];
        try (intros H; exfalso; revert handle H; not_signaled).
      intros _. reflexivity.
    + intros H. apply Hneq, Hserver, H.
Qed.

Lemma enter_closes_nothing_older_witness :
  sdServer (self Sample.active) = Some 1 /\
  sdServer (self (final (enterSecureDesktop Sample.second_env Sample.active))) = Some 4 /\
  ~ In (ServerClose 1) (ops (enterSecureDesktop Sample.second_env Sample.active)).
Proof.
  split; [reflexivity|].
  assert (S : In (CallSetEvent 7)
                (ops (enterSecureDesktop Sample.second_env Sample.active))).
  { cbn. do 10 right. left. reflexivity. }
  assert (D : 1 <> new_LocalRelayServer Sample.second_env) by discriminate.
  exact (proj2 (proj2 (proj2 (enter_closes_nothing_older Sample.second_env
                                Sample.active))) 1 7%Z eq_refl D S).
Defined.

(** ** The reader's side *)

(** X6. [initializeSecureDesktop] reads only: whatever happens, the
    attributes of the handler and the contents of the shared buffer are after
    the call what they were before it. *)
Theorem initialize_reads_only env st :
  self (final (initializeSecureDesktop env st)) = self st /\
  shm (world (final (initializeSecureDesktop env st))) = shm (world st).
Proof.
  destruct_state st. unfold_methods.
  destruct (os_OpenFileMapping env) as [m|]; cbn; [|split; reflexivity].
  destruct (os_MapViewOfFile env) as [a|]; cbn; [|split; reflexivity].
  destruct (Win32.wait (os_waitFault env) (ipcEvent w)) as [status e]. cbn.
  destruct (status =? Win32.WAIT_TIMEOUT)%Z; [split; reflexivity|].
  destruct (status =? Win32.WAIT_FAILED)%Z; [split; reflexivity|].
  destruct (status =? Win32.WAIT_OBJECT_0)%Z; cbn; [|split; reflexivity].
  destruct (json_loads env (WCharArray.wstring_at (shm w))) as [data|]; cbn;
    [|split; reflexivity].
  destruct (Py.unpack2 data) as [p c| |]; cbn; try (split; reflexivity).
  destruct (socket_ok env); cbn; [|split; reflexivity].
  destruct (os_localListeningSocketExists env p) as [[|]|]; split; reflexivity.
Qed.

(** X7. The handshake end to end.  A writer's [enterSecureDesktop] has
    signaled the event ([SetEvent] succeeded).  A reader, in another process
    and on the shared objects as the writer left them, opens and maps the
    buffer, is not disturbed in its wait, has a [json.loads] that decodes the
    text of the handshake to the pair it encodes, may create sockets and finds
    the listening socket.  Then [initializeSecureDesktop] returns the
    connection to [127.0.0.1] as follower, insecure, with the port and the
    channel of the writer, and ends by unmapping the view and closing the
    handle. *)
Theorem handshake_reaches_reader env st handle renv rself m a :
  In (CallSetEvent handle) (ops (enterSecureDesktop env st)) ->
  os_SetEvent env = true ->
  os_OpenFileMapping renv = Some m -> os_MapViewOfFile renv = Some a ->
  os_waitFault renv = None ->
  json_loads renv (WCharArray.codes (payload env))
    = Some (Py.VList [Py.VInt (getsockname_port env); Py.VStr (uuid4 env)]) ->
  socket_ok renv = true ->
  os_localListeningSocketExists renv (Py.VInt (getsockname_port env)) = Some true ->
  let reader := mkSt rself (world (final (enterSecureDesktop env st))) in
  outcome (initializeSecureDesktop renv reader) =
    Returned (Some (mkConnectionInfo "127.0.0.1" FOLLOWER (Py.VStr (uuid4 env))
                      (Py.VInt (getsockname_port env)) true)) /\
  exists before,
    ops (initializeSecureDesktop renv reader) =
      before ++ [CallUnmapViewOfFile a; CallCloseHandle m].
Proof.
  intros Hset Hok Hm Ha Hfault Hloads Hsock Hlisten reader. subst reader.
  revert Hset. enter_cases env st; unfold ops, final; cbn [snd fst];
    try (intros H; exfalso; revert handle H; not_signaled).
  intros _. rewrite Hok.
  destruct (published_fits env (world st) mem Hp) as [_ Hmem].
  assert (Hread : WCharArray.wstring_at mem = WCharArray.codes (payload env)).
  { rewrite Hmem. apply wstring_at_terminated, payload_nonzero. }
  destruct rself as [mf ba ev fs sv rl br].
  unfold_methods. rewrite Hm, Ha. cbn. rewrite Hfault. cbn.
  rewrite Hread, Hloads. cbn. rewrite Hsock. cbn. rewrite Hlisten. cbn.
  split; [reflexivity|].
  eexists [_; _; _; _; _; _]. reflexivity.
Qed.

Lemma handshake_reaches_reader_witness :
  In (CallSetEvent 7) (ops (enterSecureDesktop Sample.env Sample.attached)) /\
  outcome (initializeSecureDesktop Sample.env
             (mkSt (self Sample.idle)
                (world (final (enterSecureDesktop Sample.env Sample.attached))))) =
    Returned (Some (mkConnectionInfo "127.0.0.1" FOLLOWER
                      (Py.VStr (uuid4 Sample.env))
                      (Py.VInt (getsockname_port Sample.env)) true)).
Proof.
  assert (S : In (CallSetEvent 7)
                (ops (enterSecureDesktop Sample.env Sample.attached))).
  { cbn. do 10 right. left. reflexivity. }
  split; [exact S|].
  exact (proj1 (handshake_reaches_reader Sample.env Sample.attached 7%Z Sample.env
                  (self Sample.idle) 9%Z 4096%Z S eq_refl eq_refl eq_refl eq_refl
                  eq_refl eq_refl eq_refl)).
Defined.

(** X8. One reader per handshake.  The event is auto-reset; once a reader's
    wait has been satisfied, a second [initializeSecureDesktop] -- with no new
    signal and an undisturbed wait -- times out and returns [None]. *)
Theorem second_reader_times_out env1 env2 st rself m1 a1 m2 a2 :
  Win32.bManualReset (ipcEvent (world st)) = false ->
  Win32.signaled (ipcEvent (world st)) = true ->
  os_OpenFileMapping env1 = Some m1 -> os_MapViewOfFile env1 = Some a1 ->
  os_waitFault env1 = None ->
  os_OpenFileMapping env2 = Some m2 -> os_MapViewOfFile env2 = Some a2 ->
  os_waitFault env2 = None ->
  let second := mkSt rself (world (final (initializeSecureDesktop env1 st))) in
  wait_status env1 st = Win32.WAIT_OBJECT_0 /\
  wait_status env2 second = Win32.WAIT_TIMEOUT /\
  outcome (initializeSecureDesktop env2 second) = Returned None.
Proof.
  intros Hmode Hset Hm1 Ha1 Hf1 Hm2 Ha2 Hf2 second.
  assert (Hevent : ipcEvent (world second)
                   = Win32.set_signaled (ipcEvent (world st)) false).
  { subst second. cbn [world].
    rewrite (initialize_event env1 st m1 a1 Hm1 Ha1), Hf1.
    unfold Win32.wait, Win32.after_satisfied_wait. rewrite Hset, Hmode. reflexivity. }
  assert (Hfirst : wait_status env1 st = Win32.WAIT_OBJECT_0).
  { unfold wait_status, Win32.wait. rewrite Hf1, Hset. reflexivity. }
  assert (Hsecond : wait_status env2 second = Win32.WAIT_TIMEOUT).
  { unfold wait_status, Win32.wait. rewrite Hf2, Hevent. reflexivity. }
  split; [exact Hfirst|]. split; [exact Hsecond|].
  apply (initialize_unsatisfied_wait env2 second m2 a2 Hm2 Ha2).
  rewrite Hsecond. discriminate.
Qed.

Lemma second_reader_times_out_witness :
  Win32.signaled (ipcEvent (world Sample.active)) = true /\
  outcome (initializeSecureDesktop Sample.env
             (mkSt (self Sample.idle)
                (world (final (initializeSecureDesktop Sample.env Sample.active)))))
    = Returned None.
Proof.
  split; [reflexivity|].
  exact (proj2 (proj2 (second_reader_times_out Sample.env Sample.env Sample.active
                         (self Sample.idle) 9%Z 4096%Z 9%Z 4096%Z
                         eq_refl eq_refl eq_refl eq_refl eq_refl
                         eq_refl eq_refl eq_refl))).
Defined.

(** ** The setter, when the new session has no transport *)

(** X9. Assigning a session whose [transport] is [None] raises
    [AttributeError], but late: by then the bundle has been torn down, the
    hook removed from the old session's transport, and the new session
    stored.  No hook is installed. *)
Theorem setter_without_transport_raises_late env g st :
  _followerSession (self st) <> Some g -> transport env g = None ->
  outcome (followerSession_setter env (Some g) st) = Raised AttributeError /\
  _followerSession (self (final (followerSession_setter env (Some g) st))) = Some g /\
  ops (followerSession_setter env (Some g) st) =
    ops (torn_down env st) ++ unsubscribed env (_followerSession (self st)) /\
  (sdServer (self st) <> None ->
   bundle_none (self (final (followerSession_setter env (Some g) st)))).
Proof.
  intros Hneq Hg.
  assert (Hb : session_eqb (_followerSession (self st)) (Some g) = false).
  { destruct (session_eqb _ _) eqn:E; [|reflexivity].
    apply session_eqb_eq in E. contradiction. }
  destruct (setter_changed env (Some g) st Hb) as (Hops & Hself & _).
  split; [|split; [|split]].
  - unfold followerSession_setter, outcome.
    cbv [bind get ret update call raise]. rewrite Hb.
    pose proof (leave_returns env st) as Hret. unfold outcome in Hret.
    pose proof (leave_keeps_session env st) as Hkeep. unfold final in Hkeep.
    destruct (sdServer (self st)).
    + destruct (leaveSecureDesktop env st) as [[out st1] ops1].
      cbn in Hret, Hkeep. subst out. cbn. rewrite Hkeep.
      destruct (_followerSession (self st)) as [f|]; [destruct (transport env f)|];
        cbn; rewrite Hg; reflexivity.
    + cbn.
      destruct (_followerSession (self st)) as [f|]; [destruct (transport env f)|];
        cbn; rewrite Hg; reflexivity.
  - rewrite Hself. reflexivity.
  - rewrite Hops. unfold subscribed. rewrite Hg, app_nil_r. reflexivity.
  - intros Hs. rewrite Hself.
    assert (Hnone : bundle_none (self (final (torn_down env st)))).
    { unfold torn_down. destruct (sdServer (self st)) eqn:E; [|congruence].
      apply leave_clears_bundle. congruence. }
    exact Hnone.
Qed.

Lemma setter_without_transport_raises_late_witness :
  _followerSession (self Sample.active) <> Some 6 /\
  transport Sample.lone_env 6 = None /\
  outcome (followerSession_setter Sample.lone_env (Some 6) Sample.active)
    = Raised AttributeError /\
  _followerSession
    (self (final (followerSession_setter Sample.lone_env (Some 6) Sample.active)))
    = Some 6.
Proof.
  assert (D : _followerSession (self Sample.active) <> Some 6) by discriminate.
  split; [exact D|]. split; [reflexivity|].
  destruct (setter_without_transport_raises_late Sample.lone_env 6 Sample.active
              D eq_refl) as (Hout & Hsession & _).
  split; [exact Hout | exact Hsession].
Defined.

(** ** Display changes *)

(** X10. [_onLeaderDisplayChange] after a publishing [enterSecureDesktop]
    sends one [SET_DISPLAY_SIZE] message, over the relay transport of that
    call, with the leader display sizes of the follower session; after a
    [leaveSecureDesktop] on a handler whose bundle was whole or absent, it
    sends nothing. *)
Theorem display_change_follows_bundle sizes env st :
  (forall handle f,
     In (CallSetEvent handle) (ops (enterSecureDesktop env st)) ->
     _followerSession (self st) = Some f ->
     _onLeaderDisplayChange sizes (self (final (enterSecureDesktop env st)))
       = [RelaySend (new_RelayTransport env) SET_DISPLAY_SIZE (sizes f)]) /\
  (all_or_none (self st) ->
   _onLeaderDisplayChange sizes (self (final (leaveSecureDesktop env st))) = []).
Proof.
  split.
  - intros handle f' Hset Hf'. revert Hset.
    enter_cases env st; unfold ops, final; cbn [snd fst];
      try (intros H; exfalso; revert handle H; not_signaled).
    intros _. injection Hf' as <-. reflexivity.
  - intros Hall.
    assert (Hnone : bundle_none (self (final (leaveSecureDesktop env st)))).
    { destruct (sdServer (self st)) eqn:Hs.
      - apply leave_clears_bundle. congruence.
      - rewrite leave_without_server by exact Hs.
        destruct Hall as [(H & _)|H]; [contradiction | exact H]. }
    destruct Hnone as (_ & Hr & _).
    unfold _onLeaderDisplayChange. rewrite Hr. reflexivity.
Qed.

Lemma display_change_follows_bundle_witness :
  all_or_none (self Sample.active) /\
  _onLeaderDisplayChange (fun _ => [40%Z])
    (self (final (leaveSecureDesktop Sample.env Sample.active))) = [] /\
  _onLeaderDisplayChange (fun _ => [40%Z])
    (self (final (enterSecureDesktop Sample.env Sample.attached)))
    = [RelaySend 2 SET_DISPLAY_SIZE [40%Z]].
Proof.
  assert (A : all_or_none (self Sample.active)).
  { left. repeat split; discriminate. }
  assert (S : In (CallSetEvent 7)
                (ops (enterSecureDesktop Sample.env Sample.attached))).
  { cbn. do 10 right. left. reflexivity. }
  split; [exact A|]. split.
  - exact (proj2 (display_change_follows_bundle (fun _ => [40%Z]) Sample.env
                    Sample.active) A).
  - exact (proj1 (display_change_follows_bundle (fun _ => [40%Z]) Sample.env
                    Sample.attached) 7%Z 5 S eq_refl).
Defined.

(** ** terminate *)

(** X11. [terminate] first unregisters from the state-change notification
    and returns; and in whatever state the handler is -- bundle active, none,
    or half built -- a view that is mapped is unmapped by exactly one call, a
    mapping handle that is held is closed by exactly one call, and so is the
    handle of the event (the handles being distinct). *)
Theorem terminate_releases_once env st :
  fst (fst (terminate env st)) = Returned tt /\
  hd_error (snd (terminate env st)) = Some StateChangeUnregister /\
  (forall a, _bufferAddress (self st) = Some a ->
             times (unmaps a) (snd (terminate env st)) = 1%nat) /\
  (_bufferAddress (self st) = None ->
   forall a, times (unmaps a) (snd (terminate env st)) = 0%nat) /\
  (forall m, _mapFile (self st) = Some m -> m <> _ipcEventHandle (self st) ->
             times (closes m) (snd (terminate env st)) = 1%nat /\
             times (closes (_ipcEventHandle (self st))) (snd (terminate env st))
               = 1%nat) /\
  (_mapFile (self st) = None ->
   times (closes (_ipcEventHandle (self st))) (snd (terminate env st)) = 1%nat).
Proof.
  destruct_state st. unfold terminate, terminate_body, times.
  split; [|split; [reflexivity|]].
  - unfold_methods.
    destruct server, bridge, relay, follower as [f|], address, mapFile;
      cbn; try destruct (transport env f); cbn;
      destruct (os_ResetEvent env); reflexivity.
  - repeat split.
    + intros a ->. unfold_methods.
      destruct server, bridge, relay, follower as [f|], mapFile;
        cbn; try destruct (transport env f); cbn;
        destruct (os_ResetEvent env); cbn; rewrite Z.eqb_refl; reflexivity.
    + intros -> a. unfold_methods.
      destruct server, bridge, relay, follower as [f|], mapFile;
        cbn; try destruct (transport env f); cbn;
        destruct (os_ResetEvent env); reflexivity.
    + revert H0. revert H. intros -> Hneq. unfold_methods.
      apply Z.eqb_neq in Hneq. rewrite Z.eqb_sym in Hneq.
      destruct server, bridge, relay, follower as [f|], address;
        cbn; try destruct (transport env f); cbn;
        destruct (os_ResetEvent env); cbn; rewrite Z.eqb_refl, Hneq; reflexivity.
    + revert H0. revert H. intros -> Hneq. unfold_methods.
      apply Z.eqb_neq in Hneq.
      destruct server, bridge, relay, follower as [f|], address;
        cbn; try destruct (transport env f); cbn;
        destruct (os_ResetEvent env); cbn; rewrite Z.eqb_refl, Hneq; reflexivity.
    + intros ->. unfold_methods.
      destruct server, bridge, relay, follower as [f|], address;
        cbn; try destruct (transport env f); cbn;
        destruct (os_ResetEvent env); cbn; rewrite Z.eqb_refl; reflexivity.
Qed.

Lemma terminate_releases_once_witness :
  _bufferAddress (self Sample.active) = Some 4096%Z /\
  _mapFile (self Sample.active) = Some 8%Z /\
  times (unmaps 4096) (snd (terminate Sample.failing_env Sample.active)) = 1%nat /\
  times (closes 8) (snd (terminate Sample.failing_env Sample.active)) = 1%nat /\
  times (closes 7) (snd (terminate Sample.failing_env Sample.active)) = 1%nat.
Proof.
  split; [reflexivity|]. split; [reflexivity|].
  destruct (terminate_releases_once Sample.failing_env Sample.active)
    as (_ & _ & Hunmap & _ & Hclose & _).
  assert (D : 8%Z <> _ipcEventHandle (self Sample.active)) by discriminate.
  split; [exact (Hunmap 4096%Z eq_refl)|].
  exact (Hclose 8%Z eq_refl D).
Defined.

(** * Further properties of HandlerRegistrar *)

Section RegistrarMore.

Import extensionPoints registrarFacts registrarInputs.

(** ** The ordered dictionary *)

Lemma setitem_absent d k v :
  ~ In k (OrderedDict.keys d) -> OrderedDict.setitem d k v = d ++ [(k, v)].
Proof.
  unfold OrderedDict.keys. induction d as [|[k' v'] d IH]; cbn; [reflexivity|].
  intros Hnot. destruct (key_eqb k' k) eqn:E.
  - apply key_eqb_eq in E. tauto.
  - rewrite IH by tauto. reflexivity.
Qed.

Lemma remove_absent d k :
  ~ In k (OrderedDict.keys d) -> OrderedDict.remove d k = d.
Proof.
  unfold OrderedDict.keys. induction d as [|[k' v'] d IH]; cbn; [reflexivity|].
  intros Hnot. destruct (key_eqb k' k) eqn:E.
  - apply key_eqb_eq in E. tauto.
  - rewrite IH by tauto. reflexivity.
Qed.

Lemma remove_middle d1 d2 k v :
  ~ In k (OrderedDict.keys d1) ->
  OrderedDict.remove (d1 ++ (k, v) :: d2) k = d1 ++ d2.
Proof.
  unfold OrderedDict.keys. induction d1 as [|[k' v'] d1 IH]; cbn.
  - rewrite key_eqb_refl. reflexivity.
  - intros Hnot. destruct (key_eqb k' k) eqn:E.
    + apply key_eqb_eq in E. tauto.
    + rewrite IH by tauto. reflexivity.
Qed.

Lemma getitem_middle d1 d2 k v :
  ~ In k (OrderedDict.keys d1) ->
  OrderedDict.getitem (d1 ++ (k, v) :: d2) k = Some v.
Proof.
  unfold OrderedDict.keys. induction d1 as [|[k' v'] d1 IH]; cbn.
  - rewrite key_eqb_refl. reflexivity.
  - intros Hnot. destruct (key_eqb k' k) eqn:E.
    + apply key_eqb_eq in E. tauto.
    + apply IH. tauto.
Qed.

Lemma contains_middle d1 d2 k v :
  OrderedDict.contains (d1 ++ (k, v) :: d2) k = true.
Proof.
  apply contains_in. unfold OrderedDict.keys. rewrite map_app.
  apply in_or_app. right. left. reflexivity.
Qed.

Lemma getitem_absent d k :
  ~ In k (OrderedDict.keys d) -> OrderedDict.getitem d k = None.
Proof.
  unfold OrderedDict.keys. induction d as [|[k' v'] d IH]; cbn; [reflexivity|].
  intros Hnot. destruct (key_eqb k' k) eqn:E.
  - apply key_eqb_eq in E. tauto.
  - apply IH. tauto.
Qed.

Lemma contains_split d k :
  OrderedDict.contains d k = true ->
  exists d1 v d2, d = d1 ++ (k, v) :: d2 /\ ~ In k (OrderedDict.keys d1).
Proof.
  unfold OrderedDict.keys. induction d as [|[k' v'] d IH]; cbn; [discriminate|].
  destruct (key_eqb k' k) eqn:E; cbn.
  - intros _. apply key_eqb_eq in E. subst. exists [], v', d. split; [reflexivity|tauto].
  - intros H. destruct (IH H) as (d1 & v & d2 & -> & Hnot).
    exists ((k', v') :: d1), v, d2. split; [reflexivity|].
    cbn. intros [->|Hin]; [rewrite key_eqb_refl in E; discriminate | tauto].
Qed.

Lemma not_contains d k :
  OrderedDict.contains d k = false <-> ~ In k (OrderedDict.keys d).
Proof.
  rewrite <- contains_in. destruct (OrderedDict.contains d k); split; congruence.
Qed.

(** ** The iteration *)

Lemma yield_app heap d l :
  Forall (item_ok heap) d ->
  yield_from heap (OrderedDict.values d ++ l) =
    (fst (yield_from heap (OrderedDict.values d)) ++ fst (yield_from heap l),
     snd (yield_from heap l)).
Proof.
  unfold OrderedDict.values.
  induction 1 as [|[k w] d Hitem _ IH]; cbn [map snd app yield_from fst].
  - destruct (yield_from heap l). reflexivity.
  - destruct (item_ok_deref heap k w Hitem) as [v ->].
    destruct v as [y|]; [|exact IH].
    destruct (negb (handler_truth heap y)); [exact IH|].
    rewrite IH. destruct (yield_from heap (map snd d)). reflexivity.
Qed.

Lemma handlers_app heap msg d1 d2 :
  Forall (item_ok heap) d1 ->
  fst (handlers heap (mkRegistrar msg (d1 ++ d2))) =
    fst (handlers heap (mkRegistrar msg d1)) ++ fst (handlers heap (mkRegistrar msg d2)).
Proof.
  intros H. unfold handlers. cbn [_handlers].
  unfold OrderedDict.values at 1. rewrite map_app.
  change (map snd d1) with (OrderedDict.values d1).
  rewrite (yield_app heap d1 _ H). reflexivity.
Qed.

Lemma live_eqb heap h y : handler_eqb h y = true -> live heap h = live heap y.
Proof.
  destruct h as [i ps|i a b|i], y as [j qs|j c d|j]; cbn; try discriminate.
  - intros H. apply Nat.eqb_eq in H. now subst.
  - intros H. apply andb_prop in H. destruct H as [H1 H2].
    apply Nat.eqb_eq in H1, H2. now subst.
  - intros H. apply Nat.eqb_eq in H. now subst.
Qed.

Lemma yielded_live heap k w y :
  item_ok heap (k, w) -> deref heap w = Returned (Some y) ->
  handler_truth heap y = true -> live heap y = true.
Proof.
  intros [_ Hitem] Hderef Htruth. cbn [fst snd] in Hitem.
  destruct w as [referent k'|inst func k']; cbn in Hderef.
  - destruct Hitem as [_ Hnot].
    destruct (alive heap (id_of referent)) eqn:Halive; [|discriminate].
    injection Hderef as <-.
    destruct referent as [j qs|j c d|j]; cbn in *;
      [exact Halive | exfalso; eapply Hnot; reflexivity | now rewrite Halive, Htruth].
  - destruct (alive heap inst && truth heap inst) eqn:E; [|discriminate].
    cbn in Hderef. destruct (alive heap func) eqn:Hfunc; [|discriminate].
    injection Hderef as <-. cbn. now rewrite E, Hfunc.
Qed.

Lemma dead_not_yielded heap h d :
  live heap h = false -> Forall (item_ok heap) d ->
  filter (handler_eqb h) (fst (yield_from heap (OrderedDict.values d))) = [].
Proof.
  unfold OrderedDict.values. intros Hdead.
  induction 1 as [|[k w] d Hitem _ IH]; cbn [map snd yield_from]; [reflexivity|].
  destruct (item_ok_deref heap k w Hitem) as [v Hv]. rewrite Hv.
  destruct v as [y|]; [|exact IH].
  destruct (handler_truth heap y) eqn:Htruth; cbn [negb]; [|exact IH].
  destruct (yield_from heap (map snd d)) as [more e]. cbn [fst filter] in *.
  destruct (handler_eqb h y) eqn:Heq; [|exact IH].
  rewrite (live_eqb heap h y Heq), (yielded_live heap k w y Hitem Hv Htruth) in Hdead.
  discriminate.
Qed.

Lemma absent_not_yielded heap h d :
  Forall (item_ok heap) d ->
  ~ In (_getHandlerKey heap h) (OrderedDict.keys d) ->
  filter (handler_eqb h) (fst (yield_from heap (OrderedDict.values d))) = [].
Proof.
  intros Hitems Hnot. destruct (live heap h) eqn:Hlive.
  - apply not_yielded_without_key; assumption.
  - apply dead_not_yielded; assumption.
Qed.

Lemma yielded_at_most_once heap h d :
  NoDup (OrderedDict.keys d) -> Forall (item_ok heap) d ->
  (List.length (filter (handler_eqb h) (fst (yield_from heap (OrderedDict.values d))))
   <= 1)%nat.
Proof.
  intros Hnodup Hitems. revert Hnodup.
  induction Hitems as [|[k w] d Hitem Hitems IH]; intros Hnodup; [cbn; lia|].
  unfold OrderedDict.keys in Hnodup. cbn [map fst] in Hnodup.
  inversion Hnodup as [|x l Hfresh Hnodup']; subst.
  specialize (IH Hnodup').
  unfold OrderedDict.values in *. cbn [map snd yield_from].
  destruct (item_ok_deref heap k w Hitem) as [v Hv]. rewrite Hv.
  destruct v as [y|]; [|exact IH].
  destruct (handler_truth heap y) eqn:Htruth; cbn [negb]; [|exact IH].
  pose proof (absent_not_yielded heap h d Hitems) as Habsent.
  unfold OrderedDict.values in Habsent.
  destruct (yield_from heap (map snd d)) as [more e]. cbn [fst filter] in *.
  destruct (handler_eqb h y) eqn:Heq; [|exact IH].
  assert (Hlive : live heap h = true).
  { rewrite (live_eqb heap h y Heq). exact (yielded_live heap k w y Hitem Hv Htruth). }
  rewrite Habsent; [cbn; lia|].
  rewrite <- (yielded_key heap h k w y Hlive Hitem Hv Heq). exact Hfresh.
Qed.

(** X12. What [handlers] yields from a well-formed registrar: the iteration
    runs to its end without raising, every handler yielded is alive (and
    true), and no handler is yielded twice. *)
Theorem handlers_yields_live_handlers_once heap r :
  well_formed heap r ->
  snd (handlers heap r) = None /\
  Forall (fun y => live heap y = true) (fst (handlers heap r)) /\
  (forall h, (times_yielded heap r h <= 1)%nat).
Proof.
  intros [Hnodup Hitems].
  split; [apply iteration_completes, Hitems|]. split.
  - unfold handlers, OrderedDict.values. clear Hnodup.
    induction Hitems as [|[k w] d Hitem Hitems IH]; cbn [map snd yield_from];
      [constructor|].
    destruct (item_ok_deref heap k w Hitem) as [v Hv]. rewrite Hv.
    destruct v as [y|]; [|exact IH].
    destruct (handler_truth heap y) eqn:Htruth; cbn [negb]; [|exact IH].
    destruct (yield_from heap (map snd d)) as [more e]. cbn [fst] in *.
    constructor; [exact (yielded_live heap k w y Hitem Hv Htruth) | exact IH].
  - intros h. apply yielded_at_most_once; assumption.
Qed.

Lemma handlers_yields_live_handlers_once_witness :
  well_formed Sample.heap Sample.registrar /\
  (times_yielded Sample.heap Sample.registrar Sample.method_of_other <= 1)%nat.
Proof.
  assert (W : well_formed Sample.heap Sample.registrar).
  { split.
    - repeat constructor; cbn; intuition discriminate.
    - repeat constructor; cbn; try discriminate; intros; reflexivity. }
  split; [exact W|].
  exact (proj2 (proj2 (handlers_yields_live_handlers_once Sample.heap
                         Sample.registrar W)) Sample.method_of_other).
Defined.

End RegistrarMore.

Section RegistrarOperations.

Import extensionPoints registrarFacts registrarInputs.

(** The item [register] stores for a handler. *)
Lemma registered_item heap allow r h r1 :
  sane heap h -> register heap allow r h = Returned r1 ->
  exists weak,
    r1 = mkRegistrar (_deprecationMessage r)
           (OrderedDict.setitem (_handlers r) (_getHandlerKey heap h) weak) /\
    item_ok heap (_getHandlerKey heap h, weak) /\
    (live heap h = true ->
     exists y, yield_from heap [weak] = ([y], None) /\ handler_eqb h y = true) /\
    (live heap h = false -> yield_from heap [weak] = ([], None)).
Proof.
  unfold register. intros Hsane.
  destruct (is_unbound_method h); [discriminate|].
  destruct (_ && negb allow); [discriminate|].
  intros [= <-].
  destruct h as [i ps|i inst func|i];
    [exists (AnnotatableWeakref (Function i ps) (_getHandlerKey heap (Function i ps)))
    |exists (BoundMethodWeakref inst func (_getHandlerKey heap (BoundMethod i inst func)))
    |exists (AnnotatableWeakref (CallableObject i) (_getHandlerKey heap (CallableObject i)))];
    (split; [reflexivity|]); cbn [live sane] in *.
  - split; [split; [reflexivity|split; [reflexivity|discriminate]]|].
    split; intros Hlive; cbn; rewrite Hlive; [|reflexivity].
    exists (Function i ps). cbn. rewrite Nat.eqb_refl. split; reflexivity.
  - split.
    { split; [reflexivity|]. cbn. split; [|exact Hsane].
      intros Htruth. rewrite Htruth. reflexivity. }
    split; intros Hlive; cbn.
    + apply andb_prop in Hlive. destruct Hlive as [Hlive Hfunc].
      rewrite Hlive, Hfunc. cbn.
      exists (BoundMethod (bound_id heap func inst) inst func).
      cbn. rewrite !Nat.eqb_refl. split; reflexivity.
    + destruct (alive heap inst && truth heap inst) eqn:E; cbn; [|reflexivity].
      cbn in Hlive. apply andb_prop in E. destruct E as [Hinst _].
      rewrite (Hsane Hinst) in Hlive. discriminate.
  - split; [split; [reflexivity|split; [reflexivity|discriminate]]|].
    split; intros Hlive; cbn.
    + apply andb_prop in Hlive. destruct Hlive as [Hobj Htruth].
      rewrite Hobj. cbn. rewrite Htruth. cbn. exists (CallableObject i).
      cbn. rewrite Nat.eqb_refl. split; reflexivity.
    + destruct (alive heap i); cbn; [|reflexivity].
      cbn in Hlive. rewrite Hlive. reflexivity.
Qed.

(** X13. Registration order is iteration order.  Registering a handler
    whose key is new keeps the registrar well formed and puts its item last:
    [handlers] yields what it yielded before, in the same order, followed by
    the new handler when that one is alive and true. *)
Theorem register_new_handler_is_yielded_last heap allow r h r1 :
  well_formed heap r -> sane heap h ->
  OrderedDict.contains (_handlers r) (_getHandlerKey heap h) = false ->
  register heap allow r h = Returned r1 ->
  well_formed heap r1 /\
  OrderedDict.keys (_handlers r1)
    = OrderedDict.keys (_handlers r) ++ [_getHandlerKey heap h] /\
  (live heap h = true ->
   exists y, handler_eqb h y = true /\
             fst (handlers heap r1) = fst (handlers heap r) ++ [y]) /\
  (live heap h = false -> fst (handlers heap r1) = fst (handlers heap r)).
Proof.
  intros [Hnodup Hitems] Hsane Hnew Hreg.
  destruct (registered_item heap allow r h r1 Hsane Hreg)
    as (weak & -> & Hitem & Hlive & Hdead).
  cbn [_handlers].
  split; [split; cbn [_handlers];
          [apply setitem_nodup, Hnodup | apply setitem_forall; assumption]|].
  split; [apply setitem_keys_absent, Hnew|].
  apply not_contains in Hnew. rewrite (setitem_absent _ _ weak Hnew).
  assert (Hsplit : forall msg,
             fst (handlers heap (mkRegistrar msg (_handlers r ++ [(_getHandlerKey heap h, weak)])))
             = fst (handlers heap r) ++ fst (yield_from heap [weak])).
  { intros msg. rewrite handlers_app by exact Hitems. reflexivity. }
  split; intros Hl; rewrite Hsplit.
  - destruct (Hlive Hl) as (y & -> & Heq). exists y. split; [exact Heq | reflexivity].
  - rewrite (Hdead Hl). apply app_nil_r.
Qed.

Lemma register_new_handler_is_yielded_last_witness :
  well_formed Sample.heap Sample.registrar /\
  OrderedDict.contains (_handlers Sample.registrar)
    (_getHandlerKey Sample.heap (BoundMethod 12 5 2)) = false /\
  fst (handlers Sample.heap Sample.registrar)
    = [Sample.function; BoundMethod 1005 3 2] /\
  exists r1 y,
    register Sample.heap true Sample.registrar (BoundMethod 12 5 2) = Returned r1 /\
    OrderedDict.keys (_handlers r1) = [KeyId 20; KeyPair 3 2; KeyId 10; KeyPair 5 2] /\
    handler_eqb (BoundMethod 12 5 2) y = true /\
    fst (handlers Sample.heap r1) = [Sample.function; BoundMethod 1005 3 2; y].
Proof.
  assert (W : well_formed Sample.heap Sample.registrar).
  { split.
    - repeat constructor; cbn; intuition discriminate.
    - repeat constructor; cbn; try discriminate; intros; reflexivity. }
  split; [exact W|]. split; [reflexivity|]. split; [reflexivity|].
  destruct (register_new_handler_is_yielded_last Sample.heap true Sample.registrar
              (BoundMethod 12 5 2) _ W (fun _ => eq_refl) eq_refl eq_refl)
    as (_ & Hkeys & Hlive & _).
  destruct (Hlive eq_refl) as (y & Heq & Hy).
  eexists. exists y. split; [reflexivity|]. split; [exact Hkeys|].
  split; [exact Heq | exact Hy].
Defined.

(** X14. [unregister] undoes the registration of a new handler: when the
    key of the handler was not registered, registering and then unregistering
    it returns [True] and gives back the registrar as it was, items and order
    included. *)
Theorem unregister_undoes_register heap allow r h r1 :
  OrderedDict.contains (_handlers r) (_getHandlerKey heap h) = false ->
  register heap allow r h = Returned r1 ->
  unregister heap r1 h = (true, r).
Proof.
  intros Hnew. unfold register.
  destruct (is_unbound_method h); [discriminate|].
  destruct (_ && negb allow); [discriminate|].
  intros [= <-]. apply not_contains in Hnew.
  unfold unregister, OrderedDict.delitem. cbn [_handlers _deprecationMessage].
  rewrite setitem_absent by exact Hnew.
  rewrite contains_middle. rewrite remove_middle by exact Hnew.
  rewrite app_nil_r. destruct r. reflexivity.
Qed.

Lemma unregister_undoes_register_witness :
  OrderedDict.contains (_handlers Sample.registrar)
    (_getHandlerKey Sample.heap (Function 21 [])) = false /\
  exists r1,
    register Sample.heap true Sample.registrar (Function 21 []) = Returned r1 /\
    unregister Sample.heap r1 (Function 21 []) = (true, Sample.registrar).
Proof.
  split; [reflexivity|]. eexists. split; [reflexivity|].
  apply (unregister_undoes_register Sample.heap true Sample.registrar (Function 21 []));
    reflexivity.
Defined.

Lemma remove_keys d k :
  NoDup (OrderedDict.keys d) ->
  NoDup (OrderedDict.keys (OrderedDict.remove d k)) /\
  ~ In k (OrderedDict.keys (OrderedDict.remove d k)) /\
  (forall P, Forall P d -> Forall P (OrderedDict.remove d k)).
Proof.
  intros Hnodup. destruct (OrderedDict.contains d k) eqn:E.
  - destruct (contains_split d k E) as (d1 & v & d2 & -> & Hnot).
    rewrite remove_middle by exact Hnot.
    unfold OrderedDict.keys in *. rewrite map_app in *. cbn [map fst] in Hnodup.
    split; [exact (NoDup_remove_1 _ _ _ Hnodup)|].
    split; [exact (NoDup_remove_2 _ _ _ Hnodup)|].
    intros P HP. apply Forall_app in HP. destruct HP as [H1 H2].
    inversion H2; subst. apply Forall_app. split; assumption.
  - apply not_contains in E. rewrite remove_absent by exact E.
    split; [exact Hnodup|]. split; [exact E|]. intros P HP. exact HP.
Qed.

(** X15. [unregister] of a handler that is not registered returns [False]
    and leaves the registrar as it is; and after an [unregister] that
    returned [True] on a well-formed registrar, the registrar is still well
    formed, the handler is no longer yielded, and unregistering it again
    returns [False]. *)
Theorem unregister_removes_once heap r h :
  (OrderedDict.contains (_handlers r) (_getHandlerKey heap h) = false ->
   unregister heap r h = (false, r)) /\
  (forall r1,
     well_formed heap r -> unregister heap r h = (true, r1) ->
     well_formed heap r1 /\
     times_yielded heap r1 h = 0%nat /\
     unregister heap r1 h = (false, r1)).
Proof.
  split.
  - intros Hnew. unfold unregister, OrderedDict.delitem. rewrite Hnew. reflexivity.
  - intros r1 [Hnodup Hitems]. unfold unregister, OrderedDict.delitem.
    destruct (OrderedDict.contains _ _); [|discriminate].
    intros [= <-]. cbn [_handlers].
    destruct (remove_keys (_handlers r) (_getHandlerKey heap h) Hnodup)
      as (Hnodup1 & Hgone & Hkeep).
    split; [split; [exact Hnodup1 | apply Hkeep, Hitems]|]. split.
    + unfold times_yielded, handlers. cbn [_handlers].
      rewrite absent_not_yielded; [reflexivity | apply Hkeep, Hitems | exact Hgone].
    + apply not_contains in Hgone. rewrite Hgone. reflexivity.
Qed.

Lemma unregister_removes_once_witness :
  well_formed Sample.heap Sample.registrar /\
  exists r1,
    unregister Sample.heap Sample.registrar Sample.method_of_other = (true, r1) /\
    unregister Sample.heap r1 Sample.method_of_other = (false, r1).
Proof.
  assert (W : well_formed Sample.heap Sample.registrar).
  { split.
    - repeat constructor; cbn; intuition discriminate.
    - repeat constructor; cbn; try discriminate; intros; reflexivity. }
  split; [exact W|]. eexists. split; [reflexivity|].
  exact (proj2 (proj2 (proj2 (unregister_removes_once Sample.heap Sample.registrar
                                Sample.method_of_other) _ W eq_refl))).
Defined.

End RegistrarOperations.

Section RegistrarOrder.

Import extensionPoints registrarFacts registrarInputs.

Lemma others_without h l : filter (handler_eqb h) l = [] -> others h l = l.
Proof.
  unfold others. induction l as [|y l IH]; cbn; [reflexivity|].
  destruct (handler_eqb h y); cbn; [discriminate|]. intros H. now rewrite IH.
Qed.

Lemma others_app h l1 l2 : others h (l1 ++ l2) = others h l1 ++ others h l2.
Proof. unfold others. apply filter_app. Qed.

(** The item of a handler that is yielded, and the items around it. *)
Lemma yielded_item heap h d :
  NoDup (OrderedDict.keys d) -> Forall (item_ok heap) d ->
  List.length (filter (handler_eqb h) (fst (yield_from heap (OrderedDict.values d))))
    = 1%nat ->
  exists d1 weak d2 y,
    d = d1 ++ (_getHandlerKey heap h, weak) :: d2 /\
    ~ In (_getHandlerKey heap h) (OrderedDict.keys d1) /\
    ~ In (_getHandlerKey heap h) (OrderedDict.keys d2) /\
    yield_from heap [weak] = ([y], None) /\ handler_eqb h y = true.
Proof.
  intros Hnodup Hitems. revert Hnodup.
  induction Hitems as [|[k w] d Hitem Hitems IH]; intros Hnodup; [discriminate|].
  unfold OrderedDict.keys in Hnodup. cbn [map fst] in Hnodup.
  inversion Hnodup as [|x l Hfresh Hnodup']; subst.
  specialize (IH Hnodup').
  assert (Hlater : List.length
                     (filter (handler_eqb h)
                        (fst (yield_from heap (OrderedDict.values d)))) = 1%nat ->
                   exists d1 weak d2 y,
                     (k, w) :: d = d1 ++ (_getHandlerKey heap h, weak) :: d2 /\
                     ~ In (_getHandlerKey heap h) (OrderedDict.keys d1) /\
                     ~ In (_getHandlerKey heap h) (OrderedDict.keys d2) /\
                     yield_from heap [weak] = ([y], None) /\ handler_eqb h y = true).
  { intros Hone. destruct (IH Hone) as (d1 & weak & d2 & y & -> & H1 & H2 & Hy & Heq).
    exists ((k, w) :: d1), weak, d2, y. split; [reflexivity|].
    split; [|split; [exact H2 | split; assumption]].
    unfold OrderedDict.keys in *. cbn [map fst]. intros [->|Hin]; [|tauto].
    apply Hfresh. rewrite map_app. apply in_or_app. right. left. reflexivity. }
  unfold OrderedDict.values in *. cbn [map snd yield_from].
  destruct (item_ok_deref heap k w Hitem) as [v Hv]. rewrite Hv.
  destruct v as [y|]; [|exact Hlater].
  destruct (handler_truth heap y) eqn:Htruth; cbn [negb]; [|exact Hlater].
  pose proof (absent_not_yielded heap h d Hitems) as Habsent.
  unfold OrderedDict.values in Habsent.
  destruct (yield_from heap (map snd d)) as [more e] eqn:Hrest. cbn [fst filter] in *.
  destruct (handler_eqb h y) eqn:Heq; [|exact Hlater].
  intros _.
  assert (Hlive : live heap h = true).
  { rewrite (live_eqb heap h y Heq). exact (yielded_live heap k w y Hitem Hv Htruth). }
  pose proof (yielded_key heap h k w y Hlive Hitem Hv Heq) as Hk. subst k.
  exists [], w, d, y. split; [reflexivity|]. split; [intros []|].
  split; [exact Hfresh|]. split; [|exact Heq].
  cbn. rewrite Hv, Htruth. reflexivity.
Qed.

(** X16. [moveToEnd] of a handler that is not registered returns [False]
    and changes nothing.  For a handler that [handlers] yields, it returns
    [True], keeps the registrar well formed, and afterwards [handlers] yields
    the other handlers in the order they had, with this one after them when
    [last] is true and before them -- the default of the method -- when it is
    false. *)
Theorem moveToEnd_places_handler heap r h last :
  (OrderedDict.contains (_handlers r) (_getHandlerKey heap h) = false ->
   moveToEnd heap r h last = (false, r)) /\
  (well_formed heap r -> times_yielded heap r h = 1%nat ->
   exists r1 y,
     moveToEnd heap r h last = (true, r1) /\
     well_formed heap r1 /\
     handler_eqb h y = true /\
     fst (handlers heap r1) =
       if last then others h (fst (handlers heap r)) ++ [y]
       else y :: others h (fst (handlers heap r))).
Proof.
  split.
  - intros Hnew. apply not_contains in Hnew.
    unfold moveToEnd, OrderedDict.move_to_end.
    rewrite getitem_absent by exact Hnew. reflexivity.
  - intros [Hnodup Hitems] Hone. unfold times_yielded, handlers in Hone.
    destruct (yielded_item heap h (_handlers r) Hnodup Hitems Hone)
      as (d1 & weak & d2 & y & Hd & H1 & H2 & Hy & Heq).
    destruct r as [msg d]. cbn [_handlers _deprecationMessage] in *. subst d.
    apply Forall_app in Hitems. destruct Hitems as [Hitems1 Hitems2].
    inversion Hitems2 as [|x l Hitem Hitems2']; subst.
    unfold moveToEnd, OrderedDict.move_to_end. cbn [_handlers _deprecationMessage].
    rewrite getitem_middle, remove_middle by exact H1.
    eexists. exists y. split; [reflexivity|].
    assert (Hperm : Permutation
                      (OrderedDict.keys (d1 ++ (_getHandlerKey heap h, weak) :: d2))
                      (_getHandlerKey heap h :: OrderedDict.keys (d1 ++ d2))).
    { unfold OrderedDict.keys. rewrite !map_app. cbn [map fst].
      symmetry. apply Permutation_middle. }
    assert (Hold : fst (handlers heap
                         (mkRegistrar msg (d1 ++ (_getHandlerKey heap h, weak) :: d2)))
                   = fst (handlers heap (mkRegistrar msg d1)) ++ [y]
                       ++ fst (handlers heap (mkRegistrar msg d2))).
    { rewrite handlers_app by exact Hitems1.
      change ((_getHandlerKey heap h, weak) :: d2)
        with ([(_getHandlerKey heap h, weak)] ++ d2).
      rewrite handlers_app by (constructor; [exact Hitem | constructor]).
      unfold handlers at 2. cbn [_handlers OrderedDict.values map snd].
      rewrite Hy. reflexivity. }
    assert (Hothers : others h (fst (handlers heap
                         (mkRegistrar msg (d1 ++ (_getHandlerKey heap h, weak) :: d2))))
                      = fst (handlers heap (mkRegistrar msg d1))
                          ++ fst (handlers heap (mkRegistrar msg d2))).
    { rewrite Hold, !others_app.
      rewrite (others_without h (fst (handlers heap (mkRegistrar msg d1))))
        by (apply absent_not_yielded; assumption).
      rewrite (others_without h (fst (handlers heap (mkRegistrar msg d2))))
        by (apply absent_not_yielded; assumption).
      unfold others. cbn [filter]. rewrite Heq. reflexivity. }
    rewrite Hothers.
    assert (Hrest : Forall (item_ok heap) (d1 ++ d2))
      by (apply Forall_app; split; assumption).
    assert (Hsingle : fst (handlers heap (mkRegistrar msg [(_getHandlerKey heap h, weak)]))
                      = [y]).
    { unfold handlers. cbn [_handlers OrderedDict.values map snd]. rewrite Hy. reflexivity. }
    destruct last.
    + split; [split; cbn [_handlers]|split; [exact Heq|]].
      * apply (Permutation_NoDup (l := _getHandlerKey heap h
                                         :: OrderedDict.keys (d1 ++ d2))).
        -- unfold OrderedDict.keys. rewrite !map_app. cbn [map fst].
           rewrite <- map_app. apply Permutation_cons_append.
        -- exact (Permutation_NoDup Hperm Hnodup).
      * apply Forall_app. split; [exact Hrest | constructor; [exact Hitem|constructor]].
      * rewrite handlers_app by exact Hrest.
        rewrite handlers_app by exact Hitems1. rewrite Hsingle. reflexivity.
    + split; [split; cbn [_handlers]|split; [exact Heq|]].
      * exact (Permutation_NoDup Hperm Hnodup).
      * constructor; assumption.
      * change ((_getHandlerKey heap h, weak) :: d1 ++ d2)
          with ([(_getHandlerKey heap h, weak)] ++ (d1 ++ d2)).
        rewrite handlers_app by (constructor; [exact Hitem | constructor]).
        rewrite Hsingle. rewrite handlers_app by exact Hitems1. reflexivity.
Qed.

Lemma moveToEnd_places_handler_witness :
  well_formed Sample.heap Sample.registrar /\
  times_yielded Sample.heap Sample.registrar Sample.method_of_other = 1%nat /\
  exists r1 y,
    moveToEnd Sample.heap Sample.registrar Sample.method_of_other false = (true, r1) /\
    handler_eqb Sample.method_of_other y = true /\
    fst (handlers Sample.heap r1)
      = y :: others Sample.method_of_other (fst (handlers Sample.heap Sample.registrar)).
Proof.
  assert (W : well_formed Sample.heap Sample.registrar).
  { split.
    - repeat constructor; cbn; intuition discriminate.
    - repeat constructor; cbn; try discriminate; intros; reflexivity. }
  assert (O : times_yielded Sample.heap Sample.registrar Sample.method_of_other = 1%nat)
    by reflexivity.
  split; [exact W|]. split; [exact O|].
  destruct (proj2 (moveToEnd_places_handler Sample.heap Sample.registrar
                     Sample.method_of_other false) W O)
    as (r1 & y & Hmove & _ & Heq & Hy).
  exists r1, y. split; [exact Hmove|]. split; [exact Heq | exact Hy].
Defined.

(** X17. The key of a bound method depends on the truth value of its
    instance.  A method registered while its instance was true (a container
    that was not empty, a window that existed) cannot be unregistered through
    the handler once the instance has become false: [unregister] looks under
    the identity of the method object, finds nothing, returns [False], and the
    item stays under the pair of identities. *)
Theorem unregister_misses_after_truth_change heap1 heap2 allow r i inst func r1 :
  truth heap1 inst = true -> truth heap2 inst = false ->
  OrderedDict.contains (_handlers r) (KeyId i) = false ->
  register heap1 allow r (BoundMethod i inst func) = Returned r1 ->
  unregister heap2 r1 (BoundMethod i inst func) = (false, r1) /\
  OrderedDict.contains (_handlers r1) (KeyPair inst func) = true.
Proof.
  intros H1 H2 Hnew. unfold register. cbn [is_unbound_method].
  destruct (_ && negb allow); [discriminate|].
  intros [= <-]. cbn [_handlers _getHandlerKey]. rewrite H1.
  assert (Hstill : OrderedDict.contains
                     (OrderedDict.setitem (_handlers r) (KeyPair inst func)
                        (BoundMethodWeakref inst func (KeyPair inst func)))
                     (KeyId i) = false).
  { apply not_contains. apply not_contains in Hnew.
    destruct (OrderedDict.contains (_handlers r) (KeyPair inst func)) eqn:E.
    - rewrite setitem_keys_present by exact E. exact Hnew.
    - rewrite setitem_keys_absent by exact E.
      intros Hin. apply in_app_or in Hin. destruct Hin as [Hin|[Hin|[]]];
        [tauto | discriminate]. }
  split.
  - unfold unregister, OrderedDict.delitem. cbn [_handlers _getHandlerKey].
    rewrite H2, Hstill. reflexivity.
  - apply contains_in.
    exact (in_map fst _ _ (setitem_in (_handlers r) (KeyPair inst func)
                             (BoundMethodWeakref inst func (KeyPair inst func)))).
Qed.

Lemma unregister_misses_after_truth_change_witness :
  truth Sample.full_heap 1 = true /\ truth Sample.heap 1 = false /\
  exists r1,
    register Sample.full_heap true (new None) Sample.method_of_empty = Returned r1 /\
    unregister Sample.heap r1 Sample.method_of_empty = (false, r1).
Proof.
  split; [reflexivity|]. split; [reflexivity|].
  eexists. split; [reflexivity|].
  exact (proj1 (unregister_misses_after_truth_change Sample.full_heap Sample.heap true
                  (new None) 10 1 2 _ eq_refl eq_refl eq_refl eq_refl)).
Defined.

End RegistrarOrder.

Section RegistrarInvariant.

Import extensionPoints registrarFacts registrarInputs.

Lemma getitem_split d k v :
  OrderedDict.getitem d k = Some v ->
  exists d1 d2, d = d1 ++ (k, v) :: d2 /\ ~ In k (OrderedDict.keys d1).
Proof.
  unfold OrderedDict.keys. induction d as [|[k' v'] d IH]; cbn; [discriminate|].
  destruct (key_eqb k' k) eqn:E.
  - intros [= <-]. apply key_eqb_eq in E. subst.
    exists [], d. split; [reflexivity | tauto].
  - intros H. destruct (IH H) as (d1 & d2 & -> & Hnot).
    exists ((k', v') :: d1), d2. split; [reflexivity|].
    cbn. intros [->|Hin]; [rewrite key_eqb_refl in E; discriminate | tauto].
Qed.

Lemma register_keeps_well_formed heap heap0 allow r h r1 :
  well_formed heap r -> settled heap (heap0, Register h) ->
  register heap0 allow r h = Returned r1 ->
  well_formed heap r1.
Proof.
  intros [Hnodup Hitems] Hs. unfold register.
  destruct (is_unbound_method h); [discriminate|].
  destruct (_ && negb allow); [discriminate|].
  intros [= <-]. split; cbn [_handlers]; [apply setitem_nodup, Hnodup|].
  apply setitem_forall; [exact Hitems|].
  destruct h as [i ps|i inst func|i]; cbn [settled snd fst] in Hs.
  - split; [reflexivity|]. cbn. split; [reflexivity | discriminate].
  - destruct Hs as [Ht Ha]. split; [reflexivity|]. cbn. split; [|exact Ha].
    intros Htrue. rewrite (Ht Htrue). reflexivity.
  - split; [reflexivity|]. cbn. split; [reflexivity | discriminate].
Qed.

Lemma delitem_keeps_well_formed heap r k :
  well_formed heap r ->
  well_formed heap
    (match OrderedDict.delitem (_handlers r) k with
     | None => r
     | Some d => mkRegistrar (_deprecationMessage r) d
     end).
Proof.
  intros [Hnodup Hitems]. unfold OrderedDict.delitem.
  destruct (OrderedDict.contains _ _); [|split; assumption].
  destruct (remove_keys (_handlers r) k Hnodup) as (H1 & _ & H2).
  split; cbn [_handlers]; [exact H1 | apply H2, Hitems].
Qed.

Lemma move_to_end_keeps_well_formed heap r k last :
  well_formed heap r ->
  well_formed heap
    (match OrderedDict.move_to_end (_handlers r) k last with
     | None => r
     | Some d => mkRegistrar (_deprecationMessage r) d
     end).
Proof.
  intros [Hnodup Hitems]. unfold OrderedDict.move_to_end.
  destruct (OrderedDict.getitem _ _) as [v|] eqn:E; [|split; assumption].
  destruct (getitem_split _ _ _ E) as (d1 & d2 & Hd & Hnot).
  rewrite Hd in *. rewrite remove_middle by exact Hnot.
  apply Forall_app in Hitems. destruct Hitems as [Hitems1 Hitems2].
  inversion Hitems2 as [|x l Hitem Hitems2']; subst.
  assert (Hperm : Permutation
                    (OrderedDict.keys (d1 ++ (k, v) :: d2))
                    (k :: OrderedDict.keys (d1 ++ d2))).
  { unfold OrderedDict.keys. rewrite !map_app. cbn [map fst].
    symmetry. apply Permutation_middle. }
  assert (Hrest : Forall (item_ok heap) (d1 ++ d2))
    by (apply Forall_app; split; assumption).
  destruct last; split; cbn [_handlers].
  - apply (Permutation_NoDup (l := k :: OrderedDict.keys (d1 ++ d2))).
    + unfold OrderedDict.keys. rewrite !map_app. cbn [map fst].
      rewrite <- map_app. apply Permutation_cons_append.
    + exact (Permutation_NoDup Hperm Hnodup).
  - apply Forall_app. split; [exact Hrest | constructor; [exact Hitem|constructor]].
  - exact (Permutation_NoDup Hperm Hnodup).
  - constructor; assumption.
Qed.

Lemma apply_call_keeps_well_formed heap allow r c :
  well_formed heap r -> settled heap c -> well_formed heap (apply_call allow r c).
Proof.
  intros Hr Hc. destruct c as [heap0 [h|h|weak|h last|weak last]];
    unfold apply_call; cbn [fst snd].
  - destruct (register heap0 allow r h) as [r1|e] eqn:E; [|exact Hr].
    exact (register_keeps_well_formed heap heap0 allow r h r1 Hr Hc E).
  - unfold unregister.
    generalize (delitem_keeps_well_formed heap r (_getHandlerKey heap0 h) Hr).
    destruct (OrderedDict.delitem _ _); intros H; exact H.
  - unfold unregister_weak.
    generalize (delitem_keeps_well_formed heap r (handlerKey_of weak) Hr).
    destruct (OrderedDict.delitem _ _); intros H; exact H.
  - unfold moveToEnd.
    generalize (move_to_end_keeps_well_formed heap r (_getHandlerKey heap0 h) last Hr).
    destruct (OrderedDict.move_to_end _ _ _); intros H; exact H.
  - unfold moveToEnd_weak.
    generalize (move_to_end_keeps_well_formed heap r (handlerKey_of weak) last Hr).
    destruct (OrderedDict.move_to_end _ _ _); intros H; exact H.
Qed.

(** The restriction on truth values is needed: a method registered while
    its instance is false and again when the instance is true is stored under
    two keys, and yielded twice. *)
Lemma truth_change_yields_twice :
  apply_calls true (new None) truth_changing_calls
    = mkRegistrar None
        [(KeyId 10, BoundMethodWeakref 1 2 (KeyId 10));
         (KeyPair 1 2, BoundMethodWeakref 1 2 (KeyPair 1 2))] /\
  times_yielded Sample.full_heap (apply_calls true (new None) truth_changing_calls)
    Sample.method_of_empty = 2%nat /\
  ~ Forall (settled Sample.full_heap) truth_changing_calls.
Proof.
  split; [reflexivity|]. split; [reflexivity|].
  intros H. inversion H as [|c l Hc _]; subst.
  destruct Hc as [Ht _]. specialize (Ht eq_refl). discriminate Ht.
Qed.

(** X18. A registrar stays well formed while the heap changes.  The calls
    of a sequence of [register], [unregister] and [moveToEnd] calls on an
    empty registrar are made each in the heap of its moment; [heap] is the
    heap of a later moment, in which no instance of a method registered while
    it was false has become true and the function of a registered method is
    alive when its instance is (objects may have died, and true instances may
    have become false).  Then the keys are distinct and each item is
    consistent with its weak reference in [heap]; so [handlers] never raises
    the [AssertionError] of [BoundMethodWeakref.__call__] and never yields a
    handler twice. *)
Theorem registrar_stays_well_formed heap allow msg calls :
  Forall (settled heap) calls ->
  let r := apply_calls allow (new msg) calls in
  well_formed heap r /\
  snd (handlers heap r) = None /\
  (forall h, (times_yielded heap r h <= 1)%nat).
Proof.
  intros Hsettled r.
  assert (Hwf : well_formed heap r).
  { subst r. unfold apply_calls.
    assert (Hstart : well_formed heap (new msg)) by (split; constructor).
    revert Hstart. generalize (new msg).
    induction Hsettled as [|c calls Hc _ IH]; intros r0 Hr0; [exact Hr0|].
    cbn [fold_left]. apply IH, apply_call_keeps_well_formed; assumption. }
  split; [exact Hwf|]. destruct Hwf as [Hnodup Hitems].
  split; [apply iteration_completes, Hitems|].
  intros h. apply yielded_at_most_once; assumption.
Qed.

Lemma registrar_stays_well_formed_witness :
  Forall (settled Sample.heap) sample_registrar_calls /\
  apply_calls true (new None) sample_registrar_calls
    = mkRegistrar None
        [(KeyPair 3 2, BoundMethodWeakref 3 2 (KeyPair 3 2));
         (KeyId 20, AnnotatableWeakref Sample.function (KeyId 20));
         (KeyPair 1 2, BoundMethodWeakref 1 2 (KeyPair 1 2))] /\
  handlers Sample.heap (apply_calls true (new None) sample_registrar_calls)
    = ([BoundMethod 1005 3 2; Sample.function], None) /\
  (times_yielded Sample.heap (apply_calls true (new None) sample_registrar_calls)
     Sample.method_of_other <= 1)%nat.
Proof.
  assert (S : Forall (settled Sample.heap) sample_registrar_calls).
  { repeat constructor; cbn; intros H; try reflexivity; discriminate H. }
  split; [exact S|]. split; [reflexivity|]. split; [reflexivity|].
  exact (proj2 (proj2 (registrar_stays_well_formed Sample.heap true None
                         sample_registrar_calls S)) Sample.method_of_other).
Defined.

(** X19. When the referent of an item dies, the callback of its weak
    reference calls [unregister] with that weak reference, which carries the
    key the item was stored under.  For a handler registered under a new key
    this removes the item and gives back the registrar as it was before the
    registration -- whatever has become of the truth value of the instance
    in the meantime. *)
Theorem death_callback_removes_item heap allow r h r1 :
  OrderedDict.contains (_handlers r) (_getHandlerKey heap h) = false ->
  register heap allow r h = Returned r1 ->
  exists weak,
    In (_getHandlerKey heap h, weak) (_handlers r1) /\
    handlerKey_of weak = _getHandlerKey heap h /\
    unregister_weak r1 weak = (true, r).
Proof.
  intros Hnew. unfold register.
  destruct (is_unbound_method h); [discriminate|].
  destruct (_ && negb allow); [discriminate|].
  intros [= <-]. apply not_contains in Hnew. cbn [_handlers].
  eexists. split; [apply setitem_in|].
  assert (Hkey : handlerKey_of
                   match h with
                   | BoundMethod _ inst func =>
                       BoundMethodWeakref inst func (_getHandlerKey heap h)
                   | _ => AnnotatableWeakref h (_getHandlerKey heap h)
                   end = _getHandlerKey heap h) by (destruct h; reflexivity).
  split; [exact Hkey|].
  unfold unregister_weak, OrderedDict.delitem.
  cbn [_handlers _deprecationMessage]. rewrite Hkey.
  rewrite setitem_absent by exact Hnew.
  rewrite contains_middle. rewrite remove_middle by exact Hnew.
  rewrite app_nil_r. destruct r. reflexivity.
Qed.

Lemma death_callback_removes_item_witness :
  OrderedDict.contains (_handlers (new None))
    (_getHandlerKey Sample.full_heap Sample.method_of_empty) = false /\
  exists r1 weak,
    register Sample.full_heap true (new None) Sample.method_of_empty = Returned r1 /\
    unregister_weak r1 weak = (true, new None).
Proof.
  split; [reflexivity|].
  destruct (death_callback_removes_item Sample.full_heap true (new None)
              Sample.method_of_empty _ eq_refl eq_refl) as (weak & _ & _ & H).
  eexists. exists weak. split; [reflexivity | exact H].
Defined.

(** X20. The assertion of [BoundMethodWeakref.__call__].  When an item
    refers to an instance that is alive and true and to a function that is
    dead, the iteration of [handlers] ends there with [AssertionError]: it has
    yielded the handlers of the items before, and yields none of those
    after. *)
Theorem handlers_stops_at_dead_function heap msg d1 k inst func k' d2 :
  Forall (item_ok heap) d1 ->
  alive heap inst = true -> truth heap inst = true -> alive heap func = false ->
  handlers heap (mkRegistrar msg (d1 ++ (k, BoundMethodWeakref inst func k') :: d2))
    = (fst (handlers heap (mkRegistrar msg d1)), Some AssertionError).
Proof.
  intros Hitems Halive Htruth Hdead. unfold handlers. cbn [_handlers].
  unfold OrderedDict.values at 1. rewrite map_app.
  change (map snd d1) with (OrderedDict.values d1).
  rewrite (yield_app heap d1 _ Hitems).
  cbn [map snd yield_from deref]. rewrite Halive, Htruth, Hdead. cbn.
  rewrite app_nil_r. reflexivity.
Qed.

Lemma handlers_stops_at_dead_function_witness :
  Forall (item_ok Sample.orphan_heap)
    [(KeyId 20, AnnotatableWeakref Sample.function (KeyId 20))] /\
  handlers Sample.orphan_heap Sample.registrar = ([Sample.function], Some AssertionError).
Proof.
  assert (F : Forall (item_ok Sample.orphan_heap)
                [(KeyId 20, AnnotatableWeakref Sample.function (KeyId 20))]).
  { repeat constructor; discriminate. }
  split; [exact F|].
  exact (handlers_stops_at_dead_function Sample.orphan_heap None _ (KeyPair 3 2) 3 2
           (KeyPair 3 2) _ F eq_refl eq_refl eq_refl).
Defined.

End RegistrarInvariant.

(** * Further invariants of SecureDesktopHandler *)

Lemma setter_stores_session env session st :
  _followerSession (self (final (followerSession_setter env session st))) = session.
Proof.
  destruct (session_eqb (_followerSession (self st)) session) eqn:E.
  - pose proof E as E'. apply session_eqb_eq in E'.
    unfold followerSession_setter. cbv [bind get ret final]. rewrite E. exact E'.
  - destruct (setter_changed env session st E) as (_ & -> & _). reflexivity.
Qed.

(** X21. Assigning [followerSession] twice is assigning it once: whatever
    the first assignment did -- also when it raised [AttributeError] because
    the session had no transport -- a second assignment of the same session
    changes nothing and makes no call.  In particular it does not install the
    hook that the failed assignment did not install. *)
Theorem setter_again_does_nothing env env' session st :
  followerSession_setter env' session (final (followerSession_setter env session st))
    = (Returned tt, final (followerSession_setter env session st), []).
Proof.
  pose proof (setter_stores_session env session st) as Hstored.
  unfold followerSession_setter at 1. cbv [bind get ret].
  rewrite Hstored.
  replace (session_eqb session session) with true; [reflexivity|].
  symmetry. apply session_eqb_eq. reflexivity.
Qed.

Lemma leave_keeps_event_handle env st :
  _ipcEventHandle (self (final (leaveSecureDesktop env st))) = _ipcEventHandle (self st).
Proof.
  destruct_state st. unfold_methods.
  destruct server, bridge, relay, follower as [f|], address, mapFile;
    cbn; try destruct (transport env f); cbn;
    destruct (os_ResetEvent env); reflexivity.
Qed.

Lemma transition_keeps_attachment t env st :
  attached_server st ->
  attached_server (final (transition t env st)) /\
  _ipcEventHandle (self (final (transition t env st))) = _ipcEventHandle (self st).
Proof.
  unfold attached_server. intros Hinv. destruct t; cbn [transition].
  - enter_cases env st; unfold final; cbn [fst snd self];
      (split; [|reflexivity]); cbn; intros Hs;
      try specialize (Hinv Hs); congruence.
  - split; [|apply leave_keeps_event_handle].
    rewrite leave_server_none. congruence.
  - destruct (session_eqb (_followerSession (self st)) session) eqn:E.
    + apply session_eqb_eq in E. unfold followerSession_setter.
      cbv [bind get ret final]. apply session_eqb_eq in E. rewrite E.
      split; [assumption | reflexivity].
    + destruct (setter_changed env session st E) as (_ & -> & _).
      unfold set_followerSession. cbn [sdServer _followerSession _ipcEventHandle].
      unfold torn_down. destruct (sdServer (self st)) eqn:Hs.
      * split; [rewrite leave_server_none; congruence | apply leave_keeps_event_handle].
      * unfold final. cbn [fst snd]. split; [congruence | reflexivity].
Qed.

(** X22. In every state that a serial run of the transition methods reaches
    from the construction of the handler, whatever the operating system
    answers, a relay server is never held without a follower session, and the
    handle of the IPC event is still the one [CreateEvent] returned. *)
Theorem server_has_follower_session env0 w0 h w ops0 calls :
  __init__ env0 w0 = (Returned h, w, ops0) ->
  (sdServer (self (run calls (mkSt h w))) <> None ->
   _followerSession (self (run calls (mkSt h w))) <> None) /\
  (forall handle existed,
     os_CreateEvent env0 = Some (handle, existed) ->
     _ipcEventHandle (self (run calls (mkSt h w))) = handle).
Proof.
  intros Hinit. unfold __init__ in Hinit.
  destruct (os_CreateEvent env0) as [[handle0 existed0]|]; [|discriminate].
  injection Hinit as <- <- _.
  set (st0 := mkSt (mkHandler None None handle0 None None None None)
                (if existed0 then w0
                 else mkWorld (shm w0) (Win32.new_event false false _IPC_EVENTNAME))).
  assert (Hgen : forall st, attached_server st ->
                   attached_server (run calls st) /\
                   _ipcEventHandle (self (run calls st)) = _ipcEventHandle (self st)).
  { induction calls as [|[t env] calls IH]; intros st Hst; [split; [exact Hst|reflexivity]|].
    cbn [run]. destruct (transition_keeps_attachment t env st Hst) as [Hnext Hhandle].
    destruct (IH _ Hnext) as [Hend Hsame]. split; [exact Hend | congruence]. }
  destruct (Hgen st0) as [Hend Hsame]; [unfold attached_server; cbn; congruence|].
  split; [exact Hend|].
  intros handle existed [= <- _]. exact Hsame.
Qed.

Lemma server_has_follower_session_witness :
  __init__ Sample.env Sample.unborn
    = (Returned (self Sample.idle), world Sample.idle,
       [CallCreateEvent false false _IPC_EVENTNAME; StateChangeRegister]) /\
  _ipcEventHandle (self (run Sample.calls Sample.idle)) = 7%Z.
Proof.
  assert (I : __init__ Sample.env Sample.unborn
              = (Returned (self Sample.idle), world Sample.idle,
                 [CallCreateEvent false false _IPC_EVENTNAME; StateChangeRegister]))
    by reflexivity.
  split; [exact I|].
  exact (proj2 (server_has_follower_session Sample.env Sample.unborn _ _ _
                  Sample.calls I) 7%Z false eq_refl).
Defined.
